(** * Parking gate controller: a shallow embedding of the Raspberry Pi side

    The development follows the Python sources module by module:
    [fee_calculator.py], [config_manager.py], [camera_handler.py],
    [data_manager.py], [serial_comm.py] and [main.py].  Part I is the
    embedding of the program, Part II the vocabulary of the statements
    together with sample data, Part III the lemmas and theorems.

    Conventions of the embedding.
    - A Python call that may raise is a value of [res A]: [inl e] is the
      exception [e] propagating, [inr v] the returned value.
    - Values read from JSON files are of type [json]; Python's dynamic
      checks ([.get] on a non-dict, iteration over a number, ...) are
      written out as the exceptions the interpreter raises.
    - [float] quantities (seconds, hours, fees, contour areas) are
      rationals: rounding of binary floating point is not modelled.
    - [datetime] values are integers, the number of microseconds since
      the epoch of the type; [datetime.isoformat] and
      [datetime.fromisoformat] are fields of the class [DateCodec], and
      so is whether the [datetime] parsed from a string is aware (the
      string carries a UTC offset): an aware [datetime] cannot be
      compared with the naive [datetime.now()].
    - Calls to [logger], to the serial link, to [time.sleep], to the plate
      reader and to [threading.Timer] are recorded as [event]s.
    - Camera input and output, the serial transport, [start], [stop] and
      the polling of the main loop are outside the embedding: what they
      deliver (contours, clock readings, plate readings, messages) enters
      the functions below as arguments. *)

From Stdlib Require Import ZArith QArith Qround List String Ascii Bool Lia Lqa NArith.
Import ListNotations.
Local Open Scope string_scope.
Local Open Scope list_scope.
Local Open Scope Z_scope.

Set Implicit Arguments.

(* ================================================================== *)
(** * Part I: definitions                                              *)
(* ================================================================== *)

(** ** Python values and exceptions *)

Inductive exn : Type :=
| AttributeError | KeyError | TypeError | ValueError | IndexError
| FileNotFoundError | JSONDecodeError | OSError.

Definition res (A : Type) : Type := (exn + A)%type.

Definition ok {A} (a : A) : res A := inr a.
Definition raise {A} (e : exn) : res A := inl e.

Definition rbind {A B} (c : res A) (k : A -> res B) : res B :=
  match c with
  | inl e => inl e
  | inr a => k a
  end.

Declare Scope res_scope.
Delimit Scope res_scope with res.
Notation "x <- c ;; k" := (rbind c (fun x => k))
  (at level 61, c at next level, right associativity) : res_scope.

(** [try: body except Exception: return d] *)
Definition try_except {A} (body : res A) (d : A) : A :=
  match body with
  | inl _ => d
  | inr a => a
  end.

(** The values [json.load] produces. *)
#[warnings="-register-all"]
Inductive json : Type :=
| JNull
| JBool (b : bool)
| JInt (n : Z)
| JFloat (q : Q)
| JStr (s : string)
| JList (l : list json)
| JObj (kv : list (string * json)).

(** [d[k]] for a dict held as an association list, first binding wins. *)
Fixpoint lookup (k : string) (kv : list (string * json)) : option json :=
  match kv with
  | [] => None
  | (k', v) :: r => if String.eqb k k' then Some v else lookup k r
  end.

(** [d[k] = v]: an existing key keeps its position. *)
Fixpoint dict_set (k : string) (v : json) (kv : list (string * json))
  : list (string * json) :=
  match kv with
  | [] => [(k, v)]
  | (k', v') :: r =>
      if String.eqb k k' then (k', v) :: r else (k', v') :: dict_set k v r
  end.

(** [x.get(k, default)]; anything but a dict has no attribute [get]. *)
Definition py_get_default (x : json) (k : string) (d : json) : res json :=
  match x with
  | JObj kv => ok (match lookup k kv with Some v => v | None => d end)
  | _ => raise AttributeError
  end.

(** [x.get(k)] *)
Definition py_get (x : json) (k : string) : res json :=
  py_get_default x k JNull.

(** [x[k]] with a string key. *)
Definition py_subscript (x : json) (k : string) : res json :=
  match x with
  | JObj kv => match lookup k kv with Some v => ok v | None => raise KeyError end
  | _ => raise TypeError
  end.

Definition chars (s : string) : list json :=
  map (fun c => JStr (String c EmptyString)) (list_ascii_of_string s).

(** [for v in x]: the elements [x] yields. *)
Definition py_iter (x : json) : res (list json) :=
  match x with
  | JList l => ok l
  | JObj kv => ok (map (fun p => JStr (fst p)) kv)
  | JStr s => ok (chars s)
  | _ => raise TypeError
  end.

(** [len(x)] *)
Definition py_len (x : json) : res nat :=
  match x with
  | JList l => ok (List.length l)
  | JObj kv => ok (List.length kv)
  | JStr s => ok (String.length s)
  | _ => raise TypeError
  end.

(** [x.append(v)] *)
Definition py_append (x : json) (v : json) : res json :=
  match x with
  | JList l => ok (JList (l ++ [v]))
  | _ => raise AttributeError
  end.

(** [x == s] for a [str] [s]. *)
Definition eq_str (x : json) (s : string) : bool :=
  match x with
  | JStr s' => String.eqb s' s
  | _ => false
  end.

(** [range(lo, hi)] *)
Definition py_range (lo hi : Z) : list Z :=
  map (fun k => lo + Z.of_nat k) (seq 0 (Z.to_nat (hi - lo))).

(** ** Effects recorded in the trace *)

Inductive level : Type := DEBUG | INFO | WARNING | ERROR.

(** [class Zone(Enum)] of camera_handler.py *)
Inductive Zone : Type := ENTRY | EXIT.

Definition zone_value (z : Zone) : string :=
  match z with ENTRY => "entry" | EXIT => "exit" end.

Inductive timer_target : Type :=
| CloseEntryGateAfterTimeout
| CloseExitGateAfterTimeout.

Inductive event : Type :=
| Log (l : level) (msg : string)
| Send (command : string)            (* comm.send_command(command) *)
| Sleep (seconds : Q)                (* time.sleep(seconds) *)
| ExtractPlate                        (* camera_handler.extract_number_plate(zone_image) *)
| ExtractPlateFromZone                (* camera_handler.extract_number_plate_from_zone(frame, zone) *)
| Print (text : string)
| Callback (zone : Zone)              (* callback(frame.copy(), zone_frame.copy()) *)
| StartTimer (seconds : Q) (target : timer_target).

Definition datetime : Type := Z.

(** A file as the program finds it: missing, present but not valid JSON,
    present but not readable (any other [OSError] of [open]), or holding
    a JSON value. *)
Inductive file : Type :=
| Absent
| Invalid
| Unreadable
| Content (j : json).

(** [with open(path, 'r') as f: json.load(f)] *)
Definition open_and_load (f : file) : res json :=
  match f with
  | Absent => raise FileNotFoundError
  | Invalid => raise JSONDecodeError
  | Unreadable => raise OSError
  | Content j => ok j
  end.

(** [os.path.exists(path)] *)
Definition path_exists (f : file) : bool :=
  match f with Absent => false | _ => true end.

(** Numbers as Python compares and subtracts them; [bool] is an [int]. *)
Definition as_number (x : json) : res Q :=
  match x with
  | JInt n => ok (inject_Z n)
  | JFloat q => ok q
  | JBool b => ok (if b then 1%Q else 0%Q)
  | _ => raise TypeError
  end.

Definition as_int (x : json) : res Z :=
  match x with
  | JInt n => ok n
  | JBool b => ok (if b then 1 else 0)
  | _ => raise TypeError
  end.

(** [x < y] on rationals, as a boolean. *)
Definition Qltb (x y : Q) : bool := negb (Qle_bool y x).

(** ** fee_calculator.py *)

Module FeeCalculator.

Record t : Type := { hourly_rate : Q }.

Definition microseconds_per_second : Z := 1000000.

(** [duration.total_seconds()] of [exit_time - entry_time] *)
Definition total_seconds (duration : Z) : Q :=
  Qmake duration 1000000.

(** [_round_up_hours]: [math.ceil(hours)] *)
Definition _round_up_hours (hours : Q) : Z := Qceiling hours.

Definition calculate_fee (self : t) (entry_time exit_time : option datetime)
  : Q * list event :=
  match entry_time, exit_time with
  | Some entry, Some exit =>
      if exit <? entry then
        (0%Q, [Log ERROR "Exit time is before entry time"])
      else
        let duration := exit - entry in
        let hours := (total_seconds duration / 3600)%Q in
        let hours_rounded := _round_up_hours hours in
        let fee := (inject_Z hours_rounded * hourly_rate self)%Q in
        (fee, [Log INFO "Parking duration"])
  | _, _ => (0%Q, [Log ERROR "Invalid entry or exit time"])
  end.

(** [calculate_parking_fee], the module-level convenience function. *)
Definition calculate_parking_fee (entry_time exit_time : option datetime)
  (rate : Q) : Q :=
  fst (calculate_fee {| hourly_rate := rate |} entry_time exit_time).

End FeeCalculator.

(** ** config_manager.py *)

Module ConfigManager.

Definition zone_dict (x1 y1 x2 y2 : Z) : json :=
  JObj [("x1", JInt x1); ("y1", JInt y1); ("x2", JInt x2); ("y2", JInt y2)].

Definition DEFAULT_CONFIG : json :=
  JObj [ ("entry_zone", zone_dict 0 0 640 480);
         ("exit_zone", zone_dict 640 0 1280 480);
         ("entry_virtual_line_position", JFloat (1 # 2));
         ("exit_virtual_line_position", JFloat (1 # 2));
         ("frame_width", JInt 1280);
         ("frame_height", JInt 720);
         ("motion_threshold", JInt 500) ].

(** [load_config]: the configuration returned and what is logged. *)
Definition load_config (config_file : file) : json * list event :=
  if path_exists config_file then
    match open_and_load config_file with
    | inr config =>
        (config, [Log INFO "Configuration loaded"])
    | inl JSONDecodeError =>
        (DEFAULT_CONFIG,
         [Log ERROR "Error parsing configuration file. Using defaults."])
    | inl _ =>
        (DEFAULT_CONFIG,
         [Log ERROR "Error loading configuration. Using defaults."])
    end
  else
    (DEFAULT_CONFIG,
     [Log WARNING "Configuration file not found. Using defaults."]).

Definition is_int (x : json) : bool :=
  match x with JInt _ | JBool _ => true | _ => false end.

Definition has_key (k : string) (x : json) : bool :=
  match x with
  | JObj kv => match lookup k kv with Some _ => true | None => false end
  | _ => false
  end.

Definition valid_zone (config : json) (zone_name : string) : bool :=
  match py_subscript config zone_name with
  | inr zone =>
      forallb (fun key =>
                 match py_subscript zone key with
                 | inr v => is_int v
                 | inl _ => false
                 end) ["x1"; "y1"; "x2"; "y2"]
  | inl _ => false
  end.

Definition valid_line (config : json) (line_name : string) : bool :=
  match py_subscript config line_name with
  | inr (JStr _) | inr JNull | inr (JList _) | inr (JObj _) => false
  | inr v =>
      match as_number v with
      | inr q => Qle_bool 0 q && Qle_bool q 1
      | inl _ => false
      end
  | inl _ => false
  end.

(** [_validate_config], used by [save_config] only. *)
Definition _validate_config (config : json) : bool :=
  forallb (fun key => has_key key config)
    ["entry_zone"; "exit_zone";
     "entry_virtual_line_position"; "exit_virtual_line_position"]
  && forallb (valid_zone config) ["entry_zone"; "exit_zone"]
  && forallb (valid_line config)
       ["entry_virtual_line_position"; "exit_virtual_line_position"].

End ConfigManager.

(** ** camera_handler.py *)

(** Python [str] values whose characters matter are lists of code points.
    [str.upper] and [str.isalnum] are written out on the ASCII range; on
    the other code points they are the interpreter's Unicode tables,
    fields of the class [Unicode]. *)
Definition codepoint : Type := N.
Definition pystr : Type := list codepoint.

Class Unicode : Type := {
  upper_ext : codepoint -> pystr;
  isalnum_ext : codepoint -> bool
}.

(** The plate reader's engine: preprocessing followed by
    [pytesseract.image_to_string], which may raise. *)
Class Ocr : Type := {
  image : Type;
  image_to_string : image -> res pystr
}.

Module CameraHandler.

Definition is_digit (c : codepoint) : bool := ((48 <=? c) && (c <=? 57))%N.
Definition is_ascii_upper (c : codepoint) : bool := ((65 <=? c) && (c <=? 90))%N.
Definition is_ascii_lower (c : codepoint) : bool := ((97 <=? c) && (c <=? 122))%N.
Definition is_ascii (c : codepoint) : bool := (c <? 128)%N.

Section Text.
Context {U : Unicode}.

(** [c.upper()] for a single character; the result may be longer. *)
Definition upper_char (c : codepoint) : pystr :=
  if is_ascii c then [if is_ascii_lower c then (c - 32)%N else c]
  else upper_ext c.

(** [text.upper()] *)
Definition upper (text : pystr) : pystr := flat_map upper_char text.

(** [c.isalnum()] *)
Definition isalnum (c : codepoint) : bool :=
  if is_ascii c then is_digit c || is_ascii_upper c || is_ascii_lower c
  else isalnum_ext c.

Definition _clean_number_plate_text (text : pystr) : pystr :=
  let cleaned := filter isalnum (upper text) in
  if (List.length cleaned <? 3)%nat || (10 <? List.length cleaned)%nat
  then []
  else cleaned.

Context {O : Ocr}.

(** [extract_number_plate]: [None] for a missing image, for an engine
    error and for a text that does not clean to a plate. *)
Definition extract_number_plate (img : option image)
  : option pystr * list event :=
  match img with
  | None => (None, [])
  | Some im =>
      match image_to_string im with
      | inr text =>
          let cleaned_text := _clean_number_plate_text text in
          match cleaned_text with
          | _ :: _ => (Some cleaned_text, [Log INFO "Extracted number plate"])
          | [] => (None, [Log WARNING "No number plate text extracted"])
          end
      | inl _ => (None, [Log ERROR "Error extracting number plate"])
      end
  end.

End Text.

(** What [cv2.contourArea] and [cv2.boundingRect] report of a contour. *)
Record Contour : Type := {
  area : Q;
  rect_x : Z; rect_y : Z; rect_w : Z; rect_h : Z
}.

Definition contour_top (c : Contour) : Z := rect_y c.
Definition contour_bottom (c : Contour) : Z := rect_y c + rect_h c.

(** What a registered callback does when called. *)
Inductive callback : Type :=
| Returns
| Raises (e : exn).

Record t : Type := {
  entry_zone : json;
  exit_zone : json;
  entry_virtual_line_position : json;
  exit_virtual_line_position : json;
  motion_threshold : json;
  frame_width : json;
  frame_height : json;
  entry_virtual_line_y : option Z;
  exit_virtual_line_y : option Z;
  last_entry_crossing_time : Q;
  last_exit_crossing_time : Q;
  crossing_cooldown : Q
}.

(** [__init__], from the loading of the configuration on. *)
Definition init (use_config : bool) (config_file : file)
  : res t * list event :=
  if use_config then
    let (config, logged) := ConfigManager.load_config config_file in
    ((ez <- py_subscript config "entry_zone" ;;
      xz <- py_subscript config "exit_zone" ;;
      elp <- py_get_default config "entry_virtual_line_position" (JFloat (1 # 2)) ;;
      xlp <- py_get_default config "exit_virtual_line_position" (JFloat (1 # 2)) ;;
      mt <- py_get_default config "motion_threshold" (JInt 500) ;;
      fw <- py_get_default config "frame_width" (JInt 1280) ;;
      fh <- py_get_default config "frame_height" (JInt 720) ;;
      ok {| entry_zone := ez; exit_zone := xz;
            entry_virtual_line_position := elp;
            exit_virtual_line_position := xlp;
            motion_threshold := mt; frame_width := fw; frame_height := fh;
            entry_virtual_line_y := None; exit_virtual_line_y := None;
            last_entry_crossing_time := 0; last_exit_crossing_time := 0;
            crossing_cooldown := 3 |})%res,
     logged)
  else
    (ok {| entry_zone := ConfigManager.zone_dict 0 0 640 480;
           exit_zone := ConfigManager.zone_dict 640 0 1280 480;
           entry_virtual_line_position := JFloat (1 # 2);
           exit_virtual_line_position := JFloat (1 # 2);
           motion_threshold := JInt 500;
           frame_width := JInt 1280; frame_height := JInt 720;
           entry_virtual_line_y := None; exit_virtual_line_y := None;
           last_entry_crossing_time := 0; last_exit_crossing_time := 0;
           crossing_cooldown := 3 |},
     []).

Definition zone_of (self : t) (zone : Zone) : json :=
  match zone with ENTRY => entry_zone self | EXIT => exit_zone self end.

Definition virtual_line_y (self : t) (zone : Zone) : option Z :=
  match zone with
  | ENTRY => entry_virtual_line_y self
  | EXIT => exit_virtual_line_y self
  end.

Definition last_crossing_time (self : t) (zone : Zone) : Q :=
  match zone with
  | ENTRY => last_entry_crossing_time self
  | EXIT => last_exit_crossing_time self
  end.

Definition set_last_crossing_time (self : t) (zone : Zone) (now : Q) : t :=
  {| entry_zone := entry_zone self; exit_zone := exit_zone self;
     entry_virtual_line_position := entry_virtual_line_position self;
     exit_virtual_line_position := exit_virtual_line_position self;
     motion_threshold := motion_threshold self;
     frame_width := frame_width self; frame_height := frame_height self;
     entry_virtual_line_y := entry_virtual_line_y self;
     exit_virtual_line_y := exit_virtual_line_y self;
     last_entry_crossing_time :=
       match zone with ENTRY => now | EXIT => last_entry_crossing_time self end;
     last_exit_crossing_time :=
       match zone with ENTRY => last_exit_crossing_time self | EXIT => now end;
     crossing_cooldown := crossing_cooldown self |}.

(** A bound of a slice [a[lo:hi]]: an integer or [None]. *)
Definition slice_bound (x : json) : res unit :=
  match x with
  | JInt _ | JBool _ | JNull => ok tt
  | _ => raise TypeError
  end.

(** Lines 193-210: the zone rectangle is read, frame and mask are
    cropped, and the trigger row is made relative to the zone's top. *)
Definition zone_virtual_line_y (self : t) (zone : Zone) : res Z :=
  (x1 <- py_subscript (zone_of self zone) "x1" ;;
   y1 <- py_subscript (zone_of self zone) "y1" ;;
   x2 <- py_subscript (zone_of self zone) "x2" ;;
   y2 <- py_subscript (zone_of self zone) "y2" ;;
   _ <- slice_bound y1 ;; _ <- slice_bound y2 ;;
   _ <- slice_bound x1 ;; _ <- slice_bound x2 ;;
   match virtual_line_y self zone with
   | None => raise TypeError
   | Some line => y1' <- as_int y1 ;; ok (line - y1')
   end)%res.


(** The [for contour in contours] loop: the position at which it breaks. *)
Fixpoint first_crossing (threshold : json) (line : Z)
  (contours : list Contour) (i : nat) : res (option nat) :=
  match contours with
  | [] => ok None
  | c :: rest =>
      (thr <- as_number threshold ;;
       if Qltb (area c) thr then first_crossing threshold line rest (S i)
       else if (contour_top c <=? line) && (line <=? contour_bottom c)
            then ok (Some i)
            else first_crossing threshold line rest (S i))%res
  end.

(** What the callback part of a declaration leaves in the trace. *)
Definition call_back (zone : Zone) (cb : option callback) : list event :=
  match cb with
  | None => []
  | Some Returns => [Callback zone]
  | Some (Raises _) =>
      [Callback zone;
       Log ERROR ("Error in " ++ zone_value zone ++ " callback")%string]
  end.

(** [_check_virtual_line_crossing]; [contours] is what [cv2.findContours]
    returns on the zone's part of the mask. *)
Definition _check_virtual_line_crossing (self : t) (contours : list Contour)
  (zone : Zone) (cb : option callback) (current_time : Q)
  : res (t * list event) :=
  (line <- zone_virtual_line_y self zone ;;
   if Qltb (current_time - last_crossing_time self zone) (crossing_cooldown self)
   then ok (self, [])
   else
     hit <- first_crossing (motion_threshold self) line contours 0 ;;
     match hit with
     | None => ok (self, [])
     | Some _ =>
         ok (set_last_crossing_time self zone current_time,
             Log INFO ("Vehicle detected crossing " ++ zone_value zone
                         ++ " virtual line")%string
               :: call_back zone cb)
     end)%res.

(** One detection attempt of [_process_frames] on one zone. *)
Record attempt : Type := {
  at_zone : Zone;
  at_time : Q;
  at_contours : list Contour;
  at_callback : option callback
}.

(** The attempts in order; an exception ends the processing thread.
    Every event is paired with the zone and the clock of its attempt. *)
Fixpoint run (self : t) (attempts : list attempt)
  : t * list (Zone * Q * event) :=
  match attempts with
  | [] => (self, [])
  | a :: rest =>
      match _check_virtual_line_crossing self (at_contours a) (at_zone a)
              (at_callback a) (at_time a) with
      | inl _ => (self, [])
      | inr (self', evs) =>
          let (final, later) := run self' rest in
          (final, map (fun e => (at_zone a, at_time a, e)) evs ++ later)
      end
  end.

End CameraHandler.

(** ** data_manager.py *)

Class DateCodec : Type := {
  isoformat : datetime -> string;
  (** [None] stands for the [ValueError] of a malformed string *)
  fromisoformat : string -> option datetime;
  (** whether the [datetime] that [fromisoformat] makes of the string is
      aware: the string carries a UTC offset *)
  utc_offset : string -> bool
}.

Module DataManager.

(** The data directory: the two JSON files, and whether [open(path, 'w')]
    succeeds in it. *)
Record t : Type := {
  vehicles_file : file;
  history_file : file;
  writable : bool
}.

Inductive path : Type := VehiclesFile | HistoryFile.

Definition file_at (self : t) (p : path) : file :=
  match p with
  | VehiclesFile => vehicles_file self
  | HistoryFile => history_file self
  end.

(** [_read_json]: the two caught exceptions yield the empty dict. *)
Definition _read_json (self : t) (p : path) : res json :=
  match open_and_load (file_at self p) with
  | inl FileNotFoundError => ok (JObj [])
  | inl JSONDecodeError => ok (JObj [])
  | r => r
  end.

(** [_write_json]: an error is logged and swallowed, the file is left
    as it was. *)
Definition _write_json (self : t) (p : path) (data : json) : t :=
  if writable self then
    match p with
    | VehiclesFile =>
        {| vehicles_file := Content data;
           history_file := history_file self; writable := true |}
    | HistoryFile =>
        {| vehicles_file := vehicles_file self;
           history_file := Content data; writable := true |}
    end
  else self.

(** [_initialize_files], called by [__init__]. *)
Definition _initialize_files (self : t) : t :=
  let self1 :=
    if path_exists (vehicles_file self) then self
    else _write_json self VehiclesFile (JObj [("vehicles", JList [])]) in
  if path_exists (history_file self1) then self1
  else _write_json self1 HistoryFile (JObj [("history", JList [])]).

(** [data[k] = v] *)
Definition py_setitem (data : json) (k : string) (v : json) : res json :=
  match data with
  | JObj kv => ok (JObj (dict_set k v kv))
  | _ => raise TypeError
  end.

Section WithCodec.
Context {C : DateCodec}.

(** The duplicate check of [add_vehicle_entry]. *)
Fixpoint already_present (vehicles : list json) (number_plate : string)
  : res bool :=
  match vehicles with
  | [] => ok false
  | vehicle :: rest =>
      (np <- py_get vehicle "number_plate" ;;
       if eq_str np number_plate then ok true
       else already_present rest number_plate)%res
  end.

Definition new_vehicle_entry (number_plate : string) (entry_time : datetime)
  (slot : Z) : json :=
  JObj [("number_plate", JStr number_plate);
        ("entry_time", JStr (isoformat entry_time));
        ("slot", JInt slot)].

Definition add_vehicle_entry_body (self : t) (number_plate : string)
  (entry_time : datetime) (slot : Z) : res (bool * t) :=
  (data <- _read_json self VehiclesFile ;;
   vehicles <- py_get_default data "vehicles" (JList []) ;;
   items <- py_iter vehicles ;;
   dup <- already_present items number_plate ;;
   if (dup : bool) then ok (false, self)
   else
     vehicles' <- py_append vehicles
                    (new_vehicle_entry number_plate entry_time slot) ;;
     data' <- py_setitem data "vehicles" vehicles' ;;
     ok (true, _write_json self VehiclesFile data'))%res.

Definition add_vehicle_entry (self : t) (number_plate : string)
  (entry_time : datetime) (slot : Z) : bool * t :=
  try_except (add_vehicle_entry_body self number_plate entry_time slot)
    (false, self).

(** The dict [get_vehicle_entry] returns: the stored fields, with
    [entry_time] parsed back to a [datetime]. *)
Record vehicle_entry : Type := {
  fields : list (string * json);
  entry_time : datetime
}.

Definition dict_items (x : json) : list (string * json) :=
  match x with JObj kv => kv | _ => [] end.

(** Whether the [entry_time] of a returned record is an aware
    [datetime]: it was parsed from the stored string, which [fields]
    keeps. *)
Definition entry_time_aware (e : vehicle_entry) : bool :=
  match lookup "entry_time" (fields e) with
  | Some (JStr s) => utc_offset s
  | _ => false
  end.

Fixpoint find_entry (vehicles : list json) (number_plate : string)
  : res (option vehicle_entry) :=
  match vehicles with
  | [] => ok None
  | vehicle :: rest =>
      (np <- py_get vehicle "number_plate" ;;
       if eq_str np number_plate then
         entry_time_str <- py_get vehicle "entry_time" ;;
         match entry_time_str with
         | JStr s =>
             match fromisoformat s with
             | Some dt => ok (Some {| fields := dict_items vehicle;
                                      entry_time := dt |})
             | None => raise ValueError
             end
         | _ => raise TypeError
         end
       else find_entry rest number_plate)%res
  end.

Definition get_vehicle_entry (self : t) (number_plate : string)
  : option vehicle_entry :=
  try_except
    (data <- _read_json self VehiclesFile ;;
     vehicles <- py_get_default data "vehicles" (JList []) ;;
     items <- py_iter vehicles ;;
     find_entry items number_plate)%res
    None.

(** [[v for v in vehicles if v.get("number_plate") != number_plate]] *)
Fixpoint without_plate (vehicles : list json) (number_plate : string)
  : res (list json) :=
  match vehicles with
  | [] => ok []
  | v :: rest =>
      (np <- py_get v "number_plate" ;;
       kept <- without_plate rest number_plate ;;
       ok (if eq_str np number_plate then kept else v :: kept))%res
  end.

Definition remove_vehicle_entry (self : t) (number_plate : string)
  : bool * t :=
  try_except
    (data <- _read_json self VehiclesFile ;;
     vehicles <- py_get_default data "vehicles" (JList []) ;;
     original_count <- py_len vehicles ;;
     items <- py_iter vehicles ;;
     kept <- without_plate items number_plate ;;
     if (List.length kept <? original_count)%nat then
       data' <- py_setitem data "vehicles" (JList kept) ;;
       ok (true, _write_json self VehiclesFile data')
     else ok (false, self))%res
    (false, self).

Definition new_history_entry (number_plate : string)
  (entry_time exit_time : datetime) (fee : Q) (slot : json) : json :=
  JObj [("number_plate", JStr number_plate);
        ("entry_time", JStr (isoformat entry_time));
        ("exit_time", JStr (isoformat exit_time));
        ("fee", JFloat fee);
        ("slot", slot)].

Definition add_history_record (self : t) (number_plate : string)
  (entry_time exit_time : datetime) (fee : Q) (slot : json) : bool * t :=
  try_except
    (data <- _read_json self HistoryFile ;;
     history <- py_get_default data "history" (JList []) ;;
     history' <- py_append history
                   (new_history_entry number_plate entry_time exit_time
                      fee slot) ;;
     data' <- py_setitem data "history" history' ;;
     ok (true, _write_json self HistoryFile data'))%res
    (false, self).

End WithCodec.

(** Elements of a [set] must be hashable. *)
Definition hashable (x : json) : bool :=
  match x with JList _ | JObj _ => false | _ => true end.

(** [{v.get("slot") for v in vehicles if v.get("slot") is not None}] *)
Fixpoint occupied_slots (vehicles : list json) : res (list json) :=
  match vehicles with
  | [] => ok []
  | v :: rest =>
      (slot <- py_get v "slot" ;;
       match slot with
       | JNull => occupied_slots rest
       | _ =>
           if hashable slot then
             others <- occupied_slots rest ;; ok (slot :: others)
           else raise TypeError
       end)%res
  end.

(** [i == x] for an [int] [i]. *)
Definition eq_int (x : json) (i : Z) : bool :=
  match x with
  | JInt n => n =? i
  | JFloat q => Qeq_bool q (inject_Z i)
  | JBool b => (if b then 1 else 0) =? i
  | _ => false
  end.

Definition get_available_slots_body (self : t) (total_slots : Z)
  : res (list Z) :=
  (data <- _read_json self VehiclesFile ;;
   vehicles <- py_get_default data "vehicles" (JList []) ;;
   items <- py_iter vehicles ;;
   occupied <- occupied_slots items ;;
   ok (filter (fun i => negb (existsb (fun s => eq_int s i) occupied))
         (py_range 1 (total_slots + 1))))%res.

Definition get_available_slots (self : t) (total_slots : Z) : list Z :=
  try_except (get_available_slots_body self total_slots)
    (py_range 1 (total_slots + 1)).

Definition is_parking_full (self : t) (total_slots : Z) : bool :=
  let available_slots := get_available_slots self total_slots in
  (List.length available_slots =? 0)%nat.

End DataManager.

(** ** serial_comm.py

    [SerialCommunicator.send_command] is recorded in the trace as [Send];
    the boolean it returns is not used by any caller in [main.py]. *)

Module SerialComm.

Definition open_entry_gate : event := Send "OPEN_ENTRY_GATE".
Definition close_entry_gate : event := Send "CLOSE_ENTRY_GATE".
Definition open_exit_gate : event := Send "OPEN_EXIT_GATE".
Definition close_exit_gate : event := Send "CLOSE_EXIT_GATE".
Definition buzzer_on : event := Send "BUZZER_ON".
Definition buzzer_off : event := Send "BUZZER_OFF".

End SerialComm.

(** ** main.py *)

(** The plate reader [main.py] calls through [self.camera_handler]: an
    image yields a plate string or [None]. *)
Class PlateReader : Type := {
  frame : Type;
  zone_image : Type;
  extract_number_plate : zone_image -> option string;
  extract_number_plate_from_zone : frame -> Zone -> option string
}.

Module ParkingSystem.

Record t : Type := {
  total_slots : Z;
  hourly_rate : Q;
  running : bool;
  entry_gate_processing : bool;
  exit_gate_processing : bool;
  slot_occupied : bool
}.

(** The controller together with the data directory it acts on. *)
Record world : Type := {
  sys : t;
  data : DataManager.t
}.

(** A handler: from a world to its result (or the exception that leaves
    it), the world it ends in and the effects it had, oldest first. *)
Definition M (A : Type) : Type := world -> res A * world * list event.

Definition ret {A} (a : A) : M A := fun w => (ok a, w, []).

Definition bind {A B} (c : M A) (k : A -> M B) : M B :=
  fun w =>
    match c w with
    | (inr a, w1, evs1) =>
        match k a w1 with
        | (r, w2, evs2) => (r, w2, evs1 ++ evs2)
        end
    | (inl e, w1, evs1) => (inl e, w1, evs1)
    end.

Declare Scope sys_scope.
Delimit Scope sys_scope with sys.
Notation "x <- c ;; k" := (bind c (fun x => k))
  (at level 61, c at next level, right associativity) : sys_scope.
Notation "c ;; k" := (bind c (fun _ => k))
  (at level 61, right associativity) : sys_scope.

Definition emit (evs : list event) : M unit := fun w => (ok tt, w, evs).

Definition log (l : level) (msg : string) : M unit := emit [Log l msg].

Definition read {A} (f : t -> A) : M A := fun w => (ok (f (sys w)), w, []).

Definition update (f : t -> t) : M unit :=
  fun w => (ok tt, {| sys := f (sys w); data := data w |}, []).

Definition throw {A} (e : exn) : M A := fun w => (raise e, w, []).

(** A call into [self.data_manager]. *)
Definition query {A} (f : DataManager.t -> A) : M A :=
  fun w => (ok (f (data w)), w, []).

Definition store (f : DataManager.t -> bool * DataManager.t) : M bool :=
  fun w =>
    let (b, d) := f (data w) in
    (ok b, {| sys := sys w; data := d |}, []).

(** What a run of a handler returned, left behind and did. *)
Definition result {A} (r : res A * world * list event) : res A := fst (fst r).
Definition final {A} (r : res A * world * list event) : world := snd (fst r).
Definition events {A} (r : res A * world * list event) : list event := snd r.

Definition set_entry_gate_processing (b : bool) (s : t) : t :=
  {| total_slots := total_slots s; hourly_rate := hourly_rate s;
     running := running s; entry_gate_processing := b;
     exit_gate_processing := exit_gate_processing s;
     slot_occupied := slot_occupied s |}.

Definition set_exit_gate_processing (b : bool) (s : t) : t :=
  {| total_slots := total_slots s; hourly_rate := hourly_rate s;
     running := running s;
     entry_gate_processing := entry_gate_processing s;
     exit_gate_processing := b;
     slot_occupied := slot_occupied s |}.

Definition set_slot_occupied (b : bool) (s : t) : t :=
  {| total_slots := total_slots s; hourly_rate := hourly_rate s;
     running := running s;
     entry_gate_processing := entry_gate_processing s;
     exit_gate_processing := exit_gate_processing s;
     slot_occupied := b |}.

Definition gate_processing (z : Zone) (s : t) : bool :=
  match z with
  | ENTRY => entry_gate_processing s
  | EXIT => exit_gate_processing s
  end.

Definition set_gate_processing (z : Zone) (b : bool) (s : t) : t :=
  match z with
  | ENTRY => set_entry_gate_processing b s
  | EXIT => set_exit_gate_processing b s
  end.

(** [_handle_message] *)
Definition _handle_message (message : string) : M unit :=
  (log DEBUG "Handling message" ;;
   if String.eqb message "SLOT_OCCUPIED" then
     update (set_slot_occupied true) ;;
     log INFO "Parking slot is now occupied"
   else if String.eqb message "SLOT_FREE" then
     update (set_slot_occupied false) ;;
     log INFO "Parking slot is now free"
   else log WARNING "Unknown message")%sys.

(** The first [with self.processing_lock:] block of a handler: [true]
    when the zone is busy and the handler returns at once. *)
Definition check_and_set (z : Zone) : M bool :=
  (busy <- read (gate_processing z) ;;
   if (busy : bool) then
     log WARNING
       (match z with
        | ENTRY => "Entry gate already processing, ignoring virtual line trigger"
        | EXIT => "Exit gate already processing, ignoring virtual line trigger"
        end) ;;
     ret true
   else
     log INFO
       (match z with
        | ENTRY => "Vehicle detected crossing entry virtual line"
        | EXIT => "Vehicle detected crossing exit virtual line"
        end) ;;
     update (set_gate_processing z true) ;;
     ret false)%sys.

(** [if not number_plate]: [None] and the empty string are false. *)
Definition truthy (number_plate : option string) : option string :=
  match number_plate with
  | Some EmptyString => None
  | other => other
  end.

Section Handlers.
Context {R : PlateReader} {C : DateCodec}.

(** Plate extraction with its single retry, common to both handlers. *)
Definition read_plate (z : Zone) (fr : frame) (zi : zone_image)
  : M (option string) :=
  (emit [ExtractPlate] ;;
   match truthy (extract_number_plate zi) with
   | Some plate => ret (Some plate)
   | None =>
       log WARNING "Failed to extract number plate. Retrying..." ;;
       emit [Sleep (1 # 2)] ;;
       emit [ExtractPlateFromZone] ;;
       ret (truthy (extract_number_plate_from_zone fr z))
   end)%sys.

(** What follows the guard in [_handle_entry_virtual_line]. *)
Definition process_entry (fr : frame) (zi : zone_image) (now : datetime)
  : M unit :=
  (total <- read total_slots ;;
   full <- query (fun d => DataManager.is_parking_full d total) ;;
   occupied <- read slot_occupied ;;
   if (full : bool) || occupied then
     log WARNING "Parking is full! Activating buzzer..." ;;
     emit [SerialComm.buzzer_on] ;;
     emit [Sleep 3] ;;
     emit [SerialComm.buzzer_off] ;;
     update (set_entry_gate_processing false)
   else
     log INFO "Extracting number plate from entry zone..." ;;
     number_plate <- read_plate ENTRY fr zi ;;
     match number_plate with
     | None =>
         log ERROR "Failed to extract number plate after retry. Entry denied." ;;
         update (set_entry_gate_processing false)
     | Some plate =>
         log INFO ("Number plate extracted: " ++ plate)%string ;;
         existing_vehicle <-
           query (fun d => DataManager.get_vehicle_entry d plate) ;;
         match existing_vehicle with
         | Some _ =>
             log WARNING
               ("Vehicle " ++ plate ++ " is already in the system!")%string ;;
             update (set_entry_gate_processing false)
         | None =>
             available_slots <-
               query (fun d => DataManager.get_available_slots d total) ;;
             match available_slots with
             | [] =>
                 log ERROR "No available slots (race condition?)" ;;
                 update (set_entry_gate_processing false)
             | slot :: _ =>
                 added <- store (fun d =>
                            DataManager.add_vehicle_entry d plate now slot) ;;
                 if (added : bool) then
                   log INFO ("Vehicle " ++ plate ++ " entered")%string ;;
                   emit [SerialComm.open_entry_gate] ;;
                   emit [StartTimer 5 CloseEntryGateAfterTimeout]
                 else
                   log ERROR "Failed to add vehicle entry record" ;;
                   update (set_entry_gate_processing false)
             end
         end
     end)%sys.

Definition _handle_entry_virtual_line (fr : frame) (zi : zone_image)
  (now : datetime) : M unit :=
  (busy <- check_and_set ENTRY ;;
   if (busy : bool) then ret tt else process_entry fr zi now)%sys.

Definition _close_entry_gate_after_timeout : M unit :=
  (processing <- read entry_gate_processing ;;
   if (processing : bool) then
     emit [SerialComm.close_entry_gate] ;;
     update (set_entry_gate_processing false) ;;
     log INFO "Entry gate closed after timeout"
   else ret tt)%sys.

(** What follows the guard in [_handle_exit_virtual_line]. *)
Definition process_exit (fr : frame) (zi : zone_image) (now : datetime)
  : M unit :=
  (log INFO "Extracting number plate from exit zone..." ;;
   number_plate <- read_plate EXIT fr zi ;;
   match number_plate with
   | None =>
       log ERROR "Failed to extract number plate after retry." ;;
       update (set_exit_gate_processing false)
   | Some plate =>
       log INFO ("Number plate extracted: " ++ plate)%string ;;
       vehicle_entry <-
         query (fun d => DataManager.get_vehicle_entry d plate) ;;
       match vehicle_entry with
       | None =>
           log WARNING
             ("Vehicle " ++ plate
                ++ " not found in system. Entry may have failed.")%string ;;
           update (set_exit_gate_processing false)
       | Some found =>
           let entry_time := DataManager.entry_time found in
           let exit_time := now in
           rate <- read hourly_rate ;;
           (* [exit_time < entry_time] in [calculate_fee]: [exit_time] is
              naive, and comparing it with an aware [entry_time] raises *)
           if DataManager.entry_time_aware found then throw TypeError
           else
             let (fee, logged) :=
               FeeCalculator.calculate_fee
                 {| FeeCalculator.hourly_rate := rate |}
                 (Some entry_time) (Some exit_time) in
             emit logged ;;
             log INFO ("Vehicle " ++ plate ++ " - Duration, Fee")%string ;;
             emit [Print "Parking Fee Receipt"] ;;
             slot <- match lookup "slot" (DataManager.fields found) with
                     | Some s => ret s
                     | None => throw KeyError
                     end ;;
             store (fun d =>
                      DataManager.add_history_record d plate entry_time
                        exit_time fee slot) ;;
             store (fun d => DataManager.remove_vehicle_entry d plate) ;;
             log INFO
               ("Vehicle " ++ plate ++ " removed from active records")%string ;;
             emit [SerialComm.open_exit_gate] ;;
             emit [StartTimer 5 CloseExitGateAfterTimeout]
       end
   end)%sys.

Definition _handle_exit_virtual_line (fr : frame) (zi : zone_image)
  (now : datetime) : M unit :=
  (busy <- check_and_set EXIT ;;
   if (busy : bool) then ret tt else process_exit fr zi now)%sys.

Definition _close_exit_gate_after_timeout : M unit :=
  (processing <- read exit_gate_processing ;;
   if (processing : bool) then
     emit [SerialComm.close_exit_gate] ;;
     update (set_exit_gate_processing false) ;;
     log INFO "Exit gate closed after timeout"
   else ret tt)%sys.

(** The handler of a zone, as [start_processing] registers it. *)
Definition handle (z : Zone) : frame -> zone_image -> datetime -> M unit :=
  match z with
  | ENTRY => _handle_entry_virtual_line
  | EXIT => _handle_exit_virtual_line
  end.

(** What follows the guard in the handler of a zone. *)
Definition process (z : Zone) : frame -> zone_image -> datetime -> M unit :=
  match z with
  | ENTRY => process_entry
  | EXIT => process_exit
  end.

End Handlers.

End ParkingSystem.

(* ================================================================== *)
(** * Part I, continued: the remaining functions                        *)
(* ================================================================== *)

From Stdlib Require DecimalString.
From Stdlib Require Import Sorted.

(** [str(n)] of an [int], as in [f"{n}"]. *)
Definition py_str_int (n : Z) : string :=
  DecimalString.NilZero.string_of_int (Z.to_int n).

(** [int(x)] of a [float]: truncation towards zero. *)
Definition py_int (x : Q) : Z := Z.quot (Qnum x) (Zpos (Qden x)).

(** [l[:n]] *)
Definition py_prefix {A} (n : Z) (l : list A) : list A :=
  if 0 <=? n then firstn (Z.to_nat n) l
  else firstn (Z.to_nat (Z.of_nat (List.length l) + n)) l.

(** ** fee_calculator.py: [calculate_duration_string] *)

Module FeeDuration.

(** ['s' if n != 1 else ''] *)
Definition plural (n : Z) : string := if n =? 1 then "" else "s".

(** Hours, minutes and seconds of a stay of [duration] microseconds. *)
Definition elapsed (duration : Z) : Z * Z * Z :=
  let total_seconds := py_int (FeeCalculator.total_seconds duration) in
  let hours := total_seconds / 3600 in
  let minutes := (total_seconds mod 3600) / 60 in
  let seconds := total_seconds mod 60 in
  (hours, minutes, seconds).

Definition calculate_duration_string (entry_time exit_time : option datetime)
  : string :=
  match entry_time, exit_time with
  | Some entry, Some exit =>
      if exit <? entry then "Invalid duration"
      else
        let '(hours, minutes, seconds) := elapsed (exit - entry) in
        if 0 <? hours then
          if 0 <? minutes then
            (py_str_int hours ++ " hour" ++ plural hours ++ " "
             ++ py_str_int minutes ++ " minute" ++ plural minutes)%string
          else (py_str_int hours ++ " hour" ++ plural hours)%string
        else if 0 <? minutes then
          (py_str_int minutes ++ " minute" ++ plural minutes)%string
        else (py_str_int seconds ++ " second" ++ plural seconds)%string
  | _, _ => "Invalid duration"
  end.

End FeeDuration.

(** ** data_manager.py: the listing queries *)

Module DataQueries.
Import DataManager.

Section WithCodec.
Context {C : DateCodec}.

(** [datetime.fromisoformat(x)] of a JSON value. *)
Definition parse_time (x : json) : res datetime :=
  match x with
  | JStr s =>
      match fromisoformat s with
      | Some dt => ok dt
      | None => raise ValueError
      end
  | _ => raise TypeError
  end.

(** The loop of [get_all_active_vehicles]. *)
Fixpoint parse_vehicles (vehicles : list json) : res (list vehicle_entry) :=
  match vehicles with
  | [] => ok []
  | vehicle :: rest =>
      (entry_time_str <- py_get vehicle "entry_time" ;;
       dt <- parse_time entry_time_str ;;
       others <- parse_vehicles rest ;;
       ok ({| fields := dict_items vehicle; entry_time := dt |} :: others))%res
  end.

Definition get_all_active_vehicles (self : t) : list vehicle_entry :=
  try_except
    (data <- _read_json self VehiclesFile ;;
     vehicles <- py_get_default data "vehicles" (JList []) ;;
     items <- py_iter vehicles ;;
     parse_vehicles items)%res
    [].

(** A record of [get_parking_history]: the stored fields with both
    timestamps parsed. *)
Record history_record : Type := {
  h_fields : list (string * json);
  h_entry_time : datetime;
  h_exit_time : datetime
}.

(** The loop of [get_parking_history]. *)
Fixpoint parse_history (history : list json) : res (list history_record) :=
  match history with
  | [] => ok []
  | record :: rest =>
      (entry_str <- py_get record "entry_time" ;;
       entry <- parse_time entry_str ;;
       exit_str <- py_get record "exit_time" ;;
       exit <- parse_time exit_str ;;
       others <- parse_history rest ;;
       ok ({| h_fields := dict_items record;
              h_entry_time := entry; h_exit_time := exit |} :: others))%res
  end.

Definition get_parking_history (self : t) (limit : option Z)
  : list history_record :=
  try_except
    (data <- _read_json self HistoryFile ;;
     history <- py_get_default data "history" (JList []) ;;
     items <- py_iter history ;;
     parsed <- parse_history items ;;
     let result := rev parsed in
     ok (match limit with
         | Some n => py_prefix n result
         | None => result
         end))%res
    [].

End WithCodec.

End DataQueries.

(** ** config_manager.py: the manager as an object

    [ConfigManager.load_config] above is the function of the file; here
    it is taken with the object's state, the configuration file and
    [self.config]. *)

Module ConfigStore.

Record t : Type := {
  config_file : file;
  (** whether [open(self.config_file, 'w')] succeeds *)
  writable : bool;
  config : option json
}.

Definition load_config (self : t) : json * t * list event :=
  let (loaded, logged) := ConfigManager.load_config (config_file self) in
  (loaded,
   {| config_file := config_file self; writable := writable self;
      config := Some loaded |},
   logged).

(** [save_config]: a configuration that does not validate, and any
    exception of validating or writing, is logged and gives [False]. *)
Definition save_config (self : t) (new_config : json) : bool * t :=
  if ConfigManager._validate_config new_config then
    if writable self then
      (true,
       {| config_file := Content new_config; writable := true;
          config := Some new_config |})
    else (false, self)
  else (false, self).

(** [if self.config is None: self.load_config()]; a file that holds
    [null] loads as [None]. *)
Definition ensure_loaded (self : t) : json * t :=
  match config self with
  | None | Some JNull => fst (load_config self)
  | Some c => (c, self)
  end.

(** [(zone["x1"], zone["y1"], zone["x2"], zone["y2"])] *)
Definition zone_tuple (zone : json) : res (json * json * json * json) :=
  (x1 <- py_subscript zone "x1" ;;
   y1 <- py_subscript zone "y1" ;;
   x2 <- py_subscript zone "x2" ;;
   y2 <- py_subscript zone "y2" ;;
   ok (x1, y1, x2, y2))%res.

Definition get_entry_zone (self : t) : res (json * json * json * json) * t :=
  let (c, self') := ensure_loaded self in
  ((zone <- py_subscript c "entry_zone" ;; zone_tuple zone)%res, self').

Definition get_exit_zone (self : t) : res (json * json * json * json) * t :=
  let (c, self') := ensure_loaded self in
  ((zone <- py_subscript c "exit_zone" ;; zone_tuple zone)%res, self').

Definition get_entry_virtual_line_position (self : t) : res json * t :=
  let (c, self') := ensure_loaded self in
  (py_get_default c "entry_virtual_line_position" (JFloat (1 # 2)), self').

Definition get_exit_virtual_line_position (self : t) : res json * t :=
  let (c, self') := ensure_loaded self in
  (py_get_default c "exit_virtual_line_position" (JFloat (1 # 2)), self').

(** [get_virtual_line_position], kept for backward compatibility. *)
Definition get_virtual_line_position (self : t) : res json * t :=
  get_entry_virtual_line_position self.

Definition get_motion_threshold (self : t) : res json * t :=
  let (c, self') := ensure_loaded self in
  (py_get_default c "motion_threshold" (JInt 500), self').

Definition get_frame_dimensions (self : t) : res (json * json) * t :=
  let (c, self') := ensure_loaded self in
  ((w <- py_get_default c "frame_width" (JInt 1280) ;;
    h <- py_get_default c "frame_height" (JInt 720) ;;
    ok (w, h))%res, self').

End ConfigStore.

(** ** serial_comm.py: [SerialCommunicator]

    The port is seen through what its calls deliver: each entry of
    [pending] is what one [readline().decode('utf-8').strip()] makes of
    the next line waiting in the input buffer, and [wire] holds the
    commands written so far. *)

Module SerialCommunicator.

Inductive line : Type :=
| Text (message : string)   (* the line, decoded and stripped *)
| Undecodable               (* [UnicodeDecodeError] *)
| Broken.                   (* [serial.SerialException] *)

Record t : Type := {
  is_connected : bool;
  (** [self.serial_connection.is_open]; the connection object exists
      whenever [is_connected] has been set *)
  is_open : bool;
  pending : list line;
  wire : list string
}.

(** [connect]: whether the port could be opened is the port's answer.
    A successful connection clears the input buffer. *)
Definition connect (port_opens : bool) (self : t) : bool * t :=
  if port_opens then
    (true, {| is_connected := true; is_open := true; pending := [];
              wire := wire self |})
  else
    (false, {| is_connected := false; is_open := is_open self;
               pending := pending self; wire := wire self |}).

(** What [write] and [flush] do with a command. *)
Inductive write_outcome : Type :=
| Written
| WriteTimeout    (* [serial.SerialTimeoutException] *)
| WriteError.     (* [serial.SerialException] *)

Definition send_command (port_opens : bool) (outcome : write_outcome)
  (self : t) (command : string) : bool * t :=
  let attempt (s : t) : bool * t :=
    match outcome with
    | Written =>
        (true, {| is_connected := is_connected s; is_open := is_open s;
                  pending := pending s;
                  wire := wire s ++ [(command ++ String "010" "")%string] |})
    | WriteTimeout => (false, s)
    | WriteError =>
        (false, {| is_connected := false; is_open := is_open s;
                   pending := pending s; wire := wire s |})
    end in
  if negb (is_connected self) || negb (is_open self) then
    let (connected, self') := connect port_opens self in
    if connected then attempt self' else (false, self')
  else attempt self.

Definition with_pending (self : t) (rest : list line) : t :=
  {| is_connected := is_connected self; is_open := is_open self;
     pending := rest; wire := wire self |}.

Definition read_message (self : t) : option string * t :=
  if negb (is_connected self) || negb (is_open self) then (None, self)
  else
    match pending self with
    | [] => (None, self)
    | Text message :: rest =>
        (match message with
         | EmptyString => None
         | _ => Some message
         end, with_pending self rest)
    | Undecodable :: rest => (None, with_pending self rest)
    | Broken :: rest =>
        (None, {| is_connected := false; is_open := is_open self;
                  pending := rest; wire := wire self |})
    end.

(** The [while True] loop of [read_all_messages], [fuel] iterations of
    it at most. *)
Fixpoint read_loop (fuel : nat) (self : t) : list string * t :=
  match fuel with
  | O => ([], self)
  | S fuel' =>
      match read_message self with
      | (None, self') => ([], self')
      | (Some message, self') =>
          let (messages, self'') := read_loop fuel' self' in
          (message :: messages, self'')
      end
  end.

(** [read_all_messages]: every iteration but the last takes a line off
    the input buffer, so one iteration more than there are lines is
    enough. *)
Definition read_all_messages (self : t) : list string * t :=
  read_loop (S (List.length (pending self))) self.

End SerialCommunicator.

(** ** main.py: the main loop *)

Module MainLoop.
Import ParkingSystem.

(** [for message in messages: self._handle_message(message)] *)
Fixpoint handle_messages (messages : list string) : M unit :=
  match messages with
  | [] => ret tt
  | message :: rest =>
      (_handle_message message ;; handle_messages rest)%sys
  end.

End MainLoop.

(** ** configure_zones.py *)

Module ZoneConfigurator.

Inductive mode_t : Type :=
| ModeEntry              (* "entry" *)
| ModeExit               (* "exit" *)
| ModeEntryVirtualLine   (* "entry_virtual_line" *)
| ModeExitVirtualLine.   (* "exit_virtual_line" *)

Record t : Type := {
  entry_points : list (Z * Z);
  exit_points : list (Z * Z);
  entry_virtual_line_y : option Z;
  exit_virtual_line_y : option Z;
  mode : mode_t
}.

(** [__init__] *)
Definition init : t :=
  {| entry_points := []; exit_points := [];
     entry_virtual_line_y := None; exit_virtual_line_y := None;
     mode := ModeEntry |}.

Definition with_entry_points (self : t) (pts : list (Z * Z)) : t :=
  {| entry_points := pts; exit_points := exit_points self;
     entry_virtual_line_y := entry_virtual_line_y self;
     exit_virtual_line_y := exit_virtual_line_y self; mode := mode self |}.

Definition with_exit_points (self : t) (pts : list (Z * Z)) : t :=
  {| entry_points := entry_points self; exit_points := pts;
     entry_virtual_line_y := entry_virtual_line_y self;
     exit_virtual_line_y := exit_virtual_line_y self; mode := mode self |}.

Definition with_entry_line (self : t) (y : option Z) : t :=
  {| entry_points := entry_points self; exit_points := exit_points self;
     entry_virtual_line_y := y;
     exit_virtual_line_y := exit_virtual_line_y self; mode := mode self |}.

Definition with_exit_line (self : t) (y : option Z) : t :=
  {| entry_points := entry_points self; exit_points := exit_points self;
     entry_virtual_line_y := entry_virtual_line_y self;
     exit_virtual_line_y := y; mode := mode self |}.

Definition with_mode (self : t) (m : mode_t) : t :=
  {| entry_points := entry_points self; exit_points := exit_points self;
     entry_virtual_line_y := entry_virtual_line_y self;
     exit_virtual_line_y := exit_virtual_line_y self; mode := m |}.

Inductive mouse_event : Type :=
| LButtonDown     (* [cv2.EVENT_LBUTTONDOWN] *)
| OtherEvent.

(** The two-click selection of a zone. *)
Definition click (points : list (Z * Z)) (x y : Z) : list (Z * Z) :=
  match points with
  | [] => [(x, y)]
  | [p] => [p; (x, y)]
  | _ => points
  end.

Definition mouse_callback (self : t) (ev : mouse_event) (x y : Z) : t :=
  match ev with
  | LButtonDown =>
      match mode self with
      | ModeEntry => with_entry_points self (click (entry_points self) x y)
      | ModeExit => with_exit_points self (click (exit_points self) x y)
      | ModeEntryVirtualLine => with_entry_line self (Some y)
      | ModeExitVirtualLine => with_exit_line self (Some y)
      end
  | OtherEvent => self
  end.

Definition reset_current_zone (self : t) : t :=
  match mode self with
  | ModeEntry => with_entry_points self []
  | ModeExit => with_exit_points self []
  | ModeEntryVirtualLine => with_entry_line self None
  | ModeExitVirtualLine => with_exit_line self None
  end.

(** [len(points) == 2] *)
Definition complete (points : list (Z * Z)) : bool :=
  (List.length points =? 2)%nat.

(** How [save_configuration] ends. *)
Inductive save_result : Type :=
| Saved               (* returns [True] *)
| NotSaved            (* returns [False] *)
| ZeroDivisionError.  (* raised by the division by the frame height *)

(** The dict [save_configuration] builds from two complete zones, the
    two line rows and a frame [h] rows high and [w] columns wide. *)
Definition build_config (p1 p2 q1 q2 : Z * Z) (entry_y exit_y h w : Z)
  : json :=
  JObj [ ("entry_zone",
          ConfigManager.zone_dict
            (Z.min (fst p1) (fst p2)) (Z.min (snd p1) (snd p2))
            (Z.max (fst p1) (fst p2)) (Z.max (snd p1) (snd p2)));
         ("exit_zone",
          ConfigManager.zone_dict
            (Z.min (fst q1) (fst q2)) (Z.min (snd q1) (snd q2))
            (Z.max (fst q1) (fst q2)) (Z.max (snd q1) (snd q2)));
         ("entry_virtual_line_position", JFloat (inject_Z entry_y / inject_Z h));
         ("exit_virtual_line_position", JFloat (inject_Z exit_y / inject_Z h));
         ("frame_width", JInt w);
         ("frame_height", JInt h);
         ("motion_threshold", JInt 500) ].

(** [save_configuration]; [frame] is the shape [(h, w)] of the frame
    [self.camera.read()] returns, [None] when the read fails. *)
Definition save_configuration (self : t) (frame : option (Z * Z))
  (manager : ConfigStore.t) : save_result * ConfigStore.t :=
  match entry_points self, exit_points self with
  | [p1; p2], [q1; q2] =>
      match entry_virtual_line_y self, exit_virtual_line_y self with
      | Some entry_y, Some exit_y =>
          match frame with
          | None => (NotSaved, manager)
          | Some (h, w) =>
              if h =? 0 then (ZeroDivisionError, manager)
              else
                let (saved, manager') :=
                  ConfigStore.save_config manager
                    (build_config p1 p2 q1 q2 entry_y exit_y h w) in
                (if saved then Saved else NotSaved, manager')
          end
      | _, _ => (NotSaved, manager)
      end
  | _, _ => (NotSaved, manager)
  end.

(** What an iteration of the loop of [run] meets. *)
Inductive input : Type :=
| Mouse (ev : mouse_event) (x y : Z)
| Key (key : Z) (frame : option (Z * Z))    (* [frame]: as for saving *)
| NoFrame.                                  (* the loop's own read fails *)

(** The key dispatch of [run]: [None] when the loop ends. *)
Definition on_key (self : t) (key : Z) (frame : option (Z * Z))
  (manager : ConfigStore.t) : option (t * ConfigStore.t) :=
  let key := Z.land key 255 in
  if key =? 113 then None                                   (* 'q' *)
  else if key =? 101 then                                   (* 'e' *)
    Some (if complete (entry_points self)
          then with_mode self ModeExit else self, manager)
  else if key =? 118 then                                   (* 'v' *)
    Some (if complete (entry_points self) && complete (exit_points self)
          then with_mode self ModeEntryVirtualLine else self, manager)
  else if key =? 120 then                                   (* 'x' *)
    Some (if complete (exit_points self)
             && match entry_virtual_line_y self with
                | Some _ => true
                | None => false
                end
          then with_mode self ModeExitVirtualLine else self, manager)
  else if key =? 115 then                                   (* 's' *)
    match save_configuration self frame manager with
    | (ZeroDivisionError, _) => None
    | (_, manager') => Some (self, manager')
    end
  else if key =? 114 then                                   (* 'r' *)
    Some (reset_current_zone self, manager)
  else Some (self, manager).

Definition step (self : t) (manager : ConfigStore.t) (i : input)
  : option (t * ConfigStore.t) :=
  match i with
  | Mouse ev x y => Some (mouse_callback self ev x y, manager)
  | Key key frame => on_key self key frame manager
  | NoFrame => None
  end.

(** The loop of [run] over the inputs it receives, until it ends. *)
Fixpoint run (self : t) (manager : ConfigStore.t) (inputs : list input)
  : t * ConfigStore.t :=
  match inputs with
  | [] => (self, manager)
  | i :: rest =>
      match step self manager i with
      | Some (self', manager') => run self' manager' rest
      | None => (self, manager)
      end
  end.

End ZoneConfigurator.

(* ================================================================== *)
(** * Part II: the vocabulary of the statements, and sample data        *)
(* ================================================================== *)

Unset Implicit Arguments.

(** ** fee_calculator.py *)

Module FeeSpec.
Import FeeCalculator.

Definition microseconds_per_hour : Z := 3600 * microseconds_per_second.

(** The hours billed for a stay of [duration] microseconds. *)
Definition hours_billed (duration : Z) : Z :=
  _round_up_hours (total_seconds duration / 3600)%Q.

(** A time of day on the first day of the epoch, in microseconds. *)
Definition time_of_day (h m s : Z) : datetime :=
  ((h * 60 + m) * 60 + s) * microseconds_per_second.

End FeeSpec.

(** ** camera_handler.py: plate text *)

Module PlateTextSpec.
Import CameraHandler.

(** A character that [str.upper] leaves as it is. *)
Definition uppercase {U : Unicode} (c : codepoint) : Prop :=
  upper_char c = [c].

(** A small table for examples: e-acute (233) is alphanumeric and
    uppercases to E-acute (201), sharp s (223) uppercases to "SS". *)
Definition sample_unicode : Unicode :=
  {| upper_ext := fun c =>
       if (c =? 233)%N then [201%N]
       else if (c =? 223)%N then [83%N; 83%N]
       else [c];
     isalnum_ext := fun c => (c =? 233)%N || (c =? 201)%N || (c =? 223)%N |}.

(** An engine that reads the text written on the image. *)
Definition sample_ocr : Ocr :=
  {| image := pystr; image_to_string := fun text => ok text |}.

End PlateTextSpec.

(** ** camera_handler.py: crossing detection *)

Module CrossingSpec.
Import CameraHandler.

(** The log line of a declared crossing. *)
Definition declaration (zone : Zone) : event :=
  Log INFO ("Vehicle detected crossing " ++ zone_value zone
            ++ " virtual line")%string.




(** The handler [__init__] builds without a configuration file, after
    [initialize_camera] has seen a frame 720 rows high. *)
Definition sample_handler : t :=
  {| entry_zone := ConfigManager.zone_dict 0 0 640 480;
     exit_zone := ConfigManager.zone_dict 640 0 1280 480;
     entry_virtual_line_position := JFloat (1 # 2);
     exit_virtual_line_position := JFloat (1 # 2);
     motion_threshold := JInt 500;
     frame_width := JInt 1280; frame_height := JInt 720;
     entry_virtual_line_y := Some 360; exit_virtual_line_y := Some 360;
     last_entry_crossing_time := 0; last_exit_crossing_time := 0;
     crossing_cooldown := 3 |}.

Definition blob (a : Z) (y h : Z) : Contour :=
  {| area := inject_Z a; rect_x := 0; rect_y := y; rect_w := 10; rect_h := h |}.

(** A small blob on the line, a large one above it, then two large ones
    on it. *)
Definition sample_contours : list Contour :=
  [blob 100 300 100; blob 900 0 100; blob 800 350 50; blob 700 360 5].


End CrossingSpec.

(** ** camera_handler.py: the cooldown *)

Module CooldownSpec.
Import CameraHandler CrossingSpec.

Definition Zone_eqb (a b : Zone) : bool :=
  match a, b with
  | ENTRY, ENTRY | EXIT, EXIT => true
  | _, _ => false
  end.

Definition is_declaration (e : event) : bool :=
  match e with
  | Log INFO msg =>
      String.eqb msg "Vehicle detected crossing entry virtual line"
      || String.eqb msg "Vehicle detected crossing exit virtual line"
  | _ => false
  end.

Definition is_callback (e : event) : bool :=
  match e with Callback _ => true | _ => false end.

(** The clock readings at which the run produced an event of kind [p]
    for zone [z], in order. *)
Definition times (p : event -> bool) (z : Zone)
  (out : list (Zone * Q * event)) : list Q :=
  map (fun x => snd (fst x))
    (filter (fun x => Zone_eqb (fst (fst x)) z && p (snd x)) out).

(** Each reading is at least [C] after the one before, [last] being the
    one before the first. *)
Inductive spaced (C : Q) : Q -> list Q -> Prop :=
| spaced_nil (last : Q) : spaced C last []
| spaced_cons (last t : Q) (l : list Q) :
    (last + C <= t)%Q -> spaced C t l -> spaced C last (t :: l).

(** The readings that fall in the window from [w] to [w + C], [w + C]
    excluded. *)
Definition in_window (w C : Q) (l : list Q) : list Q :=
  filter (fun t => Qle_bool w t && Qltb t (w + C)) l.

(** Four attempts on the entry zone with a blob held on the line, at 10,
    11, 13 and 14 seconds, and one on the exit zone. *)
Definition sample_attempts : list attempt :=
  [ {| at_zone := ENTRY; at_time := 10;
       at_contours := sample_contours; at_callback := Some Returns |};
    {| at_zone := ENTRY; at_time := 11;
       at_contours := sample_contours; at_callback := Some Returns |};
    {| at_zone := EXIT; at_time := 11;
       at_contours := sample_contours; at_callback := Some (Raises ValueError) |};
    {| at_zone := ENTRY; at_time := 13;
       at_contours := sample_contours; at_callback := Some Returns |};
    {| at_zone := ENTRY; at_time := 14;
       at_contours := sample_contours; at_callback := Some Returns |} ].

End CooldownSpec.

(** ** config_manager.py and the construction of the camera handler *)

Module ConfigSpec.
Import ConfigManager.

(** The handler [__init__] builds from [DEFAULT_CONFIG]. *)
Definition default_handler : CameraHandler.t :=
  {| CameraHandler.entry_zone := zone_dict 0 0 640 480;
     CameraHandler.exit_zone := zone_dict 640 0 1280 480;
     CameraHandler.entry_virtual_line_position := JFloat (1 # 2);
     CameraHandler.exit_virtual_line_position := JFloat (1 # 2);
     CameraHandler.motion_threshold := JInt 500;
     CameraHandler.frame_width := JInt 1280;
     CameraHandler.frame_height := JInt 720;
     CameraHandler.entry_virtual_line_y := None;
     CameraHandler.exit_virtual_line_y := None;
     CameraHandler.last_entry_crossing_time := 0;
     CameraHandler.last_exit_crossing_time := 0;
     CameraHandler.crossing_cooldown := 3 |}.

End ConfigSpec.

(** ** data_manager.py: free slots *)

Module SlotSpec.
Import DataManager.

(** The read of the active-vehicles store failed: the file is missing or
    is not valid JSON, or the query raised. *)
Definition read_failure (self : t) (total_slots : Z) : Prop :=
  vehicles_file self = Absent
  \/ vehicles_file self = Invalid
  \/ exists e, get_available_slots_body self total_slots = inl e.

End SlotSpec.

(** ** data_manager.py: active records *)

Module StoreSpec.
Import DataManager.

(** The plate of a record of the vehicles list. *)
Definition plate_of (v : json) : list string :=
  match v with
  | JObj kv =>
      match lookup "number_plate" kv with
      | Some (JStr s) => [s]
      | _ => []
      end
  | _ => []
  end.

Definition plates (vehicles : list json) : list string :=
  flat_map plate_of vehicles.

(** The vehicles list the data manager reads from the store. *)
Definition stored_vehicles (self : t) : list json :=
  match _read_json self VehiclesFile with
  | inr (JObj kv) =>
      match lookup "vehicles" kv with
      | Some (JList l) => l
      | _ => []
      end
  | _ => []
  end.

(** An active record with plate [p] exists. *)
Definition active (self : t) (p : string) : Prop :=
  In p (plates (stored_vehicles self)).

(** No two active records have the same plate. *)
Definition unique_plates (self : t) : Prop :=
  NoDup (plates (stored_vehicles self)).

End StoreSpec.

(** ** main.py: the gate coordinator *)

Module CoordinatorSpec.
Import ParkingSystem StoreSpec.

Definition busy_warning (z : Zone) : string :=
  match z with
  | ENTRY => "Entry gate already processing, ignoring virtual line trigger"
  | EXIT => "Exit gate already processing, ignoring virtual line trigger"
  end.

Definition crossing_notice (z : Zone) : string :=
  match z with
  | ENTRY => "Vehicle detected crossing entry virtual line"
  | EXIT => "Vehicle detected crossing exit virtual line"
  end.

Section WithReader.
Context {R : PlateReader}.

(** The plate a crossing event resolves to: the first reading, or the
    retry when the first reading fails. *)
Definition resolved (z : Zone) (fr : frame) (zi : zone_image)
  : option string :=
  match truthy (extract_number_plate zi) with
  | Some plate => Some plate
  | None => truthy (extract_number_plate_from_zone fr z)
  end.

Definition read_events (zi : zone_image) : list event :=
  match truthy (extract_number_plate zi) with
  | Some _ => [ExtractPlate]
  | None =>
      [ExtractPlate; Log WARNING "Failed to extract number plate. Retrying...";
       Sleep (1 # 2); ExtractPlateFromZone]
  end.

End WithReader.

Definition entry_cleared (w : world) : world :=
  {| sys := set_entry_gate_processing false (sys w); data := data w |}.

Definition exit_cleared (w : world) : world :=
  {| sys := set_exit_gate_processing false (sys w); data := data w |}.

Definition buzzer_alert : list event :=
  [Log WARNING "Parking is full! Activating buzzer...";
   Send "BUZZER_ON"; Sleep 3; Send "BUZZER_OFF"].

End CoordinatorSpec.

(** ** Scenarios *)

Module Scenario.
Import ParkingSystem StoreSpec CoordinatorSpec.

(** A plate reader stub: the zone image and the frame are what the
    reader makes of them. *)
Definition stub_reader : PlateReader :=
  {| frame := option string;
     zone_image := option string;
     extract_number_plate := fun zi => zi;
     extract_number_plate_from_zone := fun fr _ => fr |}.

(** 1 January 2024, 738885 days into the epoch. *)
Definition day : datetime := 738885 * 86400 * 1000000.
Definition ten : datetime := day + FeeSpec.time_of_day 10 0 0.
Definition half_past_eleven : datetime := day + FeeSpec.time_of_day 11 30 0.

(** The codec on the two timestamps of the scenarios; none of the
    strings it reads carries a UTC offset. *)
Definition stub_codec : DateCodec :=
  {| isoformat := fun dt =>
       if dt =? ten then "2024-01-01T10:00:00"
       else if dt =? half_past_eleven then "2024-01-01T11:30:00"
       else "0001-01-01T00:00:00";
     fromisoformat := fun s =>
       if String.eqb s "2024-01-01T10:00:00" then Some ten
       else if String.eqb s "2024-01-01T11:30:00" then Some half_past_eleven
       else if String.eqb s "0001-01-01T00:00:00" then Some 0
       else None;
     utc_offset := fun _ => false |}.

Definition record_ABC123 : json :=
  JObj [("number_plate", JStr "ABC123");
        ("entry_time", JStr "2024-01-01T10:00:00");
        ("slot", JInt 1)].

Definition controller (slots : Z) (entry_busy : bool) : ParkingSystem.t :=
  {| total_slots := slots; hourly_rate := 10; running := true;
     entry_gate_processing := entry_busy; exit_gate_processing := false;
     slot_occupied := false |}.

(** The data directory as [DataManager.__init__] leaves a fresh one. *)
Definition fresh_store : DataManager.t :=
  DataManager._initialize_files
    {| DataManager.vehicles_file := Absent;
       DataManager.history_file := Absent;
       DataManager.writable := true |}.

(** ABC123 is parked; the history file holds a JSON list where the data
    manager expects a dict. *)
Definition store_with_list_history : DataManager.t :=
  {| DataManager.vehicles_file :=
       Content (JObj [("vehicles", JList [record_ABC123])]);
     DataManager.history_file := Content (JList []);
     DataManager.writable := true |}.

Definition store_with_ABC123 : DataManager.t :=
  {| DataManager.vehicles_file :=
       Content (JObj [("vehicles", JList [record_ABC123])]);
     DataManager.history_file := Content (JObj [("history", JList [])]);
     DataManager.writable := true |}.

(** ABC123 is parked and the vehicles list holds a stray number after
    its record. *)
Definition store_with_stray_item : DataManager.t :=
  {| DataManager.vehicles_file :=
       Content (JObj [("vehicles", JList [record_ABC123; JInt 5])]);
     DataManager.history_file := Content (JObj [("history", JList [])]);
     DataManager.writable := true |}.

Definition exit_of_ABC123 (store : DataManager.t)
  : res unit * world * list event :=
  @_handle_exit_virtual_line stub_reader stub_codec None (Some "ABC123")
    half_past_eleven {| sys := controller 1 false; data := store |}.

Definition entry_of (plate : string) (now : datetime) (w : world)
  : res unit * world * list event :=
  @_handle_entry_virtual_line stub_reader stub_codec None (Some plate) now w.

End Scenario.

(** ** Further vocabulary *)

Module MoreSpec.

(** A codec that reads back what it writes. *)
Definition round_trips {C : DateCodec} (dt : datetime) : Prop :=
  fromisoformat (isoformat dt) = Some dt.

(** A dict, as a record of a JSON list has to be. *)
Definition is_record (v : json) : Prop := exists kv, v = JObj kv.

Definition other_zone (z : Zone) : Zone :=
  match z with ENTRY => EXIT | EXIT => ENTRY end.

End MoreSpec.

Module StoreMoreSpec.
Import DataManager StoreSpec.

(** Slot [i] is taken: some stored record holds a slot equal to it. *)
Definition taken (self : t) (i : Z) : Prop :=
  exists kv s,
    In (JObj kv) (stored_vehicles self)
    /\ lookup "slot" kv = Some s /\ eq_int s i = true.

(** The plates other than [p], in order. *)
Definition others (p : string) (l : list string) : list string :=
  filter (fun s => negb (String.eqb s p)) l.

(** The history list the data manager reads from the store. *)
Definition stored_history (self : t) : list json :=
  match _read_json self HistoryFile with
  | inr (JObj kv) =>
      match lookup "history" kv with
      | Some (JList l) => l
      | _ => []
      end
  | _ => []
  end.

End StoreMoreSpec.

Module CoordinatorMoreSpec.
Import ParkingSystem.

(** The serial commands the handler of a zone may send. *)
Definition zone_commands (z : Zone) : list string :=
  match z with
  | ENTRY => ["OPEN_ENTRY_GATE"; "BUZZER_ON"; "BUZZER_OFF"]
  | EXIT => ["OPEN_EXIT_GATE"]
  end.

(** The slot status after a batch of messages: that of the last
    message that names one. *)
Definition slot_status (messages : list string) (current : bool) : bool :=
  fold_left
    (fun status message =>
       if String.eqb message "SLOT_OCCUPIED" then true
       else if String.eqb message "SLOT_FREE" then false
       else status)
    messages current.

(** A codec that also reads a timestamp with a UTC offset, and a store
    whose record of ABC123 holds one (as a file written by another
    program may). *)
Definition offset_codec : DateCodec :=
  {| isoformat := @isoformat Scenario.stub_codec;
     fromisoformat := fun s =>
       if String.eqb s "2024-01-01T10:00:00+00:00" then Some Scenario.ten
       else @fromisoformat Scenario.stub_codec s;
     utc_offset := fun s => String.eqb s "2024-01-01T10:00:00+00:00" |}.

Definition record_with_offset_time : json :=
  JObj [("number_plate", JStr "ABC123");
        ("entry_time", JStr "2024-01-01T10:00:00+00:00");
        ("slot", JInt 1)].

Definition store_with_offset_time : DataManager.t :=
  {| DataManager.vehicles_file :=
       Content (JObj [("vehicles", JList [record_with_offset_time])]);
     DataManager.history_file := Content (JObj [("history", JList [])]);
     DataManager.writable := true |}.

End CoordinatorMoreSpec.

Module SerialSpec.
Import SerialCommunicator.

(** The messages at the head of the input buffer: the lines up to the
    first one that is blank, cannot be decoded or fails to be read. *)
Fixpoint messages_until_stop (lines : list line) : list string :=
  match lines with
  | Text EmptyString :: _ => []
  | Text message :: rest => message :: messages_until_stop rest
  | _ => []
  end.

(** What is left in the buffer after them and the line that ended them. *)
Fixpoint left_after (lines : list line) : list line :=
  match lines with
  | [] => []
  | Text EmptyString :: rest => rest
  | Text _ :: rest => left_after rest
  | _ :: rest => rest
  end.

(** The line that ended them is one whose reading failed. *)
Fixpoint stopped_by_failure (lines : list line) : bool :=
  match lines with
  | Text EmptyString :: _ => false
  | Text _ :: rest => stopped_by_failure rest
  | Broken :: _ => true
  | _ => false
  end.

End SerialSpec.

Module ZoneSpec.
Import ZoneConfigurator.

(** What the key dispatch keeps true of the selection. *)
Definition well_formed (s : t) : Prop :=
  (List.length (entry_points s) <= 2)%nat
  /\ (List.length (exit_points s) <= 2)%nat
  /\ (mode s = ModeEntry ->
      exit_points s = [] /\ entry_virtual_line_y s = None
      /\ exit_virtual_line_y s = None)
  /\ (mode s <> ModeEntry -> complete (entry_points s) = true)
  /\ (mode s = ModeEntryVirtualLine \/ mode s = ModeExitVirtualLine ->
      complete (exit_points s) = true)
  /\ (mode s = ModeExitVirtualLine -> entry_virtual_line_y s <> None).

(** A rectangle with its corners in order, as a zone of the file. *)
Definition ordered_zone (zone : json) : Prop :=
  exists x1 y1 x2 y2,
    zone = ConfigManager.zone_dict x1 y1 x2 y2 /\ x1 <= x2 /\ y1 <= y2.

End ZoneSpec.

(* ================================================================== *)
(** * Part III: lemmas and theorems                                     *)
(* ================================================================== *)

(** ** Generic facts *)

Lemma Qltb_lt (x y : Q) : Qltb x y = true <-> (x < y)%Q.
Proof.
  unfold Qltb. rewrite negb_true_iff. split.
  - intros H. apply Qnot_le_lt. intros Hle.
    apply Qle_bool_iff in Hle. congruence.
  - intros H. destruct (Qle_bool y x) eqn:E; [|reflexivity].
    apply Qle_bool_iff in E. exfalso. exact (Qlt_not_le _ _ H E).
Qed.

Lemma Qltb_ge (x y : Q) : Qltb x y = false <-> (y <= x)%Q.
Proof.
  unfold Qltb. rewrite negb_false_iff. apply Qle_bool_iff.
Qed.

(** ** fee_calculator.py *)

Module FeeFacts.
Import FeeCalculator FeeSpec.

(** [math.ceil] of the hours is the least whole number of hours that
    covers the stay. *)
Lemma hours_billed_bounds (duration : Z) :
  microseconds_per_hour * (hours_billed duration - 1) < duration
  <= microseconds_per_hour * hours_billed duration.
Proof.
  unfold hours_billed, _round_up_hours.
  set (q := (total_seconds duration / 3600)%Q).
  pose proof (Qle_ceiling q) as Hle.
  pose proof (Qceiling_lt q) as Hlt.
  set (n := Qceiling q) in *.
  assert (Hq : (q == duration # 3600000000)%Q).
  { unfold q, total_seconds, Qeq, Qdiv, Qmult, Qinv. simpl. lia. }
  rewrite Hq in Hle, Hlt.
  unfold Qle, Qlt, inject_Z in Hle, Hlt. simpl in Hle, Hlt.
  unfold microseconds_per_hour, microseconds_per_second. lia.
Qed.

Lemma hours_billed_unique (duration n : Z) :
  microseconds_per_hour * (n - 1) < duration <= microseconds_per_hour * n ->
  hours_billed duration = n.
Proof.
  intros Hn. pose proof (hours_billed_bounds duration) as Hb.
  unfold microseconds_per_hour, microseconds_per_second in *. nia.
Qed.

Lemma calculate_fee_in_order (self : t) (entry exit : datetime) :
  entry <= exit ->
  calculate_fee self (Some entry) (Some exit)
  = ((inject_Z (hours_billed (exit - entry)) * hourly_rate self)%Q,
     [Log INFO "Parking duration"]).
Proof.
  intros H. unfold calculate_fee.
  destruct (Z.ltb_spec exit entry); [lia|]. reflexivity.
Qed.

(** C2. For all entry and exit timestamps: when the exit is at or after
    the entry, [calculate_fee] returns the hourly rate times the number
    of hours [n] that is the ceiling of the duration in hours, that is the
    [n] with [n - 1] hours < duration <= [n] hours, and logs no error; so
    10:00:00 to 10:00:01 bills one hour, to 11:00:00 one hour and to
    11:00:01 two hours.  When the exit is strictly before the entry, or a
    timestamp is missing, it returns 0 with a logged error.  A zero
    duration yields a fee of 0. *)
Theorem calculate_fee_rounds_up (self : t) (entry exit : datetime) :
  (entry <= exit ->
   exists n : Z,
     n = Qceiling (total_seconds (exit - entry) / 3600)%Q
     /\ microseconds_per_hour * (n - 1) < exit - entry
        <= microseconds_per_hour * n
     /\ calculate_fee self (Some entry) (Some exit)
        = ((inject_Z n * hourly_rate self)%Q, [Log INFO "Parking duration"]))
  /\ (exit < entry ->
      calculate_fee self (Some entry) (Some exit)
      = (0%Q, [Log ERROR "Exit time is before entry time"]))
  /\ (forall other : option datetime,
        calculate_fee self None other
        = (0%Q, [Log ERROR "Invalid entry or exit time"])
        /\ calculate_fee self other None
           = (0%Q, [Log ERROR "Invalid entry or exit time"]))
  /\ (fst (calculate_fee self (Some entry) (Some entry)) == 0)%Q
  /\ (fst (calculate_fee self (Some (time_of_day 10 0 0)) (Some (time_of_day 10 0 1)))
      == 1 * hourly_rate self)%Q
  /\ (fst (calculate_fee self (Some (time_of_day 10 0 0)) (Some (time_of_day 11 0 0)))
      == 1 * hourly_rate self)%Q
  /\ (fst (calculate_fee self (Some (time_of_day 10 0 0)) (Some (time_of_day 11 0 1)))
      == 2 * hourly_rate self)%Q.
Proof.
  refine (conj _ (conj _ (conj _ (conj _ (conj _ (conj _ _)))))).
  - intros H. exists (hours_billed (exit - entry)).
    split; [reflexivity|]. split; [apply hours_billed_bounds|].
    now apply calculate_fee_in_order.
  - intros H. unfold calculate_fee.
    destruct (Z.ltb_spec exit entry); [reflexivity|lia].
  - intros other. split; [reflexivity|]. destruct other; reflexivity.
  - rewrite calculate_fee_in_order by lia. simpl fst.
    rewrite Z.sub_diag. change (hours_billed 0) with 0. ring.
  - reflexivity.
  - reflexivity.
  - reflexivity.
Qed.

Lemma calculate_fee_rounds_up_witness :
  exists n : Z,
    n = 2
    /\ calculate_fee {| hourly_rate := 10 |}
         (Some (time_of_day 10 0 0)) (Some (time_of_day 11 0 1))
       = ((inject_Z n * 10)%Q, [Log INFO "Parking duration"]).
Proof.
  destruct (calculate_fee_rounds_up {| hourly_rate := 10 |}
              (time_of_day 10 0 0) (time_of_day 11 0 1)) as [H _].
  destruct (H ltac:(vm_compute; discriminate)) as [n [Hn [_ Hfee]]].
  exists n. split; [rewrite Hn; reflexivity | exact Hfee].
Defined.

End FeeFacts.

(** ** camera_handler.py: plate text *)

Module PlateTextFacts.
Import CameraHandler PlateTextSpec.

Section WithUnicode.
Context {U : Unicode} {O : Ocr}.

(** The interpreter's table maps every character to characters that
    [str.upper] leaves alone. *)
Hypothesis upper_ext_fixed :
  forall c d : codepoint,
    is_ascii c = false -> In d (upper_ext c) -> upper_char d = [d].

Lemma upper_char_fixed (c d : codepoint) :
  In d (upper_char c) -> uppercase d.
Proof.
  unfold uppercase, upper_char at 1.
  destruct (is_ascii c) eqn:Ha.
  - intros [<-|[]]. unfold upper_char, is_ascii, is_ascii_lower in *.
    destruct ((97 <=? c) && (c <=? 122))%N eqn:Hl.
    + apply andb_true_iff in Hl. destruct Hl as [H1 H2].
      apply N.leb_le in H1, H2.
      replace (c - 32 <? 128)%N with true by (symmetry; apply N.ltb_lt; lia).
      replace (97 <=? c - 32)%N with false by (symmetry; apply N.leb_gt; lia).
      reflexivity.
    + rewrite Ha, Hl. reflexivity.
  - intros Hd. exact (upper_ext_fixed c d Ha Hd).
Qed.

Lemma upper_chars_fixed (text : pystr) (c : codepoint) :
  In c (upper text) -> uppercase c.
Proof.
  unfold upper. rewrite in_flat_map. intros [c0 [_ Hc]].
  exact (upper_char_fixed c0 c Hc).
Qed.

Lemma ascii_uppercase_alnum (c : codepoint) :
  is_ascii c = true -> isalnum c = true -> uppercase c ->
  is_digit c || is_ascii_upper c = true.
Proof.
  unfold uppercase, upper_char, isalnum. intros Ha. rewrite Ha.
  destruct (is_ascii_lower c) eqn:Hl.
  - intros _ Hfix. exfalso. injection Hfix as Hfix.
    unfold is_ascii_lower in Hl. apply andb_true_iff in Hl.
    destruct Hl as [H1 _]. apply N.leb_le in H1. lia.
  - rewrite orb_false_r. trivial.
Qed.

Lemma clean_cases (text : pystr) :
  _clean_number_plate_text text
  = if (3 <=? List.length (filter isalnum (upper text)))%nat
       && (List.length (filter isalnum (upper text)) <=? 10)%nat
    then filter isalnum (upper text)
    else [].
Proof.
  unfold _clean_number_plate_text.
  destruct (Nat.ltb_spec (List.length (filter isalnum (upper text))) 3);
    destruct (Nat.ltb_spec 10 (List.length (filter isalnum (upper text))));
    destruct (Nat.leb_spec 3 (List.length (filter isalnum (upper text))));
    destruct (Nat.leb_spec (List.length (filter isalnum (upper text))) 10);
    simpl; try reflexivity; lia.
Qed.

Lemma extract_number_plate_some (img : option image) (plate : pystr) :
  fst (extract_number_plate img) = Some plate ->
  exists im text,
    img = Some im /\ image_to_string im = inr text
    /\ plate = _clean_number_plate_text text /\ plate <> [].
Proof.
  unfold extract_number_plate. destruct img as [im|]; [|discriminate].
  destruct (image_to_string im) as [e|text] eqn:Ho; [discriminate|].
  destruct (_clean_number_plate_text text) as [|c r] eqn:Hc; [discriminate|].
  simpl. intros [= <-]. exists im, text. repeat split; congruence.
Qed.

(** C9. For every input string, [_clean_number_plate_text] returns the
    filtering of the uppercased string to its alphanumeric characters
    when that filtering has between 3 and 10 characters, and the empty
    string otherwise.  Hence every plate [extract_number_plate] returns
    has between 3 and 10 characters, each of them alphanumeric and
    uppercase (left as it is by [str.upper]; for an ASCII character: a
    digit or one of A-Z). *)
Theorem clean_number_plate_text_spec (text : pystr) :
  (_clean_number_plate_text text
   = if (3 <=? List.length (filter isalnum (upper text)))%nat
        && (List.length (filter isalnum (upper text)) <=? 10)%nat
     then filter isalnum (upper text)
     else [])
  /\ forall (img : option image) (plate : pystr),
       fst (extract_number_plate img) = Some plate ->
       (3 <= List.length plate <= 10)%nat
       /\ Forall (fun c => isalnum c = true /\ uppercase c
                           /\ (is_ascii c = true ->
                               is_digit c || is_ascii_upper c = true))
            plate.
Proof.
  split; [apply clean_cases|].
  intros img plate Hsome.
  destruct (extract_number_plate_some img plate Hsome)
    as [im [ocr_text [_ [_ [Hplate Hne]]]]].
  rewrite clean_cases in Hplate.
  destruct ((3 <=? List.length (filter isalnum (upper ocr_text)))%nat
            && (List.length (filter isalnum (upper ocr_text)) <=? 10)%nat)
    eqn:Hlen; [|congruence].
  apply andb_true_iff in Hlen. destruct Hlen as [H3 H10].
  apply Nat.leb_le in H3, H10. subst plate. split; [lia|].
  apply Forall_forall. intros c Hc. apply filter_In in Hc.
  destruct Hc as [Hin Halnum].
  pose proof (upper_chars_fixed ocr_text c Hin) as Hup.
  split; [exact Halnum|]. split; [exact Hup|].
  intros Ha. now apply ascii_uppercase_alnum.
Qed.

End WithUnicode.

Lemma sample_unicode_fixed (c d : codepoint) :
  is_ascii c = false -> In d (@upper_ext sample_unicode c) ->
  @upper_char sample_unicode d = [d].
Proof.
  intros Ha. simpl.
  destruct (N.eqb_spec c 233) as [->|H1]; [intros [<-|[]]; reflexivity|].
  destruct (N.eqb_spec c 223) as [->|H2];
    [intros [<-|[<-|[]]]; reflexivity|].
  intros [<-|[]]. unfold upper_char. rewrite Ha. simpl.
  destruct (N.eqb_spec c 233); [contradiction|].
  destruct (N.eqb_spec c 223); [contradiction|]. reflexivity.
Defined.

(** " ab-123" followed by a line feed reads as the plate "AB123". *)
Lemma clean_number_plate_text_spec_witness :
  @extract_number_plate sample_unicode sample_ocr
    (Some [32; 97; 98; 45; 49; 50; 51; 10]%N)
  = (Some [65; 66; 49; 50; 51]%N, [Log INFO "Extracted number plate"])
  /\ (3 <= List.length [65; 66; 49; 50; 51]%N <= 10)%nat
  /\ Forall (fun c => @isalnum sample_unicode c = true
                      /\ @uppercase sample_unicode c
                      /\ (is_ascii c = true ->
                          is_digit c || is_ascii_upper c = true))
       [65; 66; 49; 50; 51]%N.
Proof.
  split; [reflexivity|].
  exact (proj2 (@clean_number_plate_text_spec sample_unicode sample_ocr
                  sample_unicode_fixed [])
           (Some [32; 97; 98; 45; 49; 50; 51; 10]%N)
           [65; 66; 49; 50; 51]%N eq_refl).
Defined.

End PlateTextFacts.

(** ** camera_handler.py: crossing detection *)

Module CrossingFacts.
Import CameraHandler CrossingSpec.










End CrossingFacts.

(** ** camera_handler.py: the cooldown *)

Module CooldownFacts.
Import CameraHandler CrossingSpec CooldownSpec CrossingFacts.

Lemma Zone_eqb_eq (a b : Zone) : Zone_eqb a b = true <-> a = b.
Proof. destruct a, b; simpl; split; congruence. Qed.

Lemma times_app (p : event -> bool) (z : Zone)
  (l1 l2 : list (Zone * Q * event)) :
  times p z (l1 ++ l2) = times p z l1 ++ times p z l2.
Proof. unfold times. now rewrite filter_app, map_app. Qed.

Lemma times_attempt (p : event -> bool) (z za : Zone) (ta : Q)
  (evs : list event) :
  times p z (map (fun e => (za, ta, e)) evs)
  = if Zone_eqb za z then map (fun _ => ta) (filter p evs) else [].
Proof.
  unfold times. induction evs as [|e evs IH]; simpl.
  - now destruct (Zone_eqb za z).
  - destruct (Zone_eqb za z) eqn:Hz; simpl in *.
    + destruct (p e); simpl; now rewrite IH.
    + exact IH.
Qed.

Lemma filter_declaration (zone : Zone) (cb : option callback) :
  filter is_declaration (declaration zone :: call_back zone cb)
  = [declaration zone].
Proof. destruct zone, cb as [[|e]|]; reflexivity. Qed.

Lemma filter_callback (zone : Zone) (cb : option callback) :
  filter is_callback (declaration zone :: call_back zone cb)
  = match cb with Some _ => [Callback zone] | None => [] end.
Proof. destruct zone, cb as [[|e]|]; reflexivity. Qed.

(** The three outcomes of a detection attempt. *)
Lemma check_cases (self : t) (contours : list Contour) (zone : Zone)
  (cb : option callback) (now : Q) :
  (exists e, _check_virtual_line_crossing self contours zone cb now = inl e)
  \/ _check_virtual_line_crossing self contours zone cb now = ok (self, [])
  \/ (_check_virtual_line_crossing self contours zone cb now
      = ok (set_last_crossing_time self zone now,
            declaration zone :: call_back zone cb)
      /\ (crossing_cooldown self <= now - last_crossing_time self zone)%Q).
Proof.
  unfold _check_virtual_line_crossing.
  destruct (zone_virtual_line_y self zone) as [e|line]; simpl;
    [left; now exists e|].
  destruct (Qltb (now - last_crossing_time self zone) (crossing_cooldown self))
    eqn:Hc; [right; left; reflexivity|].
  apply Qltb_ge in Hc.
  destruct (first_crossing (motion_threshold self) line contours 0)
    as [e|[i|]]; simpl.
  - left. now exists e.
  - right. right. split; [reflexivity|exact Hc].
  - right. left. reflexivity.
Qed.

Lemma check_in_cooldown (self : t) (contours : list Contour) (zone : Zone)
  (cb : option callback) (now : Q) :
  (now - last_crossing_time self zone < crossing_cooldown self)%Q ->
  (exists e, _check_virtual_line_crossing self contours zone cb now = inl e)
  \/ _check_virtual_line_crossing self contours zone cb now = ok (self, []).
Proof.
  intros Hlt.
  destruct (check_cases self contours zone cb now) as [H|[H|[_ Hge]]];
    [now left|now right|].
  exfalso. exact (Qlt_not_le _ _ Hlt Hge).
Qed.

Lemma last_after_set (self : t) (zone z : Zone) (now : Q) :
  last_crossing_time (set_last_crossing_time self zone now) z
  = if Zone_eqb zone z then now else last_crossing_time self z.
Proof. destruct zone, z; reflexivity. Qed.

Lemma run_raised (self : t) (a : attempt) (rest : list attempt) (e : exn) :
  _check_virtual_line_crossing self (at_contours a) (at_zone a)
    (at_callback a) (at_time a) = inl e ->
  snd (run self (a :: rest)) = [].
Proof. intros H. simpl. now rewrite H. Qed.

Lemma run_returned (self self' : t) (a : attempt) (rest : list attempt)
  (evs : list event) :
  _check_virtual_line_crossing self (at_contours a) (at_zone a)
    (at_callback a) (at_time a) = ok (self', evs) ->
  snd (run self (a :: rest))
  = map (fun e => (at_zone a, at_time a, e)) evs
    ++ snd (run self' rest).
Proof.
  intros H. simpl. rewrite H. simpl.
  now destruct (run self' rest) as [final later].
Qed.

(** Successive declarations of a zone along a run. *)
Lemma declarations_spaced (attempts : list attempt) :
  forall (self : t) (z : Zone),
    spaced (crossing_cooldown self) (last_crossing_time self z)
      (times is_declaration z (snd (run self attempts))).
Proof.
  induction attempts as [|a rest IH]; intros self z.
  - constructor.
  - destruct (check_cases self (at_contours a) (at_zone a) (at_callback a)
                (at_time a)) as [[e H]|[H|[H Hge]]].
    + rewrite (run_raised _ _ _ _ H). constructor.
    + rewrite (run_returned _ _ _ _ _ H). apply IH.
    + rewrite (run_returned _ _ _ _ _ H).
      specialize (IH (set_last_crossing_time self (at_zone a)
                        (at_time a)) z).
      rewrite times_app, times_attempt, filter_declaration.
      rewrite last_after_set in IH. simpl crossing_cooldown in IH.
      destruct (Zone_eqb (at_zone a) z) eqn:Hz; simpl.
      * apply Zone_eqb_eq in Hz. subst z. constructor; [|exact IH].
        lra.
      * exact IH.
Qed.

Lemma spaced_successive (C last : Q) (l : list Q) :
  spaced C last l ->
  forall (k : nat) (t1 t2 : Q),
    nth_error l k = Some t1 -> nth_error l (S k) = Some t2 ->
    (t1 + C <= t2)%Q.
Proof.
  induction 1 as [|last t l Hle Hsp IH]; intros k t1 t2 H1 H2.
  - destruct k; discriminate.
  - destruct k as [|k]; simpl in H1, H2.
    + injection H1 as <-. inversion Hsp; subst; simpl in H2; [discriminate|].
      injection H2 as <-. assumption.
    + eapply IH; eassumption.
Qed.

(** With a cooldown that is not negative, every later callback reading
    of a zone is at least the cooldown after every earlier one. *)
Lemma callbacks_apart (attempts : list attempt) :
  forall (self : t) (z : Zone),
    (0 <= crossing_cooldown self)%Q ->
    Forall (fun t => (last_crossing_time self z + crossing_cooldown self <= t)%Q)
      (times is_callback z (snd (run self attempts)))
    /\ ForallOrdPairs (fun t1 t2 => (t1 + crossing_cooldown self <= t2)%Q)
         (times is_callback z (snd (run self attempts))).
Proof.
  induction attempts as [|a rest IH]; intros self z Hpos.
  - split; constructor.
  - destruct (check_cases self (at_contours a) (at_zone a) (at_callback a)
                (at_time a)) as [[e H]|[H|[H Hge]]].
    + rewrite (run_raised _ _ _ _ H). split; constructor.
    + rewrite (run_returned _ _ _ _ _ H). now apply IH.
    + rewrite (run_returned _ _ _ _ _ H).
      specialize (IH (set_last_crossing_time self (at_zone a)
                        (at_time a)) z Hpos).
      rewrite times_app, times_attempt, filter_callback.
      rewrite last_after_set in IH. simpl crossing_cooldown in IH.
      destruct IH as [IHall IHpairs].
      destruct (Zone_eqb (at_zone a) z) eqn:Hz; simpl;
        [|split; assumption].
      apply Zone_eqb_eq in Hz. subst z.
      assert (Hlater :
               Forall (fun t => (last_crossing_time self (at_zone a)
                                 + crossing_cooldown self <= t)%Q)
                 (times is_callback (at_zone a) (snd (run
                    (set_last_crossing_time self (at_zone a)
                       (at_time a)) rest)))).
      { eapply Forall_impl; [|exact IHall]. simpl. intros t Ht. lra. }
      destruct (at_callback a); simpl.
      * split.
        -- constructor; [lra|exact Hlater].
        -- constructor; assumption.
      * split; assumption.
Qed.

Lemma window_at_most_one (w C : Q) (l : list Q) :
  ForallOrdPairs (fun t1 t2 => (t1 + C <= t2)%Q) l ->
  (List.length (in_window w C l) <= 1)%nat.
Proof.
  induction 1 as [|t l Hall Hpairs IH]; simpl; [lia|].
  destruct (Qle_bool w t && Qltb t (w + C)) eqn:Hin; [|exact IH].
  apply andb_true_iff in Hin. destruct Hin as [Hw Ht].
  apply Qle_bool_iff in Hw. apply Qltb_lt in Ht.
  assert (Hnone : in_window w C l = []).
  { unfold in_window. clear IH Hpairs.
    induction Hall as [|t' l' Hle Hall' IH']; [reflexivity|]. simpl.
    replace (Qltb t' (w + C)) with false
      by (symmetry; apply Qltb_ge; lra).
    rewrite andb_false_r. exact IH'. }
  simpl. rewrite Hnone. simpl. lia.
Qed.

Lemma window_empty (w C : Q) (l : list Q) :
  (C <= 0)%Q -> in_window w C l = [].
Proof.
  intros HC. unfold in_window. induction l as [|t l IH]; [reflexivity|].
  simpl. destruct (Qle_bool w t) eqn:Hw; simpl; [|exact IH].
  apply Qle_bool_iff in Hw.
  replace (Qltb t (w + C)) with false by (symmetry; apply Qltb_ge; lra).
  exact IH.
Qed.

Lemma init_cooldown (use_config : bool) (config_file : file) (h : t) :
  fst (init use_config config_file) = ok h -> crossing_cooldown h = 3%Q.
Proof.
  unfold init. destruct use_config.
  - destruct (ConfigManager.load_config config_file) as [config logged].
    simpl.
    repeat match goal with
           | |- context [rbind ?c _] =>
               destruct c; simpl; try discriminate
           end.
    now intros [= <-].
  - simpl. now intros [= <-].
Qed.

(** C4. The cooldown is 3 seconds from construction on.  A declaration
    records the clock reading of its attempt as the zone's cooldown
    timestamp and is made only when the cooldown has elapsed; an attempt
    made less than the cooldown after the zone's timestamp returns
    without a declaration, a callback or a change of state.  Hence along
    any run of attempts two successive declarations of a zone are at
    least the cooldown apart, and any window of the cooldown's length
    (its end excluded) holds at most one callback of the zone. *)
Theorem cooldown_separates_crossings (self : t) (attempts : list attempt)
  (z : Zone) :
  (forall use_config config_file h,
      fst (init use_config config_file) = ok h -> crossing_cooldown h = 3%Q)
  /\ (forall contours cb now self' evs,
         _check_virtual_line_crossing self contours z cb now = ok (self', evs) ->
         In (declaration z) evs ->
         last_crossing_time self' z = now
         /\ crossing_cooldown self' = crossing_cooldown self
         /\ (crossing_cooldown self <= now - last_crossing_time self z)%Q)
  /\ (forall contours cb now self' evs,
         (now - last_crossing_time self z < crossing_cooldown self)%Q ->
         _check_virtual_line_crossing self contours z cb now = ok (self', evs) ->
         self' = self /\ evs = [])
  /\ (forall k t1 t2,
         nth_error (times is_declaration z (snd (run self attempts))) k
         = Some t1 ->
         nth_error (times is_declaration z (snd (run self attempts))) (S k)
         = Some t2 ->
         (t1 + crossing_cooldown self <= t2)%Q)
  /\ (forall w,
         (List.length
            (in_window w (crossing_cooldown self)
               (times is_callback z (snd (run self attempts)))) <= 1)%nat).
Proof.
  refine (conj init_cooldown (conj _ (conj _ (conj _ _)))).
  - intros contours cb now self' evs Hcheck Hin.
    destruct (check_cases self contours z cb now) as [[e H]|[H|[H Hge]]];
      rewrite H in Hcheck; [discriminate| |].
    + injection Hcheck as _ <-. destruct Hin.
    + injection Hcheck as <- _. rewrite last_after_set.
      replace (Zone_eqb z z) with true by (now destruct z).
      repeat split; trivial.
  - intros contours cb now self' evs Hlt Hcheck.
    destruct (check_in_cooldown self contours z cb now Hlt) as [[e H]|H];
      rewrite H in Hcheck; [discriminate|].
    injection Hcheck as <- <-. now split.
  - exact (spaced_successive _ _ _ (declarations_spaced attempts self z)).
  - intros w. destruct (Qlt_le_dec (crossing_cooldown self) 0) as [Hneg|Hpos].
    + rewrite window_empty; [simpl; lia|]. now apply Qlt_le_weak.
    + apply window_at_most_one.
      exact (proj2 (callbacks_apart attempts self z Hpos)).
Qed.

Lemma cooldown_separates_crossings_witness :
  times is_declaration ENTRY (snd (run sample_handler sample_attempts))
  = [10%Q; 13%Q]
  /\ (10 + crossing_cooldown sample_handler <= 13)%Q.
Proof.
  split; [reflexivity|].
  exact (proj1 (proj2 (proj2 (proj2
           (cooldown_separates_crossings sample_handler sample_attempts
              ENTRY))))
           0%nat 10%Q 13%Q eq_refl eq_refl).
Defined.

End CooldownFacts.

(** ** config_manager.py and the construction of the camera handler *)

Module ConfigFacts.
Import ConfigManager ConfigSpec.

(** A file that cannot be read as JSON: the defaults are returned and
    used, and the fallback is logged (as a warning when the file is
    missing, as an error otherwise). *)
Lemma load_config_falls_back (config_file : file) :
  config_file = Absent \/ config_file = Invalid \/ config_file = Unreadable ->
  fst (load_config config_file) = DEFAULT_CONFIG
  /\ (exists l msg, snd (load_config config_file) = [Log l msg]
                    /\ (l = WARNING \/ l = ERROR))
  /\ fst (CameraHandler.init true config_file) = ok default_handler.
Proof.
  intros [->|[->| ->]]; (split; [reflexivity|]); (split; [|reflexivity]);
    eexists _, _; (split; [reflexivity|]); auto.
Qed.

(** A file that parses is returned as it is, whatever it holds. *)
Lemma load_config_content (j : json) :
  load_config (Content j) = (j, [Log INFO "Configuration loaded"]).
Proof. reflexivity. Qed.

Lemma init_needs_zones (j : json) (e : exn) :
  py_subscript j "entry_zone" = inl e
  \/ (exists z, py_subscript j "entry_zone" = ok z)
     /\ py_subscript j "exit_zone" = inl e ->
  CameraHandler.init true (Content j)
  = (inl e, [Log INFO "Configuration loaded"]).
Proof.
  unfold CameraHandler.init. rewrite load_config_content.
  intros [H|[[z Hz] H]].
  - rewrite H. reflexivity.
  - rewrite Hz, H. reflexivity.
Qed.

(** C8, at the configuration file [{}]: the file parses, so [load_config]
    returns the empty dict, not the defaults, and logs no warning; the
    content does not pass [_validate_config]; and the construction of
    the camera handler raises [KeyError] at [config["entry_zone"]]. *)
Theorem empty_config_fails_startup :
  load_config (Content (JObj [])) = (JObj [], [Log INFO "Configuration loaded"])
  /\ _validate_config (JObj []) = false
  /\ _validate_config DEFAULT_CONFIG = true
  /\ CameraHandler.init true (Content (JObj []))
     = (raise KeyError, [Log INFO "Configuration loaded"]).
Proof. repeat split. Qed.

End ConfigFacts.

(** ** data_manager.py: free slots *)

Module SlotFacts.
Import DataManager SlotSpec.

Lemma py_range_In (lo hi i : Z) : In i (py_range lo hi) <-> lo <= i < hi.
Proof.
  unfold py_range. rewrite in_map_iff. split.
  - intros [k [<- Hk]]. apply in_seq in Hk. lia.
  - intros H. exists (Z.to_nat (i - lo)). split; [lia|].
    apply in_seq. lia.
Qed.

Lemma py_range_length (lo hi : Z) :
  List.length (py_range lo hi) = Z.to_nat (hi - lo).
Proof. unfold py_range. now rewrite length_map, length_seq. Qed.

Lemma filter_all {A} (l : list A) : filter (fun _ => true) l = l.
Proof. induction l as [|a l IH]; simpl; congruence. Qed.

Lemma read_json_empty (self : t) :
  vehicles_file self = Absent \/ vehicles_file self = Invalid ->
  _read_json self VehiclesFile = ok (JObj []).
Proof. unfold _read_json. simpl. intros [-> | ->]; reflexivity. Qed.

Lemma read_failure_all_slots (self : t) (total_slots : Z) :
  read_failure self total_slots ->
  get_available_slots self total_slots = py_range 1 (total_slots + 1).
Proof.
  unfold get_available_slots, read_failure.
  intros [H|[H|[e H]]].
  - unfold get_available_slots_body.
    rewrite read_json_empty by auto. simpl. apply filter_all.
  - unfold get_available_slots_body.
    rewrite read_json_empty by auto. simpl. apply filter_all.
  - rewrite H. reflexivity.
Qed.

(** C10 as stated fails when there is no slot at all. *)
Lemma read_failure_never_full_counterexample :
  ~ (forall (self : t) (total_slots : Z),
        read_failure self total_slots ->
        get_available_slots self total_slots = py_range 1 (total_slots + 1)
        /\ is_parking_full self total_slots = false).
Proof.
  intros H.
  destruct (H {| vehicles_file := Absent; history_file := Absent;
                 writable := true |} 0) as [_ Hfull].
  - left. reflexivity.
  - discriminate Hfull.
Qed.

(** C10, amended. If the read of the active-vehicles store fails (the
    file is missing or is not valid JSON, so that the read yields the
    empty dict, or the query raises), [get_available_slots] returns
    every slot number from 1 to [total_slots]; [is_parking_full] then
    returns [False] when [total_slots] is at least 1, and [True] when
    there is no slot. *)
Theorem read_failure_shows_every_slot (self : t) (total_slots : Z) :
  read_failure self total_slots ->
  (vehicles_file self = Absent \/ vehicles_file self = Invalid ->
   _read_json self VehiclesFile = ok (JObj []))
  /\ get_available_slots self total_slots = py_range 1 (total_slots + 1)
  /\ (forall i, In i (get_available_slots self total_slots)
                <-> 1 <= i <= total_slots)
  /\ (1 <= total_slots -> is_parking_full self total_slots = false)
  /\ (total_slots <= 0 -> is_parking_full self total_slots = true).
Proof.
  intros Hfail. pose proof (read_failure_all_slots self total_slots Hfail) as Hall.
  refine (conj (read_json_empty self) (conj Hall (conj _ (conj _ _)))).
  - intros i. rewrite Hall, py_range_In. lia.
  - intros Hpos. unfold is_parking_full. rewrite Hall, py_range_length.
    apply Nat.eqb_neq. lia.
  - intros Hnone. unfold is_parking_full. rewrite Hall, py_range_length.
    apply Nat.eqb_eq. lia.
Qed.

(** The vehicles file holds a list where a dict is expected: the query
    raises [AttributeError] and three slots out of three are reported
    free. *)
Lemma read_failure_shows_every_slot_witness :
  get_available_slots
    {| vehicles_file := Content (JList []); history_file := Absent;
       writable := true |} 3 = [1; 2; 3]
  /\ is_parking_full
       {| vehicles_file := Content (JList []); history_file := Absent;
          writable := true |} 3 = false.
Proof.
  destruct (read_failure_shows_every_slot
              {| vehicles_file := Content (JList []); history_file := Absent;
                 writable := true |} 3)
    as [_ [Hall [_ [Hfull _]]]].
  - right. right. exists AttributeError. reflexivity.
  - split; [exact Hall | apply Hfull; lia].
Defined.

End SlotFacts.

(** ** data_manager.py: active records *)

Module StoreFacts.
Import DataManager StoreSpec.

Lemma lookup_dict_set (k : string) (v : json) (kv : list (string * json)) :
  lookup k (dict_set k v kv) = Some v.
Proof.
  induction kv as [|[k' v'] kv IH]; simpl.
  - now rewrite String.eqb_refl.
  - destruct (String.eqb k k') eqn:E; simpl; rewrite E; [reflexivity|exact IH].
Qed.

Lemma eq_str_true (x : json) (s : string) : eq_str x s = true <-> x = JStr s.
Proof.
  destruct x; simpl; try (split; congruence).
  rewrite String.eqb_eq. split; congruence.
Qed.

Lemma plates_app (l1 l2 : list json) : plates (l1 ++ l2) = plates l1 ++ plates l2.
Proof. unfold plates. apply flat_map_app. Qed.

(** The duplicate check never answers "absent" for a plate on record. *)
Lemma already_present_sound (vehicles : list json) (p : string) :
  already_present vehicles p = ok false -> ~ In p (plates vehicles).
Proof.
  induction vehicles as [|v rest IH]; simpl; [tauto|].
  destruct v as [| | | | |l|kv]; simpl; try discriminate.
  destruct (lookup "number_plate" kv) as [np|] eqn:Hnp; simpl.
  - destruct (eq_str np p) eqn:Heq; [discriminate|].
    intros Hrest Hin. apply in_app_or in Hin. destruct Hin as [Hin|Hin].
    + destruct np; simpl in Hin; try contradiction.
      destruct Hin as [->|[]]. simpl in Heq.
      rewrite String.eqb_refl in Heq. discriminate.
    + now apply IH.
  - intros Hrest Hin. simpl in Hin. now apply IH.
Qed.

Section WithCodec.
Context {C : DateCodec}.

Lemma plate_of_new (p : string) (entry_time : datetime) (slot : Z) :
  plate_of (new_vehicle_entry p entry_time slot) = [p].
Proof. reflexivity. Qed.

Lemma stored_after_write (self : t) (kv : list (string * json))
  (l : list json) :
  writable self = true ->
  stored_vehicles
    (_write_json self VehiclesFile (JObj (dict_set "vehicles" (JList l) kv)))
  = l.
Proof.
  intros Hw. unfold stored_vehicles, _write_json, _read_json. rewrite Hw.
  simpl. now rewrite lookup_dict_set.
Qed.

Lemma write_not_writable (self : t) (p : path) (j : json) :
  writable self = false -> _write_json self p j = self.
Proof. unfold _write_json. now intros ->. Qed.

(** [add_vehicle_entry] either refuses and leaves the store alone, or
    appends one record to a list that did not hold the plate. *)
Lemma add_vehicle_entry_cases (self : t) (p : string) (entry_time : datetime)
  (slot : Z) :
  add_vehicle_entry self p entry_time slot = (false, self)
  \/ exists kv,
       ~ In p (plates (stored_vehicles self))
       /\ add_vehicle_entry self p entry_time slot
          = (true,
             _write_json self VehiclesFile
               (JObj (dict_set "vehicles"
                        (JList (stored_vehicles self
                                ++ [new_vehicle_entry p entry_time slot]))
                        kv))).
Proof.
  unfold add_vehicle_entry, add_vehicle_entry_body, stored_vehicles.
  destruct (_read_json self VehiclesFile) as [e|data]; simpl; [now left|].
  destruct data as [| | | | |l|kv]; simpl; try (now left).
  destruct (lookup "vehicles" kv) as [vehicles|] eqn:Hv; simpl.
  - destruct vehicles as [| | | | |l|kv']; simpl; try (now left).
    + destruct (already_present (chars s) p) as [e|[|]]; simpl; now left.
    + destruct (already_present l p) as [e|[|]] eqn:Hdup; simpl;
        try (now left).
      right. exists kv. split; [|reflexivity].
      now apply already_present_sound.
    + destruct (already_present (map (fun q => JStr (fst q)) kv') p)
        as [e|[|]]; simpl; now left.
  - right. exists kv. split; [tauto|reflexivity].
Qed.

Lemma add_vehicle_entry_duplicate (self : t) (p : string)
  (entry_time : datetime) (slot : Z) :
  active self p -> add_vehicle_entry self p entry_time slot = (false, self).
Proof.
  intros Hact.
  destruct (add_vehicle_entry_cases self p entry_time slot)
    as [H|[kv [Hnot _]]]; [exact H|contradiction].
Qed.

Lemma add_vehicle_entry_unique (self : t) (p : string)
  (entry_time : datetime) (slot : Z) :
  unique_plates self ->
  unique_plates (snd (add_vehicle_entry self p entry_time slot)).
Proof.
  intros Hu.
  destruct (add_vehicle_entry_cases self p entry_time slot)
    as [H|[kv [Hnot H]]]; rewrite H; simpl; [exact Hu|].
  destruct (writable self) eqn:Hw.
  - unfold unique_plates. rewrite stored_after_write by exact Hw.
    rewrite plates_app. apply NoDup_app; [exact Hu| |].
    + simpl. repeat constructor. simpl. tauto.
    + simpl. intros q Hq [<-|[]]. contradiction.
  - now rewrite write_not_writable.
Qed.

Lemma stored_vehicles_same_file (a b : t) :
  vehicles_file a = vehicles_file b -> stored_vehicles a = stored_vehicles b.
Proof.
  unfold stored_vehicles, _read_json. simpl. now intros ->.
Qed.

Lemma add_history_record_keeps_vehicles (self : t) (p : string)
  (entry_time exit_time : datetime) (fee : Q) (slot : json) :
  vehicles_file (snd (add_history_record self p entry_time exit_time fee slot))
  = vehicles_file self.
Proof.
  unfold add_history_record.
  destruct (_read_json self HistoryFile) as [e|data]; simpl; [reflexivity|].
  destruct (py_get_default data "history" (JList [])) as [e|history]; simpl;
    [reflexivity|].
  destruct (py_append history _) as [e|history']; simpl; [reflexivity|].
  destruct (py_setitem data "history" history') as [e|data']; simpl;
    [reflexivity|].
  unfold _write_json. now destruct (writable self).
Qed.

(** The list comprehension of [remove_vehicle_entry] keeps the records
    of the other plates. *)
Lemma without_plate_plates (vehicles kept : list json) (p : string) :
  without_plate vehicles p = ok kept ->
  plates kept = filter (fun s => negb (String.eqb s p)) (plates vehicles).
Proof.
  revert kept. induction vehicles as [|v rest IH]; intros kept.
  - simpl. now intros [= <-].
  - unfold plates in *. cbn [without_plate flat_map].
    destruct v as [| | | | |l|kv]; try discriminate.
    cbn [py_get py_get_default rbind ok].
    destruct (without_plate rest p) as [e|kept'] eqn:Hrest;
      [discriminate|].
    cbn [rbind]. intros [= <-]. specialize (IH kept' eq_refl).
    rewrite filter_app, <- IH. unfold plate_of at 2.
    destruct (lookup "number_plate" kv) as [np|] eqn:Hl.
    + destruct np; cbn [eq_str flat_map plate_of]; rewrite ?Hl;
        try reflexivity.
      cbn [filter].
      destruct (String.eqb s p); cbn [flat_map plate_of negb app];
        rewrite ?Hl; reflexivity.
    + cbn [eq_str flat_map plate_of]. rewrite Hl. reflexivity.
Qed.

Lemma remove_vehicle_entry_unique (self : t) (p : string) :
  unique_plates self -> unique_plates (snd (remove_vehicle_entry self p)).
Proof.
  intros Hu. unfold remove_vehicle_entry.
  destruct (_read_json self VehiclesFile) as [e|data] eqn:Hread; simpl;
    [exact Hu|].
  destruct data as [| | | | |l|kv]; simpl; try exact Hu.
  destruct (lookup "vehicles" kv) as [vehicles|] eqn:Hv; simpl;
    [|exact Hu].
  destruct (py_len vehicles) as [e|n]; simpl; [exact Hu|].
  destruct (py_iter vehicles) as [e|items] eqn:Hit; simpl; [exact Hu|].
  destruct (without_plate items p) as [e|kept] eqn:Hk; simpl; [exact Hu|].
  destruct (List.length kept <? n)%nat; simpl; [|exact Hu].
  destruct (writable self) eqn:Hw; [|now rewrite write_not_writable].
  unfold unique_plates. rewrite stored_after_write by exact Hw.
  rewrite (without_plate_plates items kept p Hk). apply NoDup_filter.
  destruct vehicles as [| | | | |l|kv']; simpl in Hit; try discriminate.
  - injection Hit as <-. unfold plates, chars.
    rewrite flat_map_concat_map, map_map. simpl.
    clear. induction (list_ascii_of_string s); simpl; [constructor|assumption].
  - injection Hit as <-. unfold unique_plates, stored_vehicles in Hu.
    now rewrite Hread, Hv in Hu.
  - injection Hit as <-. unfold plates.
    rewrite flat_map_concat_map, map_map. simpl.
    clear. induction kv'; simpl; [constructor|assumption].
Qed.

End WithCodec.

End StoreFacts.

(** ** main.py: the gate coordinator *)

Module CoordinatorFacts.
Import ParkingSystem StoreSpec CoordinatorSpec StoreFacts.

Lemma check_and_set_busy (z : Zone) (w : world) :
  gate_processing z (sys w) = true ->
  check_and_set z w = (ok true, w, [Log WARNING (busy_warning z)]).
Proof.
  intros H. unfold check_and_set, bind, read, log, emit, ret.
  rewrite H. destruct z; reflexivity.
Qed.

Lemma check_and_set_idle (z : Zone) (w : world) :
  gate_processing z (sys w) = false ->
  check_and_set z w
  = (ok false,
     {| sys := set_gate_processing z true (sys w); data := data w |},
     [Log INFO (crossing_notice z)]).
Proof.
  intros H. unfold check_and_set, bind, read, log, emit, ret, update.
  rewrite H. destruct z; reflexivity.
Qed.

Lemma gate_processing_set (z : Zone) (b : bool) (s : ParkingSystem.t) :
  gate_processing z (set_gate_processing z b s) = b.
Proof. destruct z; reflexivity. Qed.

Section WithReader.
Context {R : PlateReader} {C : DateCodec}.

Lemma handle_unfold (z : Zone) (fr : frame) (zi : zone_image)
  (now : datetime) :
  handle z fr zi now
  = (busy <- check_and_set z ;;
     if (busy : bool) then ret tt else process z fr zi now)%sys.
Proof. destruct z; reflexivity. Qed.

Lemma handle_busy (z : Zone) (fr : frame) (zi : zone_image)
  (now : datetime) (w : world) :
  gate_processing z (sys w) = true ->
  handle z fr zi now w = (ok tt, w, [Log WARNING (busy_warning z)]).
Proof.
  intros Hflag. rewrite handle_unfold. unfold bind.
  rewrite (check_and_set_busy z w Hflag). reflexivity.
Qed.

Lemma handle_idle (z : Zone) (fr : frame) (zi : zone_image)
  (now : datetime) (w : world) :
  gate_processing z (sys w) = false ->
  handle z fr zi now w
  = match process z fr zi now
            {| sys := set_gate_processing z true (sys w); data := data w |}
    with
    | (r, w2, evs) => (r, w2, Log INFO (crossing_notice z) :: evs)
    end.
Proof.
  intros Hflag. rewrite handle_unfold. unfold bind.
  rewrite (check_and_set_idle z w Hflag). reflexivity.
Qed.

(** C1. For each zone: a crossing event delivered while the zone's
    processing flag is true makes the handler log a warning and return;
    the flag, the rest of the controller's state and the repository are
    as before, and the warning is the only effect (no plate extraction,
    no command to the actuator).  An event delivered while the flag is
    false sets the flag, and it is with the flag set that the event is
    processed. *)
Theorem busy_zone_drops_crossing (z : Zone) (fr : frame) (zi : zone_image)
  (now : datetime) (w : world) :
  (gate_processing z (sys w) = true ->
   handle z fr zi now w = (ok tt, w, [Log WARNING (busy_warning z)]))
  /\ (gate_processing z (sys w) = false ->
      let w1 := {| sys := set_gate_processing z true (sys w);
                   data := data w |} in
      gate_processing z (sys w1) = true
      /\ result (handle z fr zi now w) = result (process z fr zi now w1)
      /\ final (handle z fr zi now w) = final (process z fr zi now w1)
      /\ events (handle z fr zi now w)
         = Log INFO (crossing_notice z) :: events (process z fr zi now w1)).
Proof.
  split; intros Hflag.
  - now apply handle_busy.
  - intros w1. rewrite (handle_idle z fr zi now w Hflag). fold w1.
    split; [apply gate_processing_set|].
    destruct (process z fr zi now w1) as [[r w2] evs]. now repeat split.
Qed.

Ltac run_handler :=
  cbv beta iota zeta
      delta [process_entry process_exit read_plate resolved read_events
             bind read query store update emit log ret throw ok raise
             sys data app entry_cleared exit_cleared buzzer_alert
             SerialComm.buzzer_on SerialComm.buzzer_off
             SerialComm.open_entry_gate SerialComm.open_exit_gate].

(** [process_entry], path by path. *)
Lemma process_entry_run (fr : frame) (zi : zone_image) (now : datetime)
  (w : world) :
  process_entry fr zi now w
  = if DataManager.is_parking_full (data w) (total_slots (sys w))
       || slot_occupied (sys w)
    then (ok tt, entry_cleared w, buzzer_alert)
    else
      match resolved ENTRY fr zi with
      | None =>
          (ok tt, entry_cleared w,
           Log INFO "Extracting number plate from entry zone..."
             :: read_events zi
             ++ [Log ERROR
                   "Failed to extract number plate after retry. Entry denied."])
      | Some plate =>
          match DataManager.get_vehicle_entry (data w) plate with
          | Some _ =>
              (ok tt, entry_cleared w,
               Log INFO "Extracting number plate from entry zone..."
                 :: read_events zi
                 ++ [Log INFO ("Number plate extracted: " ++ plate)%string;
                     Log WARNING
                       ("Vehicle " ++ plate ++ " is already in the system!")%string])
          | None =>
              match DataManager.get_available_slots (data w)
                      (total_slots (sys w)) with
              | [] =>
                  (ok tt, entry_cleared w,
                   Log INFO "Extracting number plate from entry zone..."
                     :: read_events zi
                     ++ [Log INFO ("Number plate extracted: " ++ plate)%string;
                         Log ERROR "No available slots (race condition?)"])
              | slot :: _ =>
                  if fst (DataManager.add_vehicle_entry (data w) plate now slot)
                  then
                    (ok tt,
                     {| sys := sys w;
                        data := snd (DataManager.add_vehicle_entry (data w)
                                       plate now slot) |},
                     Log INFO "Extracting number plate from entry zone..."
                       :: read_events zi
                       ++ [Log INFO ("Number plate extracted: " ++ plate)%string;
                           Log INFO ("Vehicle " ++ plate ++ " entered")%string;
                           Send "OPEN_ENTRY_GATE";
                           StartTimer 5 CloseEntryGateAfterTimeout])
                  else
                    (ok tt,
                     {| sys := set_entry_gate_processing false (sys w);
                        data := snd (DataManager.add_vehicle_entry (data w)
                                       plate now slot) |},
                     Log INFO "Extracting number plate from entry zone..."
                       :: read_events zi
                       ++ [Log INFO ("Number plate extracted: " ++ plate)%string;
                           Log ERROR "Failed to add vehicle entry record"])
              end
          end
      end.
Proof.
  destruct w as [s d]. run_handler.
  destruct (DataManager.is_parking_full d (total_slots s) || slot_occupied s);
    [reflexivity|].
  destruct (truthy (extract_number_plate zi)) as [plate|].
  - destruct (DataManager.get_vehicle_entry _ plate); [reflexivity|].
    destruct (DataManager.get_available_slots _ _) as [|slot rest];
      [reflexivity|].
    destruct (DataManager.add_vehicle_entry _ plate now slot) as [[|] d'];
      reflexivity.
  - destruct (truthy (extract_number_plate_from_zone fr ENTRY)) as [plate|];
      [|reflexivity].
    destruct (DataManager.get_vehicle_entry _ plate); [reflexivity|].
    destruct (DataManager.get_available_slots _ _) as [|slot rest];
      [reflexivity|].
    destruct (DataManager.add_vehicle_entry _ plate now slot) as [[|] d'];
      reflexivity.
Qed.

(** [process_exit], path by path. *)
Lemma process_exit_run (fr : frame) (zi : zone_image) (now : datetime)
  (w : world) :
  process_exit fr zi now w
  = match resolved EXIT fr zi with
    | None =>
        (ok tt, exit_cleared w,
         Log INFO "Extracting number plate from exit zone..."
           :: read_events zi
           ++ [Log ERROR "Failed to extract number plate after retry."])
    | Some plate =>
        match DataManager.get_vehicle_entry (data w) plate with
        | None =>
            (ok tt, exit_cleared w,
             Log INFO "Extracting number plate from exit zone..."
               :: read_events zi
               ++ [Log INFO ("Number plate extracted: " ++ plate)%string;
                   Log WARNING
                     ("Vehicle " ++ plate
                        ++ " not found in system. Entry may have failed.")%string])
        | Some found =>
            let billed :=
              FeeCalculator.calculate_fee
                {| FeeCalculator.hourly_rate := hourly_rate (sys w) |}
                (Some (DataManager.entry_time found)) (Some now) in
            if DataManager.entry_time_aware found then
              (raise TypeError, w,
               Log INFO "Extracting number plate from exit zone..."
                 :: read_events zi
                 ++ [Log INFO ("Number plate extracted: " ++ plate)%string])
            else
            match lookup "slot" (DataManager.fields found) with
            | None =>
                (raise KeyError, w,
                 Log INFO "Extracting number plate from exit zone..."
                   :: read_events zi
                   ++ Log INFO ("Number plate extracted: " ++ plate)%string
                   :: snd billed
                   ++ [Log INFO ("Vehicle " ++ plate ++ " - Duration, Fee")%string;
                       Print "Parking Fee Receipt"])
            | Some slot =>
                let recorded :=
                  DataManager.add_history_record (data w) plate
                    (DataManager.entry_time found) now (fst billed) slot in
                let removed :=
                  DataManager.remove_vehicle_entry (snd recorded) plate in
                (ok tt, {| sys := sys w; data := snd removed |},
                 Log INFO "Extracting number plate from exit zone..."
                   :: read_events zi
                   ++ Log INFO ("Number plate extracted: " ++ plate)%string
                   :: snd billed
                   ++ [Log INFO ("Vehicle " ++ plate ++ " - Duration, Fee")%string;
                       Print "Parking Fee Receipt";
                       Log INFO
                         ("Vehicle " ++ plate
                            ++ " removed from active records")%string;
                       Send "OPEN_EXIT_GATE";
                       StartTimer 5 CloseExitGateAfterTimeout])
            end
        end
    end.
Proof.
  destruct w as [s d]. run_handler.
  destruct (truthy (extract_number_plate zi)) as [plate|].
  - destruct (DataManager.get_vehicle_entry d plate) as [found|];
      [|reflexivity].
    destruct (DataManager.entry_time_aware found); [reflexivity|].
    destruct (FeeCalculator.calculate_fee _ _ _) as [fee logged].
    destruct (lookup "slot" (DataManager.fields found)); [|reflexivity].
    cbv beta iota zeta delta [fst snd].
    destruct (DataManager.add_history_record d plate _ now fee _) as [b1 d1].
    destruct (DataManager.remove_vehicle_entry d1 plate) as [b2 d2].
    reflexivity.
  - destruct (truthy (extract_number_plate_from_zone fr EXIT)) as [plate|];
      [|reflexivity].
    destruct (DataManager.get_vehicle_entry d plate) as [found|];
      [|reflexivity].
    destruct (DataManager.entry_time_aware found); [reflexivity|].
    destruct (FeeCalculator.calculate_fee _ _ _) as [fee logged].
    destruct (lookup "slot" (DataManager.fields found)); [|reflexivity].
    cbv beta iota zeta delta [fst snd].
    destruct (DataManager.add_history_record d plate _ now fee _) as [b1 d1].
    destruct (DataManager.remove_vehicle_entry d1 plate) as [b2 d2].
    reflexivity.
Qed.

Lemma entry_flag_restored (s : ParkingSystem.t) :
  entry_gate_processing s = false ->
  set_entry_gate_processing false (set_entry_gate_processing true s) = s.
Proof. destruct s. simpl. now intros ->. Qed.

Lemma handle_entry_busy (fr : frame) (zi : zone_image) (now : datetime)
  (w : world) :
  entry_gate_processing (sys w) = true ->
  _handle_entry_virtual_line fr zi now w
  = (ok tt, w, [Log WARNING (busy_warning ENTRY)]).
Proof. exact (handle_busy ENTRY fr zi now w). Qed.

Lemma handle_exit_busy (fr : frame) (zi : zone_image) (now : datetime)
  (w : world) :
  exit_gate_processing (sys w) = true ->
  _handle_exit_virtual_line fr zi now w
  = (ok tt, w, [Log WARNING (busy_warning EXIT)]).
Proof. exact (handle_busy EXIT fr zi now w). Qed.

Lemma handle_entry_idle (fr : frame) (zi : zone_image) (now : datetime)
  (w : world) :
  entry_gate_processing (sys w) = false ->
  _handle_entry_virtual_line fr zi now w
  = match process_entry fr zi now
            {| sys := set_entry_gate_processing true (sys w); data := data w |}
    with
    | (r, w2, evs) =>
        (r, w2, Log INFO "Vehicle detected crossing entry virtual line" :: evs)
    end.
Proof. exact (handle_idle ENTRY fr zi now w). Qed.

Lemma handle_exit_idle (fr : frame) (zi : zone_image) (now : datetime)
  (w : world) :
  exit_gate_processing (sys w) = false ->
  _handle_exit_virtual_line fr zi now w
  = match process_exit fr zi now
            {| sys := set_exit_gate_processing true (sys w); data := data w |}
    with
    | (r, w2, evs) =>
        (r, w2, Log INFO "Vehicle detected crossing exit virtual line" :: evs)
    end.
Proof. exact (handle_idle EXIT fr zi now w). Qed.

(** C7. When an entry crossing event is handled and [is_parking_full]
    reports full or the hardware slot-occupied flag is set, the
    coordinator sends BUZZER_ON, waits 3 seconds, sends BUZZER_OFF,
    clears the entry processing flag and returns: the effects are these
    and two log lines, so no plate is read and no gate-open command is
    sent, and the controller and the repository end as they began. *)
Theorem full_lot_sounds_buzzer (fr : frame) (zi : zone_image)
  (now : datetime) (w : world) :
  entry_gate_processing (sys w) = false ->
  DataManager.is_parking_full (data w) (total_slots (sys w))
  || slot_occupied (sys w) = true ->
  _handle_entry_virtual_line fr zi now w
  = (ok tt, w,
     [Log INFO "Vehicle detected crossing entry virtual line";
      Log WARNING "Parking is full! Activating buzzer...";
      Send "BUZZER_ON"; Sleep 3; Send "BUZZER_OFF"])
  /\ entry_gate_processing (sys (final (_handle_entry_virtual_line fr zi now w)))
     = false.
Proof.
  intros Hflag Hfull. rewrite (handle_entry_idle fr zi now w Hflag).
  rewrite process_entry_run.
  cbn [sys data total_slots slot_occupied set_entry_gate_processing].
  rewrite Hfull. unfold entry_cleared. cbn [sys data final fst snd].
  rewrite (entry_flag_restored (sys w) Hflag).
  split; [now destruct w|exact Hflag].
Qed.

(** The entry gate is opened only after [add_vehicle_entry] has returned
    [True], and a refusal clears the processing flag. *)
Lemma entry_gate_needs_record (fr : frame) (zi : zone_image)
  (now : datetime) (w : world) :
  entry_gate_processing (sys w) = false ->
  (In (Send "OPEN_ENTRY_GATE") (events (_handle_entry_virtual_line fr zi now w))
   /\ exists plate slot,
        DataManager.add_vehicle_entry (data w) plate now slot
        = (true, data (final (_handle_entry_virtual_line fr zi now w))))
  \/ (~ In (Send "OPEN_ENTRY_GATE")
        (events (_handle_entry_virtual_line fr zi now w))
      /\ entry_gate_processing
           (sys (final (_handle_entry_virtual_line fr zi now w))) = false
      /\ data (final (_handle_entry_virtual_line fr zi now w)) = data w).
Proof.
  intros Hflag. rewrite (handle_entry_idle fr zi now w Hflag).
  rewrite process_entry_run.
  cbn [sys data total_slots slot_occupied set_entry_gate_processing].
  unfold entry_cleared, buzzer_alert, read_events.
  destruct (DataManager.is_parking_full _ _ || slot_occupied _).
  { right. cbn. intuition discriminate. }
  destruct (resolved ENTRY fr zi) as [plate|].
  2:{ right. destruct (truthy (extract_number_plate zi)); cbn;
        intuition discriminate. }
  destruct (DataManager.get_vehicle_entry (data w) plate).
  { right. destruct (truthy (extract_number_plate zi)); cbn;
      intuition discriminate. }
  destruct (DataManager.get_available_slots (data w) (total_slots (sys w)))
    as [|slot rest].
  { right. destruct (truthy (extract_number_plate zi)); cbn;
      intuition discriminate. }
  destruct (add_vehicle_entry_cases (data w) plate now slot)
    as [Hadd|[kv [_ Hadd]]]; rewrite Hadd; cbn [fst snd].
  - right. destruct (truthy (extract_number_plate zi)); cbn;
      intuition discriminate.
  - left. split.
    + destruct (truthy (extract_number_plate zi)); cbn; intuition.
    + exists plate, slot. exact Hadd.
Qed.

(** Once a record is found with its slot (and an entry time that can
    be compared with the clock), the exit gate is opened whatever
    [add_history_record] and [remove_vehicle_entry] return. *)
Lemma exit_gate_ignores_persistence (fr : frame) (zi : zone_image)
  (now : datetime) (w : world) (plate : string)
  (found : DataManager.vehicle_entry) (slot : json) :
  exit_gate_processing (sys w) = false ->
  resolved EXIT fr zi = Some plate ->
  DataManager.get_vehicle_entry (data w) plate = Some found ->
  DataManager.entry_time_aware found = false ->
  lookup "slot" (DataManager.fields found) = Some slot ->
  In (Send "OPEN_EXIT_GATE") (events (_handle_exit_virtual_line fr zi now w))
  /\ exit_gate_processing (sys (final (_handle_exit_virtual_line fr zi now w)))
     = true.
Proof.
  intros Hflag Hres Hfound Hnaive Hslot.
  rewrite (handle_exit_idle fr zi now w Hflag), process_exit_run.
  cbn [sys data hourly_rate set_exit_gate_processing].
  rewrite Hres, Hfound, Hnaive, Hslot. cbn [events final fst snd sys].
  split; [|reflexivity].
  right. right. apply in_or_app. right. right. apply in_or_app. right.
  cbn. tauto.
Qed.

Lemma handle_entry_unique (fr : frame) (zi : zone_image) (now : datetime)
  (w : world) :
  unique_plates (data w) ->
  unique_plates (data (final (_handle_entry_virtual_line fr zi now w))).
Proof.
  intros Hu. destruct (entry_gate_processing (sys w)) eqn:Hflag.
  - now rewrite (handle_entry_busy fr zi now w Hflag).
  - destruct (entry_gate_needs_record fr zi now w Hflag)
      as [[_ [plate [slot Hadd]]]|[_ [_ Hsame]]].
    + apply (f_equal snd) in Hadd. cbn [snd] in Hadd. rewrite <- Hadd.
      now apply add_vehicle_entry_unique.
    + now rewrite Hsame.
Qed.

Lemma handle_exit_unique (fr : frame) (zi : zone_image) (now : datetime)
  (w : world) :
  unique_plates (data w) ->
  unique_plates (data (final (_handle_exit_virtual_line fr zi now w))).
Proof.
  intros Hu. destruct (exit_gate_processing (sys w)) eqn:Hflag.
  - now rewrite (handle_exit_busy fr zi now w Hflag).
  - rewrite (handle_exit_idle fr zi now w Hflag), process_exit_run.
    cbn [sys data hourly_rate set_exit_gate_processing].
    unfold exit_cleared.
    destruct (resolved EXIT fr zi) as [plate|]; [|exact Hu].
    destruct (DataManager.get_vehicle_entry (data w) plate) as [found|];
      [|exact Hu].
    destruct (DataManager.entry_time_aware found); [exact Hu|].
    destruct (lookup "slot" (DataManager.fields found)) as [slot|];
      [|exact Hu].
    cbn [final fst snd data]. apply remove_vehicle_entry_unique.
    unfold unique_plates.
    rewrite (stored_vehicles_same_file _ (data w)); [exact Hu|].
    apply add_history_record_keeps_vehicles.
Qed.

(** C6. For every plate with an active record: [add_vehicle_entry]
    returns [False] and leaves the store as it is; an entry crossing
    event that resolves to the plate adds no record, sends no
    OPEN_ENTRY_GATE, logs a warning or an error and ends with the
    processing flag cleared.  A store without two records of one plate
    stays so under [add_vehicle_entry] and under both handlers. *)
Theorem duplicate_plate_denied (fr : frame) (zi : zone_image)
  (now : datetime) (w : world) (p : string) :
  (active (data w) p ->
   forall entry_time slot,
     DataManager.add_vehicle_entry (data w) p entry_time slot
     = (false, data w))
  /\ (active (data w) p ->
      entry_gate_processing (sys w) = false ->
      resolved ENTRY fr zi = Some p ->
      result (_handle_entry_virtual_line fr zi now w) = ok tt
      /\ data (final (_handle_entry_virtual_line fr zi now w)) = data w
      /\ ~ In (Send "OPEN_ENTRY_GATE")
           (events (_handle_entry_virtual_line fr zi now w))
      /\ entry_gate_processing
           (sys (final (_handle_entry_virtual_line fr zi now w))) = false
      /\ exists l msg,
           (l = WARNING \/ l = ERROR)
           /\ In (Log l msg) (events (_handle_entry_virtual_line fr zi now w)))
  /\ (unique_plates (data w) ->
      (forall q entry_time slot,
          unique_plates
            (snd (DataManager.add_vehicle_entry (data w) q entry_time slot)))
      /\ unique_plates (data (final (_handle_entry_virtual_line fr zi now w)))
      /\ unique_plates (data (final (_handle_exit_virtual_line fr zi now w)))).
Proof.
  refine (conj _ (conj _ _)).
  - intros Hact entry_time slot. now apply add_vehicle_entry_duplicate.
  - intros Hact Hflag Hres.
    rewrite (handle_entry_idle fr zi now w Hflag), process_entry_run.
    cbn [sys data total_slots slot_occupied set_entry_gate_processing].
    unfold entry_cleared, buzzer_alert, read_events. rewrite Hres.
    destruct (DataManager.is_parking_full _ _ || slot_occupied _).
    { cbn. repeat split; try intuition discriminate.
      exists WARNING, "Parking is full! Activating buzzer...". tauto. }
    destruct (DataManager.get_vehicle_entry (data w) p).
    { destruct (truthy (extract_number_plate zi)); cbn;
        (repeat split; try intuition discriminate);
        exists WARNING, ("Vehicle " ++ p ++ " is already in the system!")%string;
        tauto. }
    destruct (DataManager.get_available_slots (data w) (total_slots (sys w)))
      as [|slot rest].
    { destruct (truthy (extract_number_plate zi)); cbn;
        (repeat split; try intuition discriminate);
        exists ERROR, "No available slots (race condition?)"; tauto. }
    rewrite (add_vehicle_entry_duplicate (data w) p now slot Hact).
    cbn [fst snd].
    destruct (truthy (extract_number_plate zi)); cbn;
      (repeat split; try intuition discriminate);
      exists ERROR, "Failed to add vehicle entry record"; tauto.
  - intros Hu. refine (conj _ (conj _ _)).
    + intros q entry_time slot. now apply add_vehicle_entry_unique.
    + now apply handle_entry_unique.
    + now apply handle_exit_unique.
Qed.

End WithReader.

End CoordinatorFacts.

(** ** Scenarios *)

Module ScenarioFacts.
Import ParkingSystem StoreSpec CoordinatorSpec Scenario StoreFacts CoordinatorFacts.

(** C5, on the exit side.  With a history file that holds a JSON list,
    [add_history_record] returns [False]; the handler goes on, removes
    the active record and sends OPEN_EXIT_GATE, and the stay is recorded
    nowhere.  With a stray item in the vehicles list,
    [remove_vehicle_entry] returns [False]; the handler sends
    OPEN_EXIT_GATE all the same and the record stays active. *)
Theorem exit_gate_opens_after_failed_persistence :
  fst (@DataManager.add_history_record stub_codec store_with_list_history
         "ABC123" ten half_past_eleven 20 (JInt 1)) = false
  /\ exit_of_ABC123 store_with_list_history
     = (ok tt,
        {| sys := set_exit_gate_processing true (controller 1 false);
           data :=
             {| DataManager.vehicles_file :=
                  Content (JObj [("vehicles", JList [])]);
                DataManager.history_file := Content (JList []);
                DataManager.writable := true |} |},
        [Log INFO "Vehicle detected crossing exit virtual line";
         Log INFO "Extracting number plate from exit zone..."; ExtractPlate;
         Log INFO "Number plate extracted: ABC123";
         Log INFO "Parking duration";
         Log INFO "Vehicle ABC123 - Duration, Fee";
         Print "Parking Fee Receipt";
         Log INFO "Vehicle ABC123 removed from active records";
         Send "OPEN_EXIT_GATE"; StartTimer 5 CloseExitGateAfterTimeout])
  /\ fst (DataManager.remove_vehicle_entry store_with_stray_item "ABC123")
     = false
  /\ In (Send "OPEN_EXIT_GATE") (events (exit_of_ABC123 store_with_stray_item))
  /\ DataManager.vehicles_file
       (data (final (exit_of_ABC123 store_with_stray_item)))
     = DataManager.vehicles_file store_with_stray_item.
Proof.
  refine (conj _ (conj _ (conj _ (conj _ _)))); try reflexivity.
  vm_compute. tauto.
Qed.

Lemma busy_zone_drops_crossing_witness :
  entry_of "ABC123" ten
    {| sys := controller 1 true; data := fresh_store |}
  = (ok tt, {| sys := controller 1 true; data := fresh_store |},
     [Log WARNING
        "Entry gate already processing, ignoring virtual line trigger"]).
Proof.
  exact (proj1 (@busy_zone_drops_crossing stub_reader stub_codec ENTRY None
                  (Some "ABC123") ten
                  {| sys := controller 1 true; data := fresh_store |})
           eq_refl).
Defined.

Lemma full_lot_sounds_buzzer_witness :
  entry_of "XYZ999" half_past_eleven
    {| sys := controller 1 false; data := store_with_ABC123 |}
  = (ok tt, {| sys := controller 1 false; data := store_with_ABC123 |},
     [Log INFO "Vehicle detected crossing entry virtual line";
      Log WARNING "Parking is full! Activating buzzer...";
      Send "BUZZER_ON"; Sleep 3; Send "BUZZER_OFF"]).
Proof.
  exact (proj1 (@full_lot_sounds_buzzer stub_reader stub_codec None
                  (Some "XYZ999") half_past_eleven
                  {| sys := controller 1 false; data := store_with_ABC123 |}
                  eq_refl eq_refl)).
Defined.

(** ABC123 is parked in a lot of two slots and shows up at the entry. *)
Lemma duplicate_plate_denied_witness :
  data (final (entry_of "ABC123" half_past_eleven
                 {| sys := controller 2 false; data := store_with_ABC123 |}))
  = store_with_ABC123
  /\ ~ In (Send "OPEN_ENTRY_GATE")
       (events (entry_of "ABC123" half_past_eleven
                  {| sys := controller 2 false; data := store_with_ABC123 |})).
Proof.
  destruct (proj1 (proj2 (@duplicate_plate_denied stub_reader stub_codec None
                            (Some "ABC123") half_past_eleven
                            {| sys := controller 2 false;
                               data := store_with_ABC123 |} "ABC123"))
              ltac:(vm_compute; tauto) eq_refl eq_refl)
    as [_ [Hdata [Hgate _]]].
  split; [exact Hdata|exact Hgate].
Defined.

(** The end-to-end scenario: one slot, an empty store, ABC123 at the
    entry; the gate closes after the grace period; XYZ999 then finds the
    lot full. *)
Example entry_then_close_then_full :
  let w0 := {| sys := controller 1 false; data := fresh_store |} in
  let r1 := entry_of "ABC123" ten w0 in
  let r2 := _close_entry_gate_after_timeout (final r1) in
  let r3 := entry_of "XYZ999" half_past_eleven (final r2) in
  DataManager.vehicles_file (data (final r1))
  = Content (JObj [("vehicles", JList [record_ABC123])])
  /\ events r1
     = [Log INFO "Vehicle detected crossing entry virtual line";
        Log INFO "Extracting number plate from entry zone..."; ExtractPlate;
        Log INFO "Number plate extracted: ABC123";
        Log INFO "Vehicle ABC123 entered"; Send "OPEN_ENTRY_GATE";
        StartTimer 5 CloseEntryGateAfterTimeout]
  /\ entry_gate_processing (sys (final r1)) = true
  /\ events r2
     = [Send "CLOSE_ENTRY_GATE"; Log INFO "Entry gate closed after timeout"]
  /\ entry_gate_processing (sys (final r2)) = false
  /\ events r3
     = [Log INFO "Vehicle detected crossing entry virtual line";
        Log WARNING "Parking is full! Activating buzzer...";
        Send "BUZZER_ON"; Sleep 3; Send "BUZZER_OFF"]
  /\ data (final r3) = data (final r1).
Proof. vm_compute. repeat split. Qed.

End ScenarioFacts.

(** ** The model at work *)

Module Examples.
Import ParkingSystem Scenario.

(** Two and a half hours at 10 per hour. *)
Example fee_two_and_a_half_hours :
  (FeeCalculator.calculate_parking_fee
     (Some (FeeSpec.time_of_day 10 0 0))
     (Some (FeeSpec.time_of_day 12 30 0)) 10 == 30)%Q.
Proof. reflexivity. Qed.

(** "ab" is too short and "abcdefghijk" too long. *)
Example clean_rejects_lengths :
  @CameraHandler._clean_number_plate_text PlateTextSpec.sample_unicode
    [97; 98]%N = []
  /\ @CameraHandler._clean_number_plate_text PlateTextSpec.sample_unicode
       [97; 98; 99; 100; 101; 102; 103; 104; 105; 106; 107]%N = [].
Proof. split; reflexivity. Qed.

(** e-acute, "1", sharp s cleans to E-acute, "1", "S", "S". *)
Example clean_beyond_ascii :
  @CameraHandler._clean_number_plate_text PlateTextSpec.sample_unicode
    [233; 32; 49; 223]%N = [201; 49; 83; 83]%N.
Proof. reflexivity. Qed.

(** The loop passes the small blob and the blob above the line and
    breaks at the third contour. *)
Example first_crossing_sample :
  CameraHandler.first_crossing (JInt 500) 360 CrossingSpec.sample_contours 0
  = ok (Some 2%nat).
Proof. reflexivity. Qed.

(** Before [initialize_camera] has resolved the trigger row the check
    raises. *)
Example check_without_trigger_row :
  CameraHandler._check_virtual_line_crossing ConfigSpec.default_handler
    CrossingSpec.sample_contours ENTRY (Some CameraHandler.Returns) 10
  = raise TypeError.
Proof. reflexivity. Qed.

Example slots_with_one_car :
  DataManager.get_available_slots store_with_ABC123 3 = [2; 3]
  /\ DataManager.is_parking_full store_with_ABC123 1 = true
  /\ DataManager.is_parking_full store_with_ABC123 2 = false.
Proof. repeat split. Qed.

(** A slot stored as [true] or as [1.0] occupies slot 1, as the string
    "1" it does not. *)
Example slots_by_python_equality :
  let store slot :=
    {| DataManager.vehicles_file :=
         Content (JObj [("vehicles", JList [JObj [("slot", slot)]])]);
       DataManager.history_file := Absent;
       DataManager.writable := true |} in
  DataManager.get_available_slots (store (JBool true)) 2 = [2]
  /\ DataManager.get_available_slots (store (JFloat 1)) 2 = [2]
  /\ DataManager.get_available_slots (store (JStr "1")) 2 = [1; 2]
  /\ DataManager.get_available_slots (store (JList [])) 2 = [1; 2].
Proof. repeat split. Qed.

Example add_then_get :
  let added :=
    @DataManager.add_vehicle_entry stub_codec fresh_store "ABC123" ten 1 in
  fst added = true
  /\ snd added = store_with_ABC123
  /\ option_map DataManager.entry_time
       (@DataManager.get_vehicle_entry stub_codec (snd added) "ABC123")
     = Some ten
  /\ @DataManager.get_vehicle_entry stub_codec (snd added) "XYZ999" = None.
Proof. repeat split. Qed.

(** A store that cannot be written: [add_vehicle_entry] still returns
    [True] and the record is lost. *)
Example add_on_read_only_store :
  let store :=
    {| DataManager.vehicles_file := Content (JObj [("vehicles", JList [])]);
       DataManager.history_file := Absent;
       DataManager.writable := false |} in
  @DataManager.add_vehicle_entry stub_codec store "ABC123" ten 1
  = (true, store).
Proof. reflexivity. Qed.

Example remove_present_and_absent :
  DataManager.remove_vehicle_entry store_with_ABC123 "ABC123"
  = (true, fresh_store)
  /\ DataManager.remove_vehicle_entry store_with_ABC123 "XYZ999"
     = (false, store_with_ABC123).
Proof. split; reflexivity. Qed.

Example slot_messages :
  let w := {| sys := controller 1 false; data := fresh_store |} in
  slot_occupied (sys (final (_handle_message "SLOT_OCCUPIED" w))) = true
  /\ final (_handle_message "HELLO" w) = w
  /\ events (_handle_message "HELLO" w)
     = [Log DEBUG "Handling message"; Log WARNING "Unknown message"].
Proof. repeat split. Qed.

(** ABC123 leaves after an hour and a half: two hours are billed, the
    stay goes to the history and the record is removed. *)
Example exit_of_parked_car :
  final (exit_of_ABC123 store_with_ABC123)
  = {| sys := set_exit_gate_processing true (controller 1 false);
       data :=
         {| DataManager.vehicles_file :=
              Content (JObj [("vehicles", JList [])]);
            DataManager.history_file :=
              Content
                (JObj
                   [("history",
                     JList
                       [JObj [("number_plate", JStr "ABC123");
                              ("entry_time", JStr "2024-01-01T10:00:00");
                              ("exit_time", JStr "2024-01-01T11:30:00");
                              ("fee", JFloat 20);
                              ("slot", JInt 1)]])]);
            DataManager.writable := true |} |}
  /\ In (Send "OPEN_EXIT_GATE") (events (exit_of_ABC123 store_with_ABC123)).
Proof. split; [reflexivity|]. vm_compute. tauto. Qed.

End Examples.

(** ** fee_calculator.py: further properties *)

Module FeeMore.
Import FeeCalculator FeeSpec FeeDuration.

Lemma hours_billed_nonneg (d : Z) : 0 <= d -> 0 <= hours_billed d.
Proof.
  intros Hd. pose proof (FeeFacts.hours_billed_bounds d) as Hb.
  unfold microseconds_per_hour, microseconds_per_second in Hb. nia.
Qed.

Lemma hours_billed_positive (d : Z) : 0 < d -> 1 <= hours_billed d.
Proof.
  intros Hd. pose proof (FeeFacts.hours_billed_bounds d) as Hb.
  unfold microseconds_per_hour, microseconds_per_second in Hb. nia.
Qed.

Lemma hours_billed_monotone (d1 d2 : Z) :
  d1 <= d2 -> hours_billed d1 <= hours_billed d2.
Proof.
  intros Hle. pose proof (FeeFacts.hours_billed_bounds d1) as H1.
  pose proof (FeeFacts.hours_billed_bounds d2) as H2.
  unfold microseconds_per_hour, microseconds_per_second in *. nia.
Qed.

Lemma fee_of_hours_le (n m : Z) (rate : Q) :
  (0 <= rate)%Q -> n <= m -> (inject_Z n * rate <= inject_Z m * rate)%Q.
Proof.
  intros Hr Hnm. apply Qmult_le_compat_r; [|exact Hr].
  unfold Qle. simpl. lia.
Qed.

(** X1. With a rate that is not negative, the fee is never negative, a
    later exit never costs less than an earlier one, and every stay of
    positive duration costs at least one hour. *)
Theorem fee_monotone (self : t) (entry exit1 exit2 : datetime) :
  (0 <= hourly_rate self)%Q ->
  entry <= exit1 -> exit1 <= exit2 ->
  (0 <= fst (calculate_fee self (Some entry) (Some exit1)))%Q
  /\ (fst (calculate_fee self (Some entry) (Some exit1))
      <= fst (calculate_fee self (Some entry) (Some exit2)))%Q
  /\ (entry < exit1 ->
      (hourly_rate self <= fst (calculate_fee self (Some entry) (Some exit1)))%Q).
Proof.
  intros Hr H1 H2.
  rewrite !FeeFacts.calculate_fee_in_order by lia. cbn [fst].
  refine (conj _ (conj _ _)).
  - setoid_replace 0%Q with (inject_Z 0 * hourly_rate self)%Q by ring.
    apply fee_of_hours_le; [exact Hr|]. apply hours_billed_nonneg. lia.
  - apply fee_of_hours_le; [exact Hr|]. apply hours_billed_monotone. lia.
  - intros Hlt.
    setoid_replace (hourly_rate self) with (inject_Z 1 * hourly_rate self)%Q
      at 1 by ring.
    apply fee_of_hours_le; [exact Hr|]. apply hours_billed_positive. lia.
Qed.

Lemma fee_monotone_witness :
  (fst (calculate_fee {| hourly_rate := 10 |}
          (Some (time_of_day 10 0 0)) (Some (time_of_day 10 30 0)))
   <= fst (calculate_fee {| hourly_rate := 10 |}
             (Some (time_of_day 10 0 0)) (Some (time_of_day 12 30 0))))%Q.
Proof.
  exact (proj1 (proj2 (fee_monotone {| hourly_rate := 10 |}
                         (time_of_day 10 0 0) (time_of_day 10 30 0)
                         (time_of_day 12 30 0)
                         ltac:(vm_compute; discriminate)
                         ltac:(vm_compute; discriminate)
                         ltac:(vm_compute; discriminate)))).
Defined.

Lemma py_int_seconds (d : Z) :
  0 <= d -> py_int (total_seconds d) = d / 1000000.
Proof.
  intros Hd. unfold py_int, total_seconds. simpl.
  apply Z.quot_div_nonneg; lia.
Qed.

(** X2. For a stay that is not negative, the receipt's minutes and
    seconds are below 60, hours, minutes and seconds add up to the whole
    seconds of the stay, and the hours billed are the hours shown or one
    more: the same exactly when the stay is a whole number of hours. *)
Theorem receipt_hours_and_billed_hours (duration : Z) :
  0 <= duration ->
  let '(hours, minutes, seconds) := elapsed duration in
  0 <= hours /\ 0 <= minutes < 60 /\ 0 <= seconds < 60
  /\ hours * 3600 + minutes * 60 + seconds = duration / 1000000
  /\ (hours_billed duration = hours \/ hours_billed duration = hours + 1)
  /\ (hours_billed duration = hours <-> duration = microseconds_per_hour * hours).
Proof.
  intros Hd. unfold elapsed. rewrite py_int_seconds by exact Hd.
  set (ts := duration / 1000000).
  assert (Hts : 0 <= ts) by (apply Z.div_pos; lia).
  pose proof (Z.div_mod duration 1000000 ltac:(lia)) as Hdm.
  pose proof (Z.mod_pos_bound duration 1000000 ltac:(lia)) as Hdb.
  fold ts in Hdm.
  pose proof (Z.div_mod ts 3600 ltac:(lia)) as H1.
  pose proof (Z.mod_pos_bound ts 3600 ltac:(lia)) as H1b.
  pose proof (Z.div_mod (ts mod 3600) 60 ltac:(lia)) as H2.
  pose proof (Z.mod_pos_bound (ts mod 3600) 60 ltac:(lia)) as H2b.
  assert (H3 : ts mod 60 = (ts mod 3600) mod 60).
  { replace 3600 with (60 * 60) by reflexivity.
    rewrite Z.rem_mul_r by lia.
    rewrite Z.mul_comm, Z.mod_add by lia. now rewrite Z.mod_mod by lia. }
  set (h := ts / 3600) in *. set (r := ts mod 3600) in *.
  set (m := r / 60) in *. rewrite H3. set (s := r mod 60) in *.
  pose proof (FeeFacts.hours_billed_bounds duration) as Hb.
  unfold microseconds_per_hour, microseconds_per_second in *.
  assert (0 <= h) by (apply Z.div_pos; lia).
  assert (0 <= m) by (apply Z.div_pos; lia).
  repeat split; try lia; try nia.
Qed.

Lemma receipt_hours_and_billed_hours_witness :
  hours_billed (time_of_day 1 30 5) = 1
  \/ hours_billed (time_of_day 1 30 5) = 1 + 1.
Proof.
  pose proof (receipt_hours_and_billed_hours (time_of_day 1 30 5)
                ltac:(vm_compute; discriminate)) as H.
  change (elapsed (time_of_day 1 30 5)) with (1, 30, 5) in H.
  cbv beta iota in H.
  exact (proj1 (proj2 (proj2 (proj2 (proj2 H))))).
Defined.

Lemma py_str_int_head (n : Z) :
  exists c rest, py_str_int n = String c rest /\ c <> "I"%char.
Proof.
  unfold py_str_int, DecimalString.NilZero.string_of_int.
  destruct (Z.to_int n) as [u|u].
  - unfold DecimalString.NilZero.string_of_uint.
    destruct u; simpl; eexists _, _; (split; [reflexivity|discriminate]).
  - simpl. eexists _, _. split; [reflexivity|discriminate].
Qed.

Lemma shown_duration_valid (n : Z) (rest : string) :
  (py_str_int n ++ rest)%string <> "Invalid duration".
Proof.
  destruct (py_str_int_head n) as [c [r [-> Hc]]]. simpl.
  intros [= Heq _]. contradiction.
Qed.

(** X3. [calculate_duration_string] answers "Invalid duration" exactly
    when [calculate_fee] logs an error for the same timestamps, that is
    when one is missing or the exit is before the entry. *)
Theorem duration_invalid_iff_fee_error (self : t)
  (entry_time exit_time : option datetime) :
  calculate_duration_string entry_time exit_time = "Invalid duration"
  <-> exists msg, snd (calculate_fee self entry_time exit_time) = [Log ERROR msg].
Proof.
  unfold calculate_duration_string, calculate_fee.
  destruct entry_time as [entry|], exit_time as [exit|];
    try (split; [intros _; eexists; reflexivity | reflexivity]).
  destruct (exit <? entry).
  - split; [intros _; eexists; reflexivity | reflexivity].
  - destruct (elapsed (exit - entry)) as [[hours minutes] seconds].
    split.
    + intros H. exfalso.
      destruct (0 <? hours); [destruct (0 <? minutes)|destruct (0 <? minutes)];
        exact (shown_duration_valid _ _ H).
    + intros [msg H]. discriminate H.
Qed.

End FeeMore.

(** ** data_manager.py: further properties *)

Module StoreMore.
Import DataManager DataQueries StoreSpec StoreFacts MoreSpec StoreMoreSpec.

Section WithCodec.
Context {C : DateCodec}.

(** What the vehicles file looks like to a function that got past
    [data.get("vehicles", [])] and found a list. *)
Lemma read_vehicles_list (self : t) (data vehicles : json) (l : list json) :
  _read_json self VehiclesFile = ok data ->
  py_get_default data "vehicles" (JList []) = ok vehicles ->
  vehicles = JList l ->
  stored_vehicles self = l.
Proof.
  intros Hread Hget ->. unfold stored_vehicles. rewrite Hread.
  destruct data as [| | | | |l'|kv]; simpl in Hget; try discriminate.
  unfold ok in *. cbn iota beta.
  destruct (lookup "vehicles" kv) as [v|]; injection Hget as Hget;
    subst; reflexivity.
Qed.

(** [add_vehicle_entry] returns [True] only after the duplicate check
    has gone through the whole list. *)
Lemma add_vehicle_entry_true (self : t) (p : string) (entry_time : datetime)
  (slot : Z) :
  fst (add_vehicle_entry self p entry_time slot) = true ->
  exists kv,
    already_present (stored_vehicles self) p = ok false
    /\ snd (add_vehicle_entry self p entry_time slot)
       = _write_json self VehiclesFile
           (JObj (dict_set "vehicles"
                    (JList (stored_vehicles self
                            ++ [new_vehicle_entry p entry_time slot]))
                    kv)).
Proof.
  unfold add_vehicle_entry, add_vehicle_entry_body.
  destruct (_read_json self VehiclesFile) as [e|data] eqn:Hread; simpl;
    [discriminate|].
  destruct (py_get_default data "vehicles" (JList [])) as [e|vehicles] eqn:Hget;
    simpl; [discriminate|].
  destruct (py_iter vehicles) as [e|items] eqn:Hit; simpl; [discriminate|].
  destruct (already_present items p) as [e|[|]] eqn:Hdup; simpl;
    try discriminate.
  destruct vehicles as [| | | | |l|kv']; simpl; try discriminate.
  injection Hit as <-.
  rewrite (read_vehicles_list self data (JList l) l Hread Hget eq_refl).
  destruct data as [| | | | |l'|kv]; simpl in Hget; try discriminate.
  simpl. intros _. exists kv. split; [exact Hdup|reflexivity].
Qed.

Lemma find_entry_skip (l rest : list json) (p : string) :
  already_present l p = ok false ->
  find_entry (l ++ rest) p = find_entry rest p.
Proof.
  induction l as [|v l IH]; simpl; [reflexivity|].
  destruct (py_get v "number_plate") as [e|np]; simpl; [discriminate|].
  destruct (eq_str np p); [discriminate|exact IH].
Qed.

Lemma without_plate_skip (l rest kept : list json) (p : string) :
  already_present l p = ok false ->
  without_plate rest p = ok kept ->
  without_plate (l ++ rest) p = ok (l ++ kept).
Proof.
  intros Hdup Hrest. induction l as [|v l IH]; simpl in *; [exact Hrest|].
  destruct (py_get v "number_plate") as [e|np]; simpl in *; [discriminate|].
  destruct (eq_str np p); [discriminate|].
  rewrite (IH Hdup). reflexivity.
Qed.

Lemma read_after_write (self : t) (j : json) :
  writable self = true ->
  _read_json (_write_json self VehiclesFile j) VehiclesFile = ok j.
Proof. intros Hw. unfold _write_json, _read_json. rewrite Hw. reflexivity. Qed.

Lemma add_vehicle_entry_stored (self : t) (p : string) (entry_time : datetime)
  (slot : Z) :
  round_trips entry_time ->
  writable self = true ->
  fst (add_vehicle_entry self p entry_time slot) = true ->
  get_vehicle_entry (snd (add_vehicle_entry self p entry_time slot)) p
  = Some {| fields := dict_items (new_vehicle_entry p entry_time slot);
            DataManager.entry_time := entry_time |}
  /\ plates (stored_vehicles (snd (add_vehicle_entry self p entry_time slot)))
     = plates (stored_vehicles self) ++ [p].
Proof.
  intros Hrt Hw Hadd.
  destruct (add_vehicle_entry_true self p entry_time slot Hadd)
    as [kv [Hdup ->]].
  split.
  - unfold get_vehicle_entry. rewrite (read_after_write _ _ Hw).
    cbn [rbind ok py_get_default]. rewrite lookup_dict_set.
    cbn [rbind ok py_iter]. rewrite (find_entry_skip _ _ _ Hdup).
    cbn. rewrite String.eqb_refl. cbn.
    unfold round_trips in Hrt. rewrite Hrt. reflexivity.
  - rewrite (stored_after_write _ _ _ Hw), plates_app. reflexivity.
Qed.

(** X4. On a store that can be written, once [add_vehicle_entry] has
    returned [True] for a plate (with a timestamp the codec reads back),
    [get_vehicle_entry] finds the plate with that timestamp and slot,
    the active plates are those of before followed by the new one, and
    the plate was not active before. *)
Theorem added_vehicle_is_found (self : t) (p : string)
  (entry_time : datetime) (slot : Z) :
  round_trips entry_time ->
  writable self = true ->
  fst (add_vehicle_entry self p entry_time slot) = true ->
  get_vehicle_entry (snd (add_vehicle_entry self p entry_time slot)) p
  = Some {| fields := dict_items (new_vehicle_entry p entry_time slot);
            DataManager.entry_time := entry_time |}
  /\ lookup "slot" (dict_items (new_vehicle_entry p entry_time slot))
     = Some (JInt slot)
  /\ plates (stored_vehicles (snd (add_vehicle_entry self p entry_time slot)))
     = plates (stored_vehicles self) ++ [p]
  /\ ~ active self p.
Proof.
  intros Hrt Hw Hadd.
  destruct (add_vehicle_entry_stored self p entry_time slot Hrt Hw Hadd)
    as [Hget Hplates].
  destruct (add_vehicle_entry_true self p entry_time slot Hadd)
    as [kv [Hdup _]].
  refine (conj Hget (conj eq_refl (conj Hplates _))).
  now apply already_present_sound.
Qed.

Lemma without_plate_length (l kept : list json) (p : string) :
  without_plate l p = ok kept ->
  (List.length kept <= List.length l)%nat
  /\ ((List.length kept < List.length l)%nat <-> In p (plates l)).
Proof.
  revert kept. induction l as [|v l IH]; intros kept; simpl.
  - intros [= <-]. simpl. split; [lia|]. split; [lia|tauto].
  - destruct v as [| | | | |l'|kv]; simpl; try discriminate.
    destruct (without_plate l p) as [e|kept'] eqn:Hrest; simpl;
      [discriminate|].
    destruct (IH kept' eq_refl) as [Hle Hiff].
    unfold plates in *. cbn [flat_map plate_of].
    destruct (lookup "number_plate" kv) as [np|] eqn:Hl; cbn [eq_str].
    + destruct np; cbn [eq_str]; intros [= <-]; simpl;
        try (split; [lia|]; rewrite <- Hiff; split; lia).
      destruct (String.eqb_spec s p) as [->|Hne]; simpl.
      * split; [lia|]. split; [tauto|lia].
      * split; [lia|]. rewrite <- Hiff. split; [lia|].
        intros [Heq|Hin]; [congruence|lia].
    + intros [= <-]. simpl. split; [lia|]. rewrite <- Hiff. split; lia.
Qed.

Lemma without_plate_records (l : list json) (p : string) :
  Forall is_record l -> exists kept, without_plate l p = ok kept.
Proof.
  induction 1 as [|v l [kv ->] _ [kept IH]]; simpl; [now exists []|].
  rewrite IH. simpl. eexists. reflexivity.
Qed.

(** What [remove_vehicle_entry] does when it returns [True]. *)
Lemma remove_vehicle_entry_cases (self : t) (p : string) :
  remove_vehicle_entry self p = (false, self)
  \/ exists kv kept,
       without_plate (stored_vehicles self) p = ok kept
       /\ (List.length kept < List.length (stored_vehicles self))%nat
       /\ remove_vehicle_entry self p
          = (true,
             _write_json self VehiclesFile
               (JObj (dict_set "vehicles" (JList kept) kv))).
Proof.
  unfold remove_vehicle_entry.
  destruct (_read_json self VehiclesFile) as [e|data] eqn:Hread; simpl;
    [now left|].
  destruct (py_get_default data "vehicles" (JList [])) as [e|vehicles] eqn:Hget;
    simpl; [now left|].
  destruct (py_len vehicles) as [e|n] eqn:Hlen; simpl; [now left|].
  destruct (py_iter vehicles) as [e|items] eqn:Hit; simpl; [now left|].
  destruct (without_plate items p) as [e|kept] eqn:Hk; simpl; [now left|].
  destruct (List.length kept <? n)%nat eqn:Hlt; simpl; [|now left].
  apply Nat.ltb_lt in Hlt.
  destruct data as [| | | | |l'|kv]; try discriminate. simpl.
  destruct vehicles as [| | | | |l|kv']; simpl in Hit, Hlen; try discriminate.
  - exfalso. injection Hit as <-. injection Hlen as <-.
    destruct s as [|c s]; simpl in Hk; [|discriminate].
    injection Hk as <-. simpl in Hlt. lia.
  - injection Hit as <-. injection Hlen as <-.
    rewrite <- (read_vehicles_list self (JObj kv) (JList l) l Hread Hget eq_refl)
      in Hk, Hlt.
    right. exists kv, kept. now repeat split.
  - exfalso. injection Hit as <-. injection Hlen as <-.
    destruct kv' as [|c kv']; simpl in Hk; [|discriminate].
    injection Hk as <-. simpl in Hlt. lia.
Qed.

Lemma remove_vehicle_entry_effect (self : t) (p : string) :
  (fst (remove_vehicle_entry self p) = true ->
   active self p
   /\ (writable self = true ->
       ~ active (snd (remove_vehicle_entry self p)) p
       /\ plates (stored_vehicles (snd (remove_vehicle_entry self p)))
          = others p (plates (stored_vehicles self))))
  /\ (active self p -> Forall is_record (stored_vehicles self) ->
      fst (remove_vehicle_entry self p) = true).
Proof.
  destruct (remove_vehicle_entry_cases self p)
    as [H|[kv [kept [Hk [Hlt H]]]]]; rewrite H; cbn [fst snd].
  - refine (conj _ _); [discriminate|].
    intros Hact Hrec. exfalso.
    destruct (without_plate_records _ p Hrec) as [kept Hk].
    destruct (without_plate_length _ _ _ Hk) as [_ Hiff].
    apply Hiff in Hact.
    revert H. unfold remove_vehicle_entry, stored_vehicles in *.
    destruct (_read_json self VehiclesFile) as [e|data]; simpl in *;
      [lia|].
    destruct data as [| | | | |l'|kv]; simpl in *; try lia.
    destruct (lookup "vehicles" kv) as [v|]; simpl in *; [|lia].
    destruct v as [| | | | |l|kv']; simpl in *; try lia.
    rewrite Hk. simpl. apply Nat.ltb_lt in Hact. rewrite Hact. simpl.
    discriminate.
  - refine (conj _ (fun _ _ => eq_refl)).
    intros _. destruct (without_plate_length _ _ _ Hk) as [_ Hiff].
    split; [now apply Hiff|]. intros Hw.
    unfold active. rewrite (stored_after_write _ _ _ Hw).
    rewrite (without_plate_plates _ _ _ Hk). unfold others.
    split; [|reflexivity].
    rewrite filter_In, String.eqb_refl. simpl. intros [_ Hf]. discriminate.
Qed.

(** X5. [remove_vehicle_entry] returns [False] only with the store left
    as it was, and [True] only for a plate that was active; on a store
    that can be written the plate is then gone and the other plates stay
    in their order.  When the plate is active and every stored item is
    a record, it returns [True]. *)
Theorem remove_vehicle_entry_spec (self : t) (p : string) :
  (fst (remove_vehicle_entry self p) = false ->
   snd (remove_vehicle_entry self p) = self)
  /\ (fst (remove_vehicle_entry self p) = true ->
      active self p
      /\ (writable self = true ->
          ~ active (snd (remove_vehicle_entry self p)) p
          /\ plates (stored_vehicles (snd (remove_vehicle_entry self p)))
             = others p (plates (stored_vehicles self))))
  /\ (active self p -> Forall is_record (stored_vehicles self) ->
      fst (remove_vehicle_entry self p) = true).
Proof.
  split; [|exact (remove_vehicle_entry_effect self p)].
  destruct (remove_vehicle_entry_cases self p)
    as [H|[kv [kept [_ [_ H]]]]]; rewrite H; cbn [fst snd].
  - reflexivity.
  - discriminate.
Qed.

(** X6. On a store that can be written, removing a plate right after
    [add_vehicle_entry] has returned [True] for it returns [True] and
    gives back the vehicles list of before. *)
Theorem add_then_remove (self : t) (p : string) (entry_time : datetime)
  (slot : Z) :
  writable self = true ->
  fst (add_vehicle_entry self p entry_time slot) = true ->
  fst (remove_vehicle_entry
         (snd (add_vehicle_entry self p entry_time slot)) p) = true
  /\ stored_vehicles
       (snd (remove_vehicle_entry
               (snd (add_vehicle_entry self p entry_time slot)) p))
     = stored_vehicles self.
Proof.
  intros Hw Hadd.
  destruct (add_vehicle_entry_true self p entry_time slot Hadd)
    as [kv [Hdup ->]].
  assert (Hk : without_plate
                 (stored_vehicles self ++ [new_vehicle_entry p entry_time slot])
                 p = ok (stored_vehicles self ++ [])).
  { apply without_plate_skip; [exact Hdup|].
    cbn. now rewrite String.eqb_refl. }
  unfold remove_vehicle_entry. rewrite (read_after_write _ _ Hw).
  cbn [rbind ok py_get_default]. rewrite lookup_dict_set.
  cbn [rbind ok py_len py_iter]. rewrite Hk. cbn [rbind ok].
  rewrite app_nil_r, length_app. cbn [List.length].
  replace (List.length (stored_vehicles self)
           <? List.length (stored_vehicles self) + 1)%nat with true
    by (symmetry; apply Nat.ltb_lt; lia).
  cbn [py_setitem rbind ok try_except fst snd]. split; [reflexivity|].
  apply stored_after_write. unfold _write_json. now rewrite Hw.
Qed.

Lemma find_entry_found (l : list json) (p : string) (e : vehicle_entry) :
  find_entry l p = ok (Some e) ->
  In (JObj (fields e)) l
  /\ lookup "number_plate" (fields e) = Some (JStr p)
  /\ exists s, lookup "entry_time" (fields e) = Some (JStr s)
               /\ fromisoformat s = Some (entry_time e).
Proof.
  induction l as [|v l IH]; simpl; [discriminate|].
  destruct v as [| | | | |l'|kv]; simpl; try discriminate.
  destruct (lookup "number_plate" kv) as [np|] eqn:Hnp; cbn [eq_str].
  - destruct (eq_str np p) eqn:Heq.
    + apply eq_str_true in Heq. subst np.
      destruct (lookup "entry_time" kv) as [ts|] eqn:Hts; simpl;
        [|discriminate].
      destruct ts as [| | | |s| |]; try discriminate.
      destruct (fromisoformat s) as [dt|] eqn:Hdt; [|discriminate].
      intros [= <-]. simpl. refine (conj (or_introl eq_refl) (conj Hnp _)).
      exists s. now split.
    + intros H. destruct (IH H) as [Hin Hrest]. split; [now right|exact Hrest].
  - intros H. destruct (IH H) as [Hin Hrest]. split; [now right|exact Hrest].
Qed.

Lemma record_plate_active (l : list json) (kv : list (string * json))
  (p : string) :
  In (JObj kv) l -> lookup "number_plate" kv = Some (JStr p) ->
  In p (plates l).
Proof.
  intros Hin Hnp. unfold plates. apply in_flat_map. exists (JObj kv).
  split; [exact Hin|]. simpl. rewrite Hnp. now left.
Qed.

(** What the functions that iterate over the vehicles list see: the
    stored list, or nothing to iterate over. *)
Lemma vehicles_items (self : t) (data vehicles : json) (items : list json) :
  _read_json self VehiclesFile = ok data ->
  py_get_default data "vehicles" (JList []) = ok vehicles ->
  py_iter vehicles = ok items ->
  items = stored_vehicles self
  \/ exists v rest, items = JStr v :: rest.
Proof.
  intros Hread Hget Hit.
  destruct vehicles as [| | | | |l|kv']; simpl in Hit; try discriminate;
    injection Hit as <-.
  - destruct s as [|c s]; [|right; eexists; eexists; reflexivity].
    left. unfold stored_vehicles. rewrite Hread.
    destruct data as [| | | | |l'|kv]; simpl in Hget; try discriminate.
    unfold ok in *. cbn iota beta.
    destruct (lookup "vehicles" kv) as [v|]; injection Hget as Hget;
      subst; reflexivity.
  - left. symmetry. exact (read_vehicles_list self data _ l Hread Hget eq_refl).
  - destruct kv' as [|[k v] kv']; [|right; eexists; eexists; reflexivity].
    left. unfold stored_vehicles. rewrite Hread.
    destruct data as [| | | | |l'|kv]; simpl in Hget; try discriminate.
    unfold ok in *. cbn iota beta.
    destruct (lookup "vehicles" kv) as [v|]; injection Hget as Hget;
      subst; reflexivity.
Qed.

Lemma get_vehicle_entry_stored (self : t) (p : string) (e : vehicle_entry) :
  get_vehicle_entry self p = Some e ->
  find_entry (stored_vehicles self) p = ok (Some e).
Proof.
  unfold get_vehicle_entry.
  destruct (_read_json self VehiclesFile) as [x|data] eqn:Hread; simpl;
    [discriminate|].
  destruct (py_get_default data "vehicles" (JList [])) as [x|vehicles] eqn:Hget;
    simpl; [discriminate|].
  destruct (py_iter vehicles) as [x|items] eqn:Hit; simpl; [discriminate|].
  destruct (vehicles_items self _ _ _ Hread Hget Hit) as [->|[v [rest ->]]];
    [|simpl; discriminate].
  destruct (find_entry (stored_vehicles self) p) as [x|r] eqn:Hfind; simpl;
    [discriminate|].
  now intros ->.
Qed.

(** X7. A record that [get_vehicle_entry] returns is one of the stored
    records: its plate is the one asked for (so the plate is active),
    and its [entry_time] is the stored string as the codec parses it. *)
Theorem get_vehicle_entry_found (self : t) (p : string) (e : vehicle_entry) :
  get_vehicle_entry self p = Some e ->
  active self p
  /\ In (JObj (fields e)) (stored_vehicles self)
  /\ lookup "number_plate" (fields e) = Some (JStr p)
  /\ exists s, lookup "entry_time" (fields e) = Some (JStr s)
               /\ fromisoformat s = Some (entry_time e).
Proof.
  intros Hget. apply get_vehicle_entry_stored in Hget.
  destruct (find_entry_found _ _ _ Hget) as [Hin [Hnp Hts]].
  refine (conj _ (conj Hin (conj Hnp Hts))).
  exact (record_plate_active _ _ _ Hin Hnp).
Qed.

Lemma parse_vehicles_fields (l : list json) (r : list vehicle_entry) :
  parse_vehicles l = ok r -> map fields r = map dict_items l.
Proof.
  revert r. induction l as [|v l IH]; intros r; simpl.
  - now intros [= <-].
  - destruct (py_get v "entry_time") as [x|ts]; simpl; [discriminate|].
    destruct (parse_time ts) as [x|dt]; simpl; [discriminate|].
    destruct (parse_vehicles l) as [x|r']; simpl; [discriminate|].
    intros [= <-]. simpl. now rewrite (IH r' eq_refl).
Qed.

Lemma parse_vehicles_find (l : list json) (r : list vehicle_entry)
  (p : string) :
  parse_vehicles l = ok r -> In p (plates l) ->
  exists e, find_entry l p = ok (Some e) /\ In e r.
Proof.
  revert r. induction l as [|v l IH]; intros r; simpl; [tauto|].
  destruct v as [| | | | |l'|kv]; simpl; try discriminate.
  destruct (lookup "entry_time" kv) as [ts|] eqn:Hts; simpl; [|discriminate].
  destruct ts as [| | | |s| |]; simpl; try discriminate.
  destruct (fromisoformat s) as [dt|] eqn:Hdt; simpl; [|discriminate].
  destruct (parse_vehicles l) as [x|r'] eqn:Hrest; simpl; [discriminate|].
  intros [= <-] Hin.
  destruct (lookup "number_plate" kv) as [np|] eqn:Hnp; cbn [eq_str].
  - destruct (eq_str np p) eqn:Heq.
    + eexists. split; [reflexivity|now left].
    + assert (Hin' : In p (plates l)).
      { apply in_app_or in Hin. destruct Hin as [Hin|Hin]; [|exact Hin].
        destruct np; simpl in Hin; try contradiction.
        destruct Hin as [->|[]].
        simpl in Heq. rewrite String.eqb_refl in Heq. discriminate. }
      destruct (IH r' eq_refl Hin') as [e [He Hr]].
      exists e. split; [exact He|now right].
  - simpl in Hin.
    destruct (IH r' eq_refl Hin) as [e [He Hr]].
    exists e. split; [exact He|now right].
Qed.

(** X8. [get_all_active_vehicles] lists every stored record or none: a
    listing that is not empty has the fields of all the stored records,
    in order, and then every active plate is found by
    [get_vehicle_entry], with a record of the listing. *)
Theorem get_all_active_vehicles_complete (self : t) :
  get_all_active_vehicles self <> [] ->
  map fields (get_all_active_vehicles self)
  = map dict_items (stored_vehicles self)
  /\ forall p, active self p ->
       exists e, get_vehicle_entry self p = Some e
                 /\ In e (get_all_active_vehicles self).
Proof.
  unfold get_all_active_vehicles, get_vehicle_entry, active.
  destruct (_read_json self VehiclesFile) as [x|data] eqn:Hread; simpl;
    [congruence|].
  destruct (py_get_default data "vehicles" (JList [])) as [x|vehicles] eqn:Hget;
    simpl; [congruence|].
  destruct (py_iter vehicles) as [x|items] eqn:Hit; simpl; [congruence|].
  destruct (vehicles_items self _ _ _ Hread Hget Hit) as [->|[v [rest ->]]];
    [|simpl; congruence].
  destruct (parse_vehicles (stored_vehicles self)) as [x|r] eqn:Hparse; simpl;
    [congruence|].
  intros _. split; [exact (parse_vehicles_fields _ _ Hparse)|].
  intros p Hact. destruct (parse_vehicles_find _ _ p Hparse Hact) as [e [He Hr]].
  exists e. rewrite He. now split.
Qed.

Lemma parse_history_app (l : list json) (old : list history_record)
  (rec : json) (h : history_record) :
  parse_history l = ok old -> parse_history [rec] = ok [h] ->
  parse_history (l ++ [rec]) = ok (old ++ [h]).
Proof.
  intros Hold Hrec. revert old Hold.
  induction l as [|v l IH]; intros old; simpl.
  - intros [= <-]. exact Hrec.
  - destruct (py_get v "entry_time") as [x|ts]; simpl; [discriminate|].
    destruct (parse_time ts) as [x|dt]; simpl; [discriminate|].
    destruct (py_get v "exit_time") as [x|ts']; simpl; [discriminate|].
    destruct (parse_time ts') as [x|dt']; simpl; [discriminate|].
    destruct (parse_history l) as [x|old']; simpl; [discriminate|].
    intros [= <-]. now rewrite (IH old' eq_refl).
Qed.

(** X9. On a store that can be written, once [add_history_record] has
    returned [True] (with timestamps the codec reads back, and a history
    that parsed before), [get_parking_history] lists the new record
    first, followed by the listing of before; with a positive limit [n]
    it is the new record and the first [n - 1] of before. *)
Theorem history_newest_first (self : t) (p : string)
  (entry_time exit_time : datetime) (fee : Q) (slot : json)
  (old : list history_record) :
  round_trips entry_time -> round_trips exit_time ->
  writable self = true ->
  parse_history (stored_history self) = ok old ->
  fst (add_history_record self p entry_time exit_time fee slot) = true ->
  let newest :=
    {| h_fields :=
         dict_items (new_history_entry p entry_time exit_time fee slot);
       h_entry_time := entry_time; h_exit_time := exit_time |} in
  let self' := snd (add_history_record self p entry_time exit_time fee slot) in
  get_parking_history self None = rev old
  /\ get_parking_history self' None = newest :: get_parking_history self None
  /\ forall n, 0 < n ->
       get_parking_history self' (Some n)
       = newest :: firstn (Z.to_nat (n - 1)) (get_parking_history self None).
Proof.
  intros Hin Hout Hw Hold. unfold add_history_record, get_parking_history.
  unfold stored_history in Hold.
  destruct (_read_json self HistoryFile) as [x|data] eqn:Hread; simpl;
    [discriminate|].
  destruct data as [| | | | |l'|kv]; simpl; try discriminate.
  assert (Hnew : parse_history
                   [new_history_entry p entry_time exit_time fee slot]
                 = ok [{| h_fields :=
                            dict_items
                              (new_history_entry p entry_time exit_time fee slot);
                          h_entry_time := entry_time;
                          h_exit_time := exit_time |}]).
  { unfold round_trips in Hin, Hout. simpl. rewrite Hin. simpl.
    rewrite Hout. reflexivity. }
  assert (Hread' : forall j, _read_json (_write_json self HistoryFile j)
                               HistoryFile = ok j).
  { intros j. unfold _write_json, _read_json. rewrite Hw. reflexivity. }
  destruct (lookup "history" kv) as [h|] eqn:Hh.
  - destruct h as [| | | | |l|kv']; simpl; try discriminate.
    intros _. rewrite Hold. simpl. split; [reflexivity|].
    rewrite Hread'. simpl. rewrite lookup_dict_set. simpl.
    rewrite (parse_history_app _ _ _ _ Hold Hnew). simpl.
    rewrite rev_app_distr. simpl. split; [reflexivity|].
    intros n Hn. unfold py_prefix.
    replace (0 <=? n) with true by (symmetry; apply Z.leb_le; lia).
    replace (Z.to_nat n) with (S (Z.to_nat (n - 1))) by lia. reflexivity.
  - simpl. intros _. injection Hold as <-. simpl. split; [reflexivity|].
    rewrite Hread'. simpl. rewrite lookup_dict_set. simpl.
    unfold round_trips in Hin, Hout. rewrite Hin. simpl. rewrite Hout. simpl.
    split; [reflexivity|].
    intros n Hn. unfold py_prefix.
    replace (0 <=? n) with true by (symmetry; apply Z.leb_le; lia).
    replace (Z.to_nat n) with (S (Z.to_nat (n - 1))) by lia.
    simpl. now rewrite firstn_nil.
Qed.

(** X10. The vehicle functions leave the history file alone and
    [add_history_record] leaves the vehicles file alone: the history
    listing is the same after adding or removing a vehicle, and the
    active vehicles and free slots are the same after adding a history
    record. *)
Theorem files_kept_apart (self : t) (p : string)
  (entry_time exit_time : datetime) (slot : Z) (fee : Q) (slot' : json)
  (limit : option Z) (total_slots : Z) :
  get_parking_history (snd (add_vehicle_entry self p entry_time slot)) limit
  = get_parking_history self limit
  /\ get_parking_history (snd (remove_vehicle_entry self p)) limit
     = get_parking_history self limit
  /\ get_all_active_vehicles
       (snd (add_history_record self p entry_time exit_time fee slot'))
     = get_all_active_vehicles self
  /\ get_available_slots
       (snd (add_history_record self p entry_time exit_time fee slot'))
       total_slots
     = get_available_slots self total_slots.
Proof.
  assert (Hw : forall j, history_file (_write_json self VehiclesFile j)
                         = history_file self).
  { intros j. unfold _write_json. now destruct (writable self). }
  assert (Hh : forall a b, history_file a = history_file b ->
                 get_parking_history a limit = get_parking_history b limit).
  { intros a b H. unfold get_parking_history, _read_json. simpl.
    now rewrite H. }
  refine (conj _ (conj _ (conj _ _))).
  - apply Hh.
    destruct (add_vehicle_entry_cases self p entry_time slot)
      as [H|[kv [_ H]]]; rewrite H; [reflexivity|apply Hw].
  - apply Hh.
    destruct (remove_vehicle_entry_cases self p)
      as [H|[kv [kept [_ [_ H]]]]]; rewrite H; [reflexivity|apply Hw].
  - unfold get_all_active_vehicles, _read_json. simpl.
    now rewrite add_history_record_keeps_vehicles.
  - unfold get_available_slots, get_available_slots_body, _read_json. simpl.
    now rewrite add_history_record_keeps_vehicles.
Qed.

End WithCodec.

(** X11. [_initialize_files] never touches a file that exists, creates
    the missing ones with an empty list when the directory can be
    written, and does nothing when run a second time. *)
Theorem initialize_files_spec (self : t) :
  _initialize_files (_initialize_files self) = _initialize_files self
  /\ (path_exists (vehicles_file self) = true ->
      vehicles_file (_initialize_files self) = vehicles_file self)
  /\ (path_exists (history_file self) = true ->
      history_file (_initialize_files self) = history_file self)
  /\ (writable self = true ->
      (path_exists (vehicles_file self) = false ->
       vehicles_file (_initialize_files self)
       = Content (JObj [("vehicles", JList [])]))
      /\ (path_exists (history_file self) = false ->
          history_file (_initialize_files self)
          = Content (JObj [("history", JList [])]))).
Proof.
  destruct self as [vf hf w]. unfold _initialize_files, _write_json.
  destruct vf, hf, w; simpl;
    refine (conj eq_refl (conj _ (conj _ _)));
    first [reflexivity | discriminate | intros _; reflexivity
          | intros _; split; first [reflexivity | discriminate
                                   | intros _; reflexivity]].
Qed.

Lemma added_vehicle_is_found_witness :
  @get_vehicle_entry Scenario.stub_codec
    (snd (@add_vehicle_entry Scenario.stub_codec Scenario.fresh_store
            "ABC123" Scenario.ten 1))
    "ABC123"
  = Some {| fields :=
              dict_items
                (@new_vehicle_entry Scenario.stub_codec "ABC123"
                   Scenario.ten 1);
            DataManager.entry_time := Scenario.ten |}.
Proof.
  exact (proj1 (@added_vehicle_is_found Scenario.stub_codec Scenario.fresh_store
                  "ABC123" Scenario.ten 1
                  ltac:(vm_compute; reflexivity) eq_refl
                  ltac:(vm_compute; reflexivity))).
Defined.

Lemma remove_vehicle_entry_spec_witness :
  active Scenario.store_with_ABC123 "ABC123"
  /\ ~ active (snd (remove_vehicle_entry Scenario.store_with_ABC123 "ABC123"))
        "ABC123".
Proof.
  destruct (proj1 (proj2 (remove_vehicle_entry_spec
                            Scenario.store_with_ABC123 "ABC123"))
              eq_refl) as [Hact Hgone].
  split; [exact Hact|exact (proj1 (Hgone eq_refl))].
Defined.

Lemma add_then_remove_witness :
  stored_vehicles
    (snd (remove_vehicle_entry
            (snd (@add_vehicle_entry Scenario.stub_codec
                    Scenario.store_with_ABC123 "XYZ789"
                    Scenario.half_past_eleven 2))
            "XYZ789"))
  = stored_vehicles Scenario.store_with_ABC123.
Proof.
  exact (proj2 (@add_then_remove Scenario.stub_codec
                  Scenario.store_with_ABC123 "XYZ789"
                  Scenario.half_past_eleven 2 eq_refl
                  ltac:(vm_compute; reflexivity))).
Defined.

Lemma get_vehicle_entry_found_witness :
  active Scenario.store_with_ABC123 "ABC123".
Proof.
  exact (proj1 (@get_vehicle_entry_found Scenario.stub_codec
                  Scenario.store_with_ABC123 "ABC123"
                  {| fields := dict_items Scenario.record_ABC123;
                     DataManager.entry_time := Scenario.ten |}
                  ltac:(vm_compute; reflexivity))).
Defined.

Lemma get_all_active_vehicles_complete_witness :
  map fields
    (@get_all_active_vehicles Scenario.stub_codec Scenario.store_with_ABC123)
  = map dict_items (stored_vehicles Scenario.store_with_ABC123).
Proof.
  exact (proj1 (@get_all_active_vehicles_complete Scenario.stub_codec
                  Scenario.store_with_ABC123
                  ltac:(vm_compute; discriminate))).
Defined.

Lemma history_newest_first_witness :
  @get_parking_history Scenario.stub_codec
    (snd (@add_history_record Scenario.stub_codec Scenario.store_with_ABC123
            "ABC123" Scenario.ten Scenario.half_past_eleven (20 # 1)
            (JInt 1)))
    (Some 1)
  = [{| h_fields :=
          dict_items
            (@new_history_entry Scenario.stub_codec "ABC123" Scenario.ten
               Scenario.half_past_eleven (20 # 1) (JInt 1));
        h_entry_time := Scenario.ten;
        h_exit_time := Scenario.half_past_eleven |}].
Proof.
  exact (proj2 (proj2 (@history_newest_first Scenario.stub_codec
                         Scenario.store_with_ABC123 "ABC123" Scenario.ten
                         Scenario.half_past_eleven (20 # 1) (JInt 1) []
                         ltac:(vm_compute; reflexivity)
                         ltac:(vm_compute; reflexivity)
                         eq_refl eq_refl eq_refl))
           1 ltac:(lia)).
Defined.

End StoreMore.

(** ** data_manager.py: the free slots *)

Module SlotMore.
Import DataManager StoreSpec StoreFacts SlotFacts MoreSpec StoreMoreSpec
  StoreMore.

Lemma py_range_sorted (lo hi : Z) : StronglySorted Z.lt (py_range lo hi).
Proof.
  unfold py_range. generalize (Z.to_nat (hi - lo)) as n. generalize 0%nat as k.
  intros k n. revert k. induction n as [|n IH]; intros k; simpl.
  - constructor.
  - constructor; [apply IH|].
    apply Forall_forall. intros x Hx. apply in_map_iff in Hx.
    destruct Hx as [j [<- Hj]]. apply in_seq in Hj. lia.
Qed.

Lemma filter_sorted (f : Z -> bool) (l : list Z) :
  StronglySorted Z.lt l -> StronglySorted Z.lt (filter f l).
Proof.
  induction 1 as [|a l Hs IH Hall]; simpl; [constructor|].
  destruct (f a); [|exact IH].
  constructor; [exact IH|].
  apply Forall_forall. intros x Hx. apply filter_In in Hx.
  rewrite Forall_forall in Hall. now apply Hall.
Qed.

Lemma filter_filter (f g : Z -> bool) (l : list Z) :
  filter f (filter g l) = filter (fun i => g i && f i) l.
Proof.
  induction l as [|a l IH]; simpl; [reflexivity|].
  destruct (g a); simpl; [destruct (f a)|]; now rewrite IH.
Qed.

(** The set comprehension holds the slot of every record that has one. *)
Lemma occupied_slots_exists (l occ : list json) (i : Z) :
  occupied_slots l = ok occ ->
  existsb (fun s => eq_int s i) occ = true
  <-> exists kv s, In (JObj kv) l /\ lookup "slot" kv = Some s
                   /\ eq_int s i = true.
Proof.
  revert occ. induction l as [|v l IH]; intros occ; simpl.
  - intros [= <-]. simpl. split; [discriminate|].
    intros [kv [s [[] _]]].
  - destruct v as [| | | | |l'|kv]; simpl; try discriminate.
    destruct (lookup "slot" kv) as [slot|] eqn:Hslot.
    + destruct slot as [|b|n|q|s'|l'|kv']; simpl; try discriminate.
      * intros Hocc. rewrite (IH occ Hocc). split.
        -- intros [kv0 [s [Hin H]]]. exists kv0, s. split; [now right|exact H].
        -- intros [kv0 [s [[Heq|Hin] [Hl He]]]].
           ++ injection Heq as <-. rewrite Hslot in Hl. injection Hl as <-.
              discriminate.
           ++ exists kv0, s. now split.
      * destruct (occupied_slots l) as [x|occ'] eqn:Hocc; simpl;
          [discriminate|]. intros [= <-]. cbn [existsb].
        rewrite Bool.orb_true_iff, (IH occ' eq_refl). split.
        -- intros [He|[kv0 [s [Hin H]]]].
           ++ exists kv, (JBool b). split; [now left|now split].
           ++ exists kv0, s. split; [now right|exact H].
        -- intros [kv0 [s [[Heq|Hin] [Hl He]]]].
           ++ injection Heq as <-. rewrite Hslot in Hl. injection Hl as <-.
              now left.
           ++ right. exists kv0, s. now split.
      * destruct (occupied_slots l) as [x|occ'] eqn:Hocc; simpl;
          [discriminate|]. intros [= <-]. cbn [existsb].
        rewrite Bool.orb_true_iff, (IH occ' eq_refl). split.
        -- intros [He|[kv0 [s [Hin H]]]].
           ++ exists kv, (JInt n). split; [now left|now split].
           ++ exists kv0, s. split; [now right|exact H].
        -- intros [kv0 [s [[Heq|Hin] [Hl He]]]].
           ++ injection Heq as <-. rewrite Hslot in Hl. injection Hl as <-.
              now left.
           ++ right. exists kv0, s. now split.
      * destruct (occupied_slots l) as [x|occ'] eqn:Hocc; simpl;
          [discriminate|]. intros [= <-]. cbn [existsb].
        rewrite Bool.orb_true_iff, (IH occ' eq_refl). split.
        -- intros [He|[kv0 [s [Hin H]]]].
           ++ exists kv, (JFloat q). split; [now left|now split].
           ++ exists kv0, s. split; [now right|exact H].
        -- intros [kv0 [s [[Heq|Hin] [Hl He]]]].
           ++ injection Heq as <-. rewrite Hslot in Hl. injection Hl as <-.
              now left.
           ++ right. exists kv0, s. now split.
      * destruct (occupied_slots l) as [x|occ'] eqn:Hocc; simpl;
          [discriminate|]. intros [= <-]. cbn [existsb].
        rewrite Bool.orb_true_iff, (IH occ' eq_refl). split.
        -- intros [He|[kv0 [s [Hin H]]]].
           ++ exists kv, (JStr s'). split; [now left|now split].
           ++ exists kv0, s. split; [now right|exact H].
        -- intros [kv0 [s [[Heq|Hin] [Hl He]]]].
           ++ injection Heq as <-. rewrite Hslot in Hl. injection Hl as <-.
              now left.
           ++ right. exists kv0, s. now split.
    + intros Hocc. rewrite (IH occ Hocc). split.
      * intros [kv0 [s [Hin H]]]. exists kv0, s. split; [now right|exact H].
      * intros [kv0 [s [[Heq|Hin] [Hl He]]]].
        -- injection Heq as <-. rewrite Hslot in Hl. discriminate.
        -- exists kv0, s. now split.
Qed.

Lemma occupied_slots_app (l occ : list json) (kv : list (string * json))
  (n : Z) :
  occupied_slots l = ok occ -> lookup "slot" kv = Some (JInt n) ->
  occupied_slots (l ++ [JObj kv]) = ok (occ ++ [JInt n]).
Proof.
  intros Hocc Hslot. revert occ Hocc.
  induction l as [|v l IH]; intros occ; simpl.
  - intros [= <-]. now rewrite Hslot.
  - destruct (py_get v "slot") as [x|slot]; simpl; [discriminate|].
    destruct slot; simpl; try discriminate;
      try (destruct (occupied_slots l) as [x|occ']; simpl; [discriminate|];
           intros [= <-]; now rewrite (IH occ' eq_refl)).
Qed.

(** What a successful run of the body computes. *)
Lemma available_slots_body_ok (self : t) (total_slots : Z) (avail : list Z) :
  get_available_slots_body self total_slots = ok avail ->
  exists occ,
    occupied_slots (stored_vehicles self) = ok occ
    /\ avail = filter (fun i => negb (existsb (fun s => eq_int s i) occ))
                 (py_range 1 (total_slots + 1)).
Proof.
  unfold get_available_slots_body.
  destruct (_read_json self VehiclesFile) as [x|data] eqn:Hread; simpl;
    [discriminate|].
  destruct (py_get_default data "vehicles" (JList [])) as [x|vehicles] eqn:Hget;
    simpl; [discriminate|].
  destruct (py_iter vehicles) as [x|items] eqn:Hit; simpl; [discriminate|].
  destruct (vehicles_items self _ _ _ Hread Hget Hit) as [->|[v [rest ->]]];
    [|simpl; discriminate].
  destruct (occupied_slots (stored_vehicles self)) as [x|occ]; simpl;
    [discriminate|].
  intros [= <-]. now exists occ.
Qed.

Lemma available_slots_sorted (self : t) (total_slots : Z) :
  StronglySorted Z.lt (get_available_slots self total_slots).
Proof.
  unfold get_available_slots.
  destruct (get_available_slots_body self total_slots) as [x|avail] eqn:Hbody;
    simpl; [apply py_range_sorted|].
  destruct (available_slots_body_ok _ _ _ Hbody) as [occ [_ ->]].
  apply filter_sorted, py_range_sorted.
Qed.

(** X12. The free slots [get_available_slots] returns are slot numbers
    from 1 to [total_slots], in strictly ascending order, whatever the
    store holds. *)
Theorem available_slots_ascending (self : t) (total_slots : Z) :
  StronglySorted Z.lt (get_available_slots self total_slots)
  /\ forall i, In i (get_available_slots self total_slots) ->
       1 <= i <= total_slots.
Proof.
  split; [apply available_slots_sorted|].
  unfold get_available_slots.
  destruct (get_available_slots_body self total_slots) as [x|avail] eqn:Hbody;
    simpl.
  - intros i Hi. apply py_range_In in Hi. lia.
  - destruct (available_slots_body_ok _ _ _ Hbody) as [occ [_ ->]].
    intros i Hi. apply filter_In in Hi. destruct Hi as [Hi _].
    apply py_range_In in Hi. lia.
Qed.

(** X13. When the vehicles list can be read, a slot number is free
    exactly when it is in range and no stored record holds it, and
    [is_parking_full] is true exactly when every slot in range is
    taken. *)
Theorem available_slots_free (self : t) (total_slots : Z) (avail : list Z) :
  get_available_slots_body self total_slots = ok avail ->
  (forall i, In i (get_available_slots self total_slots)
             <-> 1 <= i <= total_slots /\ ~ taken self i)
  /\ (is_parking_full self total_slots = true
      <-> forall i, 1 <= i <= total_slots -> taken self i).
Proof.
  intros Hbody. unfold is_parking_full, get_available_slots.
  rewrite Hbody. simpl.
  destruct (available_slots_body_ok _ _ _ Hbody) as [occ [Hocc ->]].
  assert (Hfree : forall i,
            In i (filter (fun i => negb (existsb (fun s => eq_int s i) occ))
                    (py_range 1 (total_slots + 1)))
            <-> 1 <= i <= total_slots /\ ~ taken self i).
  { intros i. rewrite filter_In, py_range_In, Bool.negb_true_iff.
    unfold taken. rewrite <- (occupied_slots_exists _ _ i Hocc).
    destruct (existsb _ occ); split; intros [H1 H2];
      (split; [lia|]); congruence. }
  split; [exact Hfree|].
  rewrite Nat.eqb_eq, length_zero_iff_nil. split.
  - intros Hnil i Hi.
    destruct (existsb (fun s => eq_int s i) occ) eqn:He.
    + unfold taken. now rewrite <- (occupied_slots_exists _ _ i Hocc).
    + exfalso. assert (Hin : In i []); [|exact Hin].
      rewrite <- Hnil. apply Hfree. split; [exact Hi|].
      unfold taken. rewrite <- (occupied_slots_exists _ _ i Hocc). congruence.
  - intros Hall.
    destruct (filter _ _) as [|i rest] eqn:Hf; [reflexivity|].
    exfalso. assert (Hin : In i (i :: rest)) by now left.
    apply Hfree in Hin. destruct Hin as [Hi Hno].
    exact (Hno (Hall i Hi)).
Qed.

Section WithCodec.
Context {C : DateCodec}.

(** X14. On a store that can be written and whose vehicles list can be
    read, once [add_vehicle_entry] has returned [True] with a slot, the
    free slots are those of before without that slot. *)
Theorem add_takes_slot (self : t) (p : string) (entry_time : datetime)
  (slot total_slots : Z) (avail : list Z) :
  writable self = true ->
  get_available_slots_body self total_slots = ok avail ->
  fst (add_vehicle_entry self p entry_time slot) = true ->
  get_available_slots (snd (add_vehicle_entry self p entry_time slot))
    total_slots
  = filter (fun i => negb (i =? slot)) (get_available_slots self total_slots).
Proof.
  intros Hw Hbody Hadd.
  destruct (add_vehicle_entry_true self p entry_time slot Hadd)
    as [kv [_ ->]].
  unfold get_available_slots at 2. rewrite Hbody. simpl.
  destruct (available_slots_body_ok _ _ _ Hbody) as [occ [Hocc ->]].
  unfold get_available_slots, get_available_slots_body.
  rewrite (read_after_write _ _ Hw). cbn [rbind ok py_get_default].
  rewrite lookup_dict_set. cbn [rbind ok py_iter].
  change (new_vehicle_entry p entry_time slot)
    with (JObj (dict_items (new_vehicle_entry p entry_time slot))).
  rewrite (occupied_slots_app _ occ
             (dict_items (new_vehicle_entry p entry_time slot)) slot
             Hocc eq_refl).
  cbn [rbind ok try_except]. rewrite filter_filter.
  apply filter_ext. intros i. rewrite existsb_app. simpl.
  rewrite Bool.orb_false_r, Bool.negb_orb. now rewrite (Z.eqb_sym slot i).
Qed.

End WithCodec.

Lemma available_slots_free_witness :
  In 2 (get_available_slots Scenario.store_with_ABC123 2)
  <-> 1 <= 2 <= 2 /\ ~ taken Scenario.store_with_ABC123 2.
Proof.
  exact (proj1 (available_slots_free Scenario.store_with_ABC123 2 [2]
                  eq_refl) 2).
Defined.

Lemma add_takes_slot_witness :
  get_available_slots
    (snd (@add_vehicle_entry Scenario.stub_codec Scenario.store_with_ABC123
            "XYZ789" Scenario.half_past_eleven 2))
    3
  = filter (fun i => negb (i =? 2))
      (get_available_slots Scenario.store_with_ABC123 3).
Proof.
  exact (@add_takes_slot Scenario.stub_codec Scenario.store_with_ABC123
           "XYZ789" Scenario.half_past_eleven 2 3 [2; 3]
           eq_refl eq_refl ltac:(vm_compute; reflexivity)).
Defined.

End SlotMore.

(** ** main.py: further properties of the coordinator *)

Module CoordinatorMore.
Import ParkingSystem StoreSpec CoordinatorSpec StoreFacts CoordinatorFacts
  MoreSpec StoreMoreSpec CoordinatorMoreSpec MainLoop.

Ltac settle_events :=
  cbn; intuition (try discriminate; try congruence).

Lemma close_entry_gate_run (w : world) :
  _close_entry_gate_after_timeout w
  = if entry_gate_processing (sys w)
    then (ok tt, entry_cleared w,
          [Send "CLOSE_ENTRY_GATE";
           Log INFO "Entry gate closed after timeout"])
    else (ok tt, w, []).
Proof.
  destruct w as [s d].
  unfold _close_entry_gate_after_timeout, bind, read, emit, update, log, ret.
  cbn [sys data]. now destruct (entry_gate_processing s).
Qed.

Lemma close_exit_gate_run (w : world) :
  _close_exit_gate_after_timeout w
  = if exit_gate_processing (sys w)
    then (ok tt, exit_cleared w,
          [Send "CLOSE_EXIT_GATE";
           Log INFO "Exit gate closed after timeout"])
    else (ok tt, w, []).
Proof.
  destruct w as [s d].
  unfold _close_exit_gate_after_timeout, bind, read, emit, update, log, ret.
  cbn [sys data]. now destruct (exit_gate_processing s).
Qed.

Lemma exit_flag_restored (s : ParkingSystem.t) :
  exit_gate_processing s = false ->
  set_exit_gate_processing false (set_exit_gate_processing true s) = s.
Proof. destruct s. simpl. now intros ->. Qed.

Section WithReader.
Context {R : PlateReader} {C : DateCodec}.

(** The two ways an entry crossing handled from idle can end. *)
Lemma entry_paths (fr : frame) (zi : zone_image) (now : datetime)
  (w : world) :
  entry_gate_processing (sys w) = false ->
  let r := _handle_entry_virtual_line fr zi now w in
  result r = ok tt
  /\ ((In (Send "OPEN_ENTRY_GATE") (events r)
       /\ In (StartTimer 5 CloseEntryGateAfterTimeout) (events r)
       /\ ~ In (Send "BUZZER_ON") (events r)
       /\ sys (final r) = set_entry_gate_processing true (sys w)
       /\ exists plate slot rest,
            resolved ENTRY fr zi = Some plate
            /\ DataManager.get_available_slots (data w) (total_slots (sys w))
               = slot :: rest
            /\ fst (DataManager.add_vehicle_entry (data w) plate now slot)
               = true
            /\ data (final r)
               = snd (DataManager.add_vehicle_entry (data w) plate now slot))
      \/ (~ In (Send "OPEN_ENTRY_GATE") (events r)
          /\ ~ In (StartTimer 5 CloseEntryGateAfterTimeout) (events r)
          /\ sys (final r) = sys w
          /\ data (final r) = data w)).
Proof.
  intros Hflag. cbv zeta. rewrite (handle_entry_idle fr zi now w Hflag).
  rewrite process_entry_run.
  cbn [sys data total_slots slot_occupied set_entry_gate_processing].
  unfold entry_cleared, buzzer_alert, read_events.
  pose proof (entry_flag_restored (sys w) Hflag) as Hback.
  destruct (DataManager.is_parking_full _ _ || slot_occupied _).
  { split; [reflexivity|]. right. cbn [events final fst snd sys data].
    rewrite Hback. settle_events. }
  destruct (resolved ENTRY fr zi) as [plate|].
  2:{ split; [reflexivity|]. right. cbn [events final fst snd sys data].
      rewrite Hback. destruct (truthy (extract_number_plate zi));
        settle_events. }
  destruct (DataManager.get_vehicle_entry (data w) plate).
  { split; [reflexivity|]. right. cbn [events final fst snd sys data].
    rewrite Hback. destruct (truthy (extract_number_plate zi));
      settle_events. }
  destruct (DataManager.get_available_slots (data w) (total_slots (sys w)))
    as [|slot rest].
  { split; [reflexivity|]. right. cbn [events final fst snd sys data].
    rewrite Hback. destruct (truthy (extract_number_plate zi));
      settle_events. }
  destruct (add_vehicle_entry_cases (data w) plate now slot)
    as [Hadd|[kv [_ Hadd]]]; rewrite Hadd; cbn [fst snd].
  - split; [reflexivity|]. right. cbn [events final fst snd sys data].
    rewrite Hback. destruct (truthy (extract_number_plate zi));
      settle_events.
  - split; [reflexivity|]. left. cbn [events final fst snd sys data].
    refine (conj _ (conj _ (conj _ (conj eq_refl _)))).
    + destruct (truthy (extract_number_plate zi)); settle_events.
    + destruct (truthy (extract_number_plate zi)); settle_events.
    + destruct (truthy (extract_number_plate zi)); settle_events.
    + exists plate, slot, rest. rewrite ?Hadd. cbn [fst snd].
      exact (conj eq_refl (conj eq_refl (conj eq_refl eq_refl))).
Qed.

(** X15. An entry crossing handled from idle never raises.  It leaves
    the entry zone busy exactly when it sent OPEN_ENTRY_GATE, which is
    exactly when it started the timer that closes the gate; and it never
    both opens the gate and sounds the buzzer. *)
Theorem entry_crossing_outcome (fr : frame) (zi : zone_image)
  (now : datetime) (w : world) :
  entry_gate_processing (sys w) = false ->
  result (_handle_entry_virtual_line fr zi now w) = ok tt
  /\ (entry_gate_processing
        (sys (final (_handle_entry_virtual_line fr zi now w))) = true
      <-> In (Send "OPEN_ENTRY_GATE")
            (events (_handle_entry_virtual_line fr zi now w)))
  /\ (In (Send "OPEN_ENTRY_GATE")
         (events (_handle_entry_virtual_line fr zi now w))
      <-> In (StartTimer 5 CloseEntryGateAfterTimeout)
            (events (_handle_entry_virtual_line fr zi now w)))
  /\ ~ (In (Send "OPEN_ENTRY_GATE")
          (events (_handle_entry_virtual_line fr zi now w))
        /\ In (Send "BUZZER_ON")
             (events (_handle_entry_virtual_line fr zi now w))).
Proof.
  intros Hflag.
  destruct (entry_paths fr zi now w Hflag)
    as [Hres [[Hopen [Htimer [Hbuzz [Hsys _]]]]|[Hopen [Htimer [Hsys _]]]]];
    rewrite Hsys; (split; [exact Hres|]).
  - cbn [set_entry_gate_processing entry_gate_processing]. tauto.
  - rewrite Hflag. intuition discriminate.
Qed.

(** X16. When an entry crossing handled from idle opens the gate, on a
    store that can be written and with a timestamp the codec reads
    back, the plate it read was not active before, is on record
    afterwards with that timestamp, and holds the lowest slot that was
    free. *)
Theorem entry_gate_records_vehicle (fr : frame) (zi : zone_image)
  (now : datetime) (w : world) :
  entry_gate_processing (sys w) = false ->
  DataManager.writable (data w) = true ->
  round_trips now ->
  In (Send "OPEN_ENTRY_GATE")
    (events (_handle_entry_virtual_line fr zi now w)) ->
  exists plate slot,
    resolved ENTRY fr zi = Some plate
    /\ ~ active (data w) plate
    /\ In slot (DataManager.get_available_slots (data w) (total_slots (sys w)))
    /\ (forall i,
          In i (DataManager.get_available_slots (data w) (total_slots (sys w)))
          -> slot <= i)
    /\ DataManager.get_vehicle_entry
         (data (final (_handle_entry_virtual_line fr zi now w))) plate
       = Some {| DataManager.fields :=
                   DataManager.dict_items
                     (DataManager.new_vehicle_entry plate now slot);
                 DataManager.entry_time := now |}
    /\ plates (stored_vehicles
                 (data (final (_handle_entry_virtual_line fr zi now w))))
       = plates (stored_vehicles (data w)) ++ [plate].
Proof.
  intros Hflag Hw Hrt Hopen.
  destruct (entry_paths fr zi now w Hflag)
    as [_ [[_ [_ [_ [_ [plate [slot [rest [Hres [Hav [Hadd Hdata]]]]]]]]]]
          |[Hno _]]]; [|contradiction].
  exists plate, slot. rewrite Hdata, Hav.
  destruct (StoreMore.add_vehicle_entry_stored (data w) plate now slot
              Hrt Hw Hadd) as [Hget Hplates].
  destruct (StoreMore.add_vehicle_entry_true (data w) plate now slot Hadd)
    as [kv [Hdup _]].
  pose proof (already_present_sound _ _ Hdup) as Hnot.
  refine (conj Hres (conj Hnot (conj (or_introl eq_refl)
            (conj _ (conj Hget Hplates))))).
  intros i [<-|Hi]; [lia|].
  pose proof (SlotMore.available_slots_sorted (data w)
                (total_slots (sys w))) as Hs.
  rewrite Hav in Hs. inversion Hs as [|? ? _ Hall]. subst.
  rewrite Forall_forall in Hall. specialize (Hall i Hi). lia.
Qed.

Lemma fee_logs_only (self : FeeCalculator.t) (a b : option datetime)
  (e : event) :
  In e (snd (FeeCalculator.calculate_fee self a b)) ->
  exists l m, e = Log l m.
Proof.
  unfold FeeCalculator.calculate_fee.
  destruct a as [entry|], b as [exit|]; try destruct (exit <? entry);
    simpl; intros [<-|[]]; eexists; eexists; reflexivity.
Qed.

Lemma in_trace (e : event) (zi : zone_image) (pre : string)
  (logged tail : list event) :
  (forall l m, e <> Log l m) -> e <> ExtractPlate ->
  e <> Sleep (1 # 2) -> e <> ExtractPlateFromZone ->
  (forall x, In x logged -> exists l m, x = Log l m) ->
  In e (Log INFO "Extracting number plate from exit zone..."
          :: read_events zi ++ Log INFO pre :: logged ++ tail)
  <-> In e tail.
Proof.
  intros Hlog H1 H2 H3 Hfee. split.
  - intros [H|H]; [symmetry in H; now apply Hlog in H|].
    apply in_app_or in H. destruct H as [H|H].
    + exfalso. unfold read_events in H.
      destruct (truthy (extract_number_plate zi)); simpl in H;
        intuition (try congruence).
    + destruct H as [H|H]; [symmetry in H; now apply Hlog in H|].
      apply in_app_or in H. destruct H as [H|H]; [|exact H].
      destruct (Hfee e H) as [l [m ->]]. now destruct (Hlog l m).
  - intros H. right. apply in_or_app. right. right. apply in_or_app.
    now right.
Qed.

(** The four ways an exit crossing handled from idle can end. *)
Lemma exit_paths (fr : frame) (zi : zone_image) (now : datetime)
  (w : world) :
  exit_gate_processing (sys w) = false ->
  let r := _handle_exit_virtual_line fr zi now w in
  (result r = ok tt
   /\ In (Send "OPEN_EXIT_GATE") (events r)
   /\ In (StartTimer 5 CloseExitGateAfterTimeout) (events r)
   /\ sys (final r) = set_exit_gate_processing true (sys w)
   /\ exists plate found slot,
        resolved EXIT fr zi = Some plate
        /\ DataManager.get_vehicle_entry (data w) plate = Some found
        /\ DataManager.entry_time_aware found = false
        /\ lookup "slot" (DataManager.fields found) = Some slot
        /\ data (final r)
           = snd (DataManager.remove_vehicle_entry
                    (snd (DataManager.add_history_record (data w) plate
                            (DataManager.entry_time found) now
                            (fst (FeeCalculator.calculate_fee
                                    {| FeeCalculator.hourly_rate :=
                                         hourly_rate (sys w) |}
                                    (Some (DataManager.entry_time found))
                                    (Some now)))
                            slot))
                    plate))
  \/ (result r = ok tt
      /\ ~ In (Send "OPEN_EXIT_GATE") (events r)
      /\ ~ In (StartTimer 5 CloseExitGateAfterTimeout) (events r)
      /\ sys (final r) = sys w
      /\ data (final r) = data w
      /\ (resolved EXIT fr zi = None
          \/ exists plate,
               resolved EXIT fr zi = Some plate
               /\ DataManager.get_vehicle_entry (data w) plate = None))
  \/ (result r = raise KeyError
      /\ ~ In (Send "OPEN_EXIT_GATE") (events r)
      /\ ~ In (StartTimer 5 CloseExitGateAfterTimeout) (events r)
      /\ sys (final r) = set_exit_gate_processing true (sys w)
      /\ data (final r) = data w
      /\ exists plate found,
           resolved EXIT fr zi = Some plate
           /\ DataManager.get_vehicle_entry (data w) plate = Some found
           /\ DataManager.entry_time_aware found = false
           /\ lookup "slot" (DataManager.fields found) = None)
  \/ (result r = raise TypeError
      /\ ~ In (Send "OPEN_EXIT_GATE") (events r)
      /\ ~ In (StartTimer 5 CloseExitGateAfterTimeout) (events r)
      /\ sys (final r) = set_exit_gate_processing true (sys w)
      /\ data (final r) = data w
      /\ exists plate found,
           resolved EXIT fr zi = Some plate
           /\ DataManager.get_vehicle_entry (data w) plate = Some found
           /\ DataManager.entry_time_aware found = true).
Proof.
  intros Hflag. cbv zeta. rewrite (handle_exit_idle fr zi now w Hflag).
  rewrite process_exit_run.
  cbn [sys data hourly_rate set_exit_gate_processing].
  unfold exit_cleared.
  pose proof (exit_flag_restored (sys w) Hflag) as Hback.
  destruct (resolved EXIT fr zi) as [plate|].
  2:{ right. left. cbn [events result final fst snd sys data].
      rewrite Hback. unfold read_events.
      destruct (truthy (extract_number_plate zi)); settle_events. }
  destruct (DataManager.get_vehicle_entry (data w) plate) as [found|]
    eqn:Hfound.
  2:{ right. left. cbn [events result final fst snd sys data].
      rewrite Hback. unfold read_events.
      refine (conj eq_refl (conj _ (conj _ (conj eq_refl (conj eq_refl _))))).
      - destruct (truthy (extract_number_plate zi)); settle_events.
      - destruct (truthy (extract_number_plate zi)); settle_events.
      - right. exists plate. now split. }
  cbv zeta.
  destruct (DataManager.entry_time_aware found) eqn:Haware.
  { right. right. right. cbn [events result final fst snd sys data].
    unfold read_events.
    refine (conj eq_refl (conj _ (conj _ (conj eq_refl (conj eq_refl _))))).
    - destruct (truthy (extract_number_plate zi)); settle_events.
    - destruct (truthy (extract_number_plate zi)); settle_events.
    - exists plate, found. exact (conj eq_refl (conj Hfound Haware)). }
  destruct (lookup "slot" (DataManager.fields found)) as [slot|] eqn:Hslot.
  - left. cbn [events result final fst snd sys data].
    refine (conj eq_refl (conj _ (conj _ (conj eq_refl _)))).
    + right. apply in_trace; try discriminate; [apply fee_logs_only|].
      simpl. tauto.
    + right. apply in_trace; try discriminate; [apply fee_logs_only|].
      simpl. tauto.
    + exists plate, found, slot.
      exact (conj eq_refl (conj Hfound (conj Haware (conj Hslot eq_refl)))).
  - right. right. left. cbn [events result final fst snd sys data].
    refine (conj eq_refl (conj _ (conj _ (conj eq_refl (conj eq_refl _))))).
    + intros [H|H]; [discriminate|].
      apply in_trace in H; try discriminate; [|apply fee_logs_only].
      simpl in H. intuition discriminate.
    + intros [H|H]; [discriminate|].
      apply in_trace in H; try discriminate; [|apply fee_logs_only].
      simpl in H. intuition discriminate.
    + exists plate, found.
      exact (conj eq_refl (conj Hfound (conj Haware Hslot))).
Qed.

(** X17. An exit crossing handled from idle returns or raises.  It
    raises [TypeError] exactly when the stored entry time of the record
    found carries a UTC offset (the aware [datetime] cannot be compared
    with the clock), and [KeyError] exactly when that is not so and the
    record has no slot; the store is then as before and the gate stays
    closed.  It sends OPEN_EXIT_GATE exactly when it starts the timer
    that closes the gate, and it leaves the exit zone busy exactly when
    it opened the gate or raised. *)
Theorem exit_crossing_outcome (fr : frame) (zi : zone_image)
  (now : datetime) (w : world) :
  exit_gate_processing (sys w) = false ->
  (result (_handle_exit_virtual_line fr zi now w) = ok tt
   \/ result (_handle_exit_virtual_line fr zi now w) = raise KeyError
   \/ result (_handle_exit_virtual_line fr zi now w) = raise TypeError)
  /\ (result (_handle_exit_virtual_line fr zi now w) = raise TypeError
      <-> exists plate found s,
            resolved EXIT fr zi = Some plate
            /\ DataManager.get_vehicle_entry (data w) plate = Some found
            /\ lookup "entry_time" (DataManager.fields found) = Some (JStr s)
            /\ utc_offset s = true)
  /\ (result (_handle_exit_virtual_line fr zi now w) = raise KeyError
      <-> exists plate found,
            resolved EXIT fr zi = Some plate
            /\ DataManager.get_vehicle_entry (data w) plate = Some found
            /\ DataManager.entry_time_aware found = false
            /\ lookup "slot" (DataManager.fields found) = None)
  /\ (result (_handle_exit_virtual_line fr zi now w) = raise KeyError
      \/ result (_handle_exit_virtual_line fr zi now w) = raise TypeError ->
      data (final (_handle_exit_virtual_line fr zi now w)) = data w
      /\ ~ In (Send "OPEN_EXIT_GATE")
            (events (_handle_exit_virtual_line fr zi now w)))
  /\ (In (Send "OPEN_EXIT_GATE")
         (events (_handle_exit_virtual_line fr zi now w))
      <-> In (StartTimer 5 CloseExitGateAfterTimeout)
            (events (_handle_exit_virtual_line fr zi now w)))
  /\ (exit_gate_processing
        (sys (final (_handle_exit_virtual_line fr zi now w))) = true
      <-> In (Send "OPEN_EXIT_GATE")
            (events (_handle_exit_virtual_line fr zi now w))
          \/ result (_handle_exit_virtual_line fr zi now w) = raise KeyError
          \/ result (_handle_exit_virtual_line fr zi now w)
             = raise TypeError).
Proof.
  intros Hflag.
  assert (Haware : forall found,
             DataManager.entry_time_aware found = true
             <-> exists s,
                   lookup "entry_time" (DataManager.fields found)
                   = Some (JStr s)
                   /\ utc_offset s = true).
  { intros found. unfold DataManager.entry_time_aware.
    destruct (lookup "entry_time" (DataManager.fields found)) as [[| | | |s| |]|];
      split; try discriminate; try (intros [s' [H _]]; discriminate).
    - intros H. now exists s.
    - intros [s' [[= <-] H]]. exact H. }
  destruct (exit_paths fr zi now w Hflag)
    as [[Hres [Hopen [Htimer [Hsys [plate [found [slot
                                   [Hp [Hf [Ha [Hs _]]]]]]]]]]]
       |[[Hres [Hopen [Htimer [Hsys [Hdata Hnone]]]]]
        |[[Hres [Hopen [Htimer [Hsys [Hdata [plate [found
                                   [Hp [Hf [Ha Hs]]]]]]]]]]
         |[Hres [Hopen [Htimer [Hsys [Hdata [plate [found
                                   [Hp [Hf Ha]]]]]]]]]]]];
    rewrite Hres, Hsys.
  - refine (conj (or_introl eq_refl) (conj _ (conj _ (conj _ (conj _ _))))).
    + split; [discriminate|].
      intros [plate' [found' [s [Hp' [Hf' Hoff]]]]].
      rewrite Hp in Hp'. injection Hp' as <-.
      rewrite Hf in Hf'. injection Hf' as <-.
      assert (DataManager.entry_time_aware found = true)
        by (apply Haware; now exists s).
      congruence.
    + split; [discriminate|].
      intros [plate' [found' [Hp' [Hf' [_ Hs']]]]].
      rewrite Hp in Hp'. injection Hp' as <-.
      rewrite Hf in Hf'. injection Hf' as <-. congruence.
    + intros [H|H]; discriminate.
    + tauto.
    + cbn [set_exit_gate_processing exit_gate_processing]. tauto.
  - refine (conj (or_introl eq_refl) (conj _ (conj _ (conj _ (conj _ _))))).
    + split; [discriminate|].
      intros [plate' [found' [s [Hp' [Hf' _]]]]].
      destruct Hnone as [Hnone|[plate [Hp Hnone]]]; [congruence|].
      rewrite Hp in Hp'. injection Hp' as <-. congruence.
    + split; [discriminate|].
      intros [plate' [found' [Hp' [Hf' _]]]].
      destruct Hnone as [Hnone|[plate [Hp Hnone]]]; [congruence|].
      rewrite Hp in Hp'. injection Hp' as <-. congruence.
    + intros [H|H]; discriminate.
    + tauto.
    + rewrite Hflag. split; [discriminate|].
      intros [H|[H|H]]; [contradiction|discriminate|discriminate].
  - refine (conj (or_intror (or_introl eq_refl))
              (conj _ (conj _ (conj _ (conj _ _))))).
    + split; [discriminate|].
      intros [plate' [found' [s [Hp' [Hf' Hoff]]]]].
      rewrite Hp in Hp'. injection Hp' as <-.
      rewrite Hf in Hf'. injection Hf' as <-.
      assert (DataManager.entry_time_aware found = true)
        by (apply Haware; now exists s).
      congruence.
    + split; [intros _|reflexivity]. exists plate, found.
      exact (conj Hp (conj Hf (conj Ha Hs))).
    + intros _. exact (conj Hdata Hopen).
    + tauto.
    + cbn [set_exit_gate_processing exit_gate_processing].
      split; [intros _; right; now left|reflexivity].
  - refine (conj (or_intror (or_intror eq_refl))
              (conj _ (conj _ (conj _ (conj _ _))))).
    + split; [intros _|reflexivity].
      destruct (proj1 (Haware found) Ha) as [s [Hs Hoff]].
      exists plate, found, s. exact (conj Hp (conj Hf (conj Hs Hoff))).
    + split; [discriminate|].
      intros [plate' [found' [Hp' [Hf' [Ha' _]]]]].
      rewrite Hp in Hp'. injection Hp' as <-.
      rewrite Hf in Hf'. injection Hf' as <-. congruence.
    + intros _. exact (conj Hdata Hopen).
    + tauto.
    + cbn [set_exit_gate_processing exit_gate_processing].
      split; [intros _; right; now right|reflexivity].
Qed.

Lemma add_history_record_writable (self : DataManager.t) (p : string)
  (entry_time exit_time : datetime) (fee : Q) (slot : json) :
  DataManager.writable
    (snd (DataManager.add_history_record self p entry_time exit_time fee slot))
  = DataManager.writable self.
Proof.
  unfold DataManager.add_history_record.
  destruct (DataManager._read_json self DataManager.HistoryFile) as [e|data];
    simpl; [reflexivity|].
  destruct (py_get_default data "history" (JList [])) as [e|history]; simpl;
    [reflexivity|].
  destruct (py_append history _) as [e|history']; simpl; [reflexivity|].
  destruct (DataManager.py_setitem data "history" history') as [e|data'];
    simpl; [reflexivity|].
  unfold DataManager._write_json.
  now destruct (DataManager.writable self) eqn:Hw.
Qed.

(** X18. The exit gate opens only for a plate that had an active
    record.  On a store that can be written and whose vehicles are all
    records, the plate is no longer active afterwards and the other
    plates are kept in their order. *)
Theorem exit_gate_releases_vehicle (fr : frame) (zi : zone_image)
  (now : datetime) (w : world) :
  exit_gate_processing (sys w) = false ->
  In (Send "OPEN_EXIT_GATE")
    (events (_handle_exit_virtual_line fr zi now w)) ->
  exists plate,
    resolved EXIT fr zi = Some plate
    /\ active (data w) plate
    /\ (DataManager.writable (data w) = true ->
        Forall is_record (stored_vehicles (data w)) ->
        ~ active (data (final (_handle_exit_virtual_line fr zi now w))) plate
        /\ plates (stored_vehicles
                     (data (final (_handle_exit_virtual_line fr zi now w))))
           = others plate (plates (stored_vehicles (data w)))).
Proof.
  intros Hflag Hopen.
  destruct (exit_paths fr zi now w Hflag)
    as [[_ [_ [_ [_ [plate [found [slot [Hp [Hf [_ [Hs Hdata]]]]]]]]]]]
       |[[_ [Hno _]]|[[_ [Hno _]]|[_ [Hno _]]]]]; try contradiction.
  exists plate. split; [exact Hp|].
  pose proof (StoreMore.get_vehicle_entry_stored _ _ _ Hf) as Hfind.
  destruct (StoreMore.find_entry_found _ _ _ Hfind) as [Hin [Hnp _]].
  pose proof (StoreMore.record_plate_active _ _ _ Hin Hnp) as Hact.
  split; [exact Hact|]. intros Hw Hrec. rewrite Hdata.
  set (recorded := snd (DataManager.add_history_record _ _ _ _ _ _)).
  assert (Hsame : stored_vehicles recorded = stored_vehicles (data w)).
  { apply stored_vehicles_same_file.
    apply add_history_record_keeps_vehicles. }
  assert (Hw' : DataManager.writable recorded = true).
  { unfold recorded. now rewrite add_history_record_writable. }
  destruct (StoreMore.remove_vehicle_entry_effect recorded plate)
    as [Hgone Hret].
  assert (Hact' : active recorded plate).
  { unfold active. now rewrite Hsame. }
  rewrite Hsame in Hret. specialize (Hret Hact' Hrec).
  destruct (Hgone Hret) as [_ Hafter]. specialize (Hafter Hw').
  now rewrite Hsame in Hafter.
Qed.

(** X19. After a crossing handled from idle and then the timer handler
    of its gate, the controller is as it was before the crossing, and
    the close command is sent exactly when the open command was.  (For
    the exit gate: when the crossing handler returned.) *)
Theorem gate_closes_after_timer (fr : frame) (zi : zone_image)
  (now : datetime) (w : world) :
  (entry_gate_processing (sys w) = false ->
   sys (final (_close_entry_gate_after_timeout
                 (final (_handle_entry_virtual_line fr zi now w))))
   = sys w
   /\ (In (Send "CLOSE_ENTRY_GATE")
          (events (_close_entry_gate_after_timeout
                     (final (_handle_entry_virtual_line fr zi now w))))
       <-> In (Send "OPEN_ENTRY_GATE")
             (events (_handle_entry_virtual_line fr zi now w))))
  /\ (exit_gate_processing (sys w) = false ->
      result (_handle_exit_virtual_line fr zi now w) = ok tt ->
      sys (final (_close_exit_gate_after_timeout
                    (final (_handle_exit_virtual_line fr zi now w))))
      = sys w
      /\ (In (Send "CLOSE_EXIT_GATE")
             (events (_close_exit_gate_after_timeout
                        (final (_handle_exit_virtual_line fr zi now w))))
          <-> In (Send "OPEN_EXIT_GATE")
                (events (_handle_exit_virtual_line fr zi now w)))).
Proof.
  split.
  - intros Hflag. rewrite close_entry_gate_run.
    destruct (entry_paths fr zi now w Hflag)
      as [_ [[Hopen [_ [_ [Hsys _]]]]|[Hopen [_ [Hsys _]]]]]; rewrite Hsys.
    + cbn [set_entry_gate_processing entry_gate_processing final events
           fst snd entry_cleared sys].
      rewrite Hsys. split; [exact (entry_flag_restored _ Hflag)|].
      simpl. tauto.
    + rewrite Hflag. cbn [final events fst snd]. split; [exact Hsys|].
      simpl. tauto.
  - intros Hflag Hok. rewrite close_exit_gate_run.
    destruct (exit_paths fr zi now w Hflag)
      as [[_ [Hopen [_ [Hsys _]]]]
         |[[_ [Hopen [_ [Hsys _]]]]|[[Hres _]|[Hres _]]]];
      [| |rewrite Hres in Hok; discriminate
       |rewrite Hres in Hok; discriminate];
      rewrite Hsys.
    + cbn [set_exit_gate_processing exit_gate_processing final events
           fst snd exit_cleared sys].
      rewrite Hsys. split; [exact (exit_flag_restored _ Hflag)|].
      simpl. tauto.
    + rewrite Hflag. cbn [final events fst snd]. split; [exact Hsys|].
      simpl. tauto.
Qed.

Lemma entry_sends (fr : frame) (zi : zone_image) (now : datetime)
  (w : world) (cmd : string) :
  In (Send cmd) (events (_handle_entry_virtual_line fr zi now w)) ->
  In cmd (zone_commands ENTRY).
Proof.
  destruct (entry_gate_processing (sys w)) eqn:Hflag.
  { rewrite (handle_entry_busy fr zi now w Hflag). settle_events. }
  rewrite (handle_entry_idle fr zi now w Hflag), process_entry_run.
  cbn [sys data total_slots slot_occupied set_entry_gate_processing].
  unfold entry_cleared, buzzer_alert, read_events.
  destruct (DataManager.is_parking_full _ _ || slot_occupied _).
  { cbn. intuition (try discriminate); congruence. }
  destruct (resolved ENTRY fr zi) as [plate|].
  2:{ destruct (truthy (extract_number_plate zi)); settle_events. }
  destruct (DataManager.get_vehicle_entry (data w) plate).
  { destruct (truthy (extract_number_plate zi)); settle_events. }
  destruct (DataManager.get_available_slots (data w) (total_slots (sys w)))
    as [|slot rest].
  { destruct (truthy (extract_number_plate zi)); settle_events. }
  destruct (fst (DataManager.add_vehicle_entry (data w) plate now slot));
    destruct (truthy (extract_number_plate zi)); cbn;
    intuition (try discriminate); congruence.
Qed.

Lemma exit_sends (fr : frame) (zi : zone_image) (now : datetime)
  (w : world) (cmd : string) :
  In (Send cmd) (events (_handle_exit_virtual_line fr zi now w)) ->
  In cmd (zone_commands EXIT).
Proof.
  destruct (exit_gate_processing (sys w)) eqn:Hflag.
  { rewrite (handle_exit_busy fr zi now w Hflag). settle_events. }
  rewrite (handle_exit_idle fr zi now w Hflag), process_exit_run.
  cbn [sys data hourly_rate set_exit_gate_processing].
  unfold exit_cleared.
  destruct (resolved EXIT fr zi) as [plate|].
  2:{ unfold read_events.
      destruct (truthy (extract_number_plate zi)); settle_events. }
  destruct (DataManager.get_vehicle_entry (data w) plate) as [found|].
  2:{ unfold read_events.
      destruct (truthy (extract_number_plate zi)); settle_events. }
  cbv zeta.
  destruct (DataManager.entry_time_aware found).
  { unfold read_events.
    destruct (truthy (extract_number_plate zi)); settle_events. }
  destruct (lookup "slot" (DataManager.fields found)) as [slot|];
    cbn [events snd]; (intros [H|H]; [discriminate|]);
    apply in_trace in H; try discriminate; try apply fee_logs_only;
    simpl in H; simpl; intuition (try discriminate); congruence.
Qed.

(** X20. The handler of a zone leaves the rest of the controller
    alone: the slot count, the rate, the running flag, the slot status
    and the other zone's flag are as before, whether the zone was busy
    or not; and the only serial commands it sends are its own (the
    entry gate and the buzzer, or the exit gate). *)
Theorem handler_frame (z : Zone) (fr : frame) (zi : zone_image)
  (now : datetime) (w : world) :
  total_slots (sys (final (handle z fr zi now w))) = total_slots (sys w)
  /\ hourly_rate (sys (final (handle z fr zi now w))) = hourly_rate (sys w)
  /\ running (sys (final (handle z fr zi now w))) = running (sys w)
  /\ slot_occupied (sys (final (handle z fr zi now w)))
     = slot_occupied (sys w)
  /\ gate_processing (other_zone z) (sys (final (handle z fr zi now w)))
     = gate_processing (other_zone z) (sys w)
  /\ forall cmd, In (Send cmd) (events (handle z fr zi now w)) ->
                 In cmd (zone_commands z).
Proof.
  destruct z; cbn [handle other_zone gate_processing].
  - assert (Hsys : sys (final (_handle_entry_virtual_line fr zi now w))
                   = sys w
                   \/ sys (final (_handle_entry_virtual_line fr zi now w))
                      = set_entry_gate_processing true (sys w)).
    { destruct (entry_gate_processing (sys w)) eqn:Hflag.
      - rewrite (handle_entry_busy fr zi now w Hflag). now left.
      - destruct (entry_paths fr zi now w Hflag)
          as [_ [[_ [_ [_ [Hsys _]]]]|[_ [_ [Hsys _]]]]]; rewrite Hsys; auto. }
    refine (conj _ (conj _ (conj _ (conj _ (conj _ _)))));
      [..|exact (entry_sends fr zi now w)];
      destruct Hsys as [-> | ->]; reflexivity.
  - assert (Hsys : sys (final (_handle_exit_virtual_line fr zi now w))
                   = sys w
                   \/ sys (final (_handle_exit_virtual_line fr zi now w))
                      = set_exit_gate_processing true (sys w)).
    { destruct (exit_gate_processing (sys w)) eqn:Hflag.
      - rewrite (handle_exit_busy fr zi now w Hflag). now left.
      - destruct (exit_paths fr zi now w Hflag)
          as [[_ [_ [_ [Hsys _]]]]
             |[[_ [_ [_ [Hsys _]]]]
              |[[_ [_ [_ [Hsys _]]]]|[_ [_ [_ [Hsys _]]]]]]]; rewrite Hsys;
          auto. }
    refine (conj _ (conj _ (conj _ (conj _ (conj _ _)))));
      [..|exact (exit_sends fr zi now w)];
      destruct Hsys as [-> | ->]; reflexivity.
Qed.

End WithReader.

Lemma handle_message_run (message : string) (w : world) :
  result (_handle_message message w) = ok tt
  /\ final (_handle_message message w)
     = {| sys := set_slot_occupied
                  (slot_status [message] (slot_occupied (sys w))) (sys w);
          data := data w |}
  /\ forall cmd, ~ In (Send cmd) (events (_handle_message message w)).
Proof.
  destruct w as [[ts hr rn eg xg so] d].
  unfold _handle_message, bind, log, emit, update, ret, slot_status.
  cbn [fold_left].
  destruct (String.eqb message "SLOT_OCCUPIED");
    [|destruct (String.eqb message "SLOT_FREE")]; settle_events.
Qed.

(** X21. Handling a batch of messages never raises and sends nothing;
    it leaves the store and the rest of the controller as they were and
    sets the slot status to that of the last message that names one.
    When that status is occupied, the next entry crossing (from idle) is
    answered with the buzzer, and the gate stays closed. *)
Theorem handle_messages_spec (messages : list string) (w : world) :
  result (handle_messages messages w) = ok tt
  /\ final (handle_messages messages w)
     = {| sys := set_slot_occupied
                  (slot_status messages (slot_occupied (sys w))) (sys w);
          data := data w |}
  /\ (forall cmd, ~ In (Send cmd) (events (handle_messages messages w)))
  /\ forall (R : PlateReader) (C : DateCodec) fr zi now,
       slot_status messages (slot_occupied (sys w)) = true ->
       entry_gate_processing (sys w) = false ->
       events (_handle_entry_virtual_line fr zi now
                 (final (handle_messages messages w)))
       = Log INFO (crossing_notice ENTRY) :: buzzer_alert.
Proof.
  assert (Hrun : result (handle_messages messages w) = ok tt
                 /\ final (handle_messages messages w)
                    = {| sys := set_slot_occupied
                                 (slot_status messages (slot_occupied (sys w)))
                                 (sys w);
                         data := data w |}
                 /\ forall cmd,
                      ~ In (Send cmd) (events (handle_messages messages w))).
  { revert w. induction messages as [|m rest IH]; intros w.
    - destruct w as [[ts hr rn eg xg so] d]. cbn. tauto.
    - destruct (handle_message_run m w) as [Hres [Hfin Hev]].
      cbn [handle_messages]. unfold bind.
      destruct (_handle_message m w) as [[r w1] evs1] eqn:Hm.
      cbn [result final events fst snd] in Hres, Hfin, Hev. subst r w1.
      specialize (IH {| sys := set_slot_occupied
                                 (slot_status [m] (slot_occupied (sys w)))
                                 (sys w);
                        data := data w |}).
      destruct (handle_messages rest _) as [[r w2] evs2].
      cbn [result final events fst snd sys data] in IH |- *.
      destruct IH as [-> [-> Hev2]].
      refine (conj eq_refl (conj _ _)).
      + reflexivity.
      + intros cmd Hin. apply in_app_or in Hin.
        destruct Hin as [Hin|Hin]; [exact (Hev cmd Hin)|exact (Hev2 cmd Hin)]. }
  destruct Hrun as [Hres [Hfin Hev]].
  refine (conj Hres (conj Hfin (conj Hev _))).
  intros R C fr zi now Hocc Hflag. rewrite Hfin.
  rewrite handle_entry_idle by exact Hflag.
  rewrite process_entry_run.
  cbn [sys data total_slots slot_occupied set_entry_gate_processing
       set_slot_occupied set_gate_processing].
  rewrite Hocc, Bool.orb_true_r. reflexivity.
Qed.

Lemma entry_crossing_outcome_witness :
  result (Scenario.entry_of "ABC123" Scenario.ten
            {| sys := Scenario.controller 2 false;
               data := Scenario.fresh_store |})
  = ok tt.
Proof.
  exact (proj1 (@entry_crossing_outcome Scenario.stub_reader
                  Scenario.stub_codec None (Some "ABC123") Scenario.ten
                  {| sys := Scenario.controller 2 false;
                     data := Scenario.fresh_store |}
                  eq_refl)).
Defined.

Lemma entry_gate_records_vehicle_witness :
  exists plate,
    @resolved Scenario.stub_reader ENTRY None (Some "ABC123") = Some plate
    /\ ~ active Scenario.fresh_store plate.
Proof.
  destruct (@entry_gate_records_vehicle Scenario.stub_reader
              Scenario.stub_codec None (Some "ABC123") Scenario.ten
              {| sys := Scenario.controller 2 false;
                 data := Scenario.fresh_store |}
              eq_refl eq_refl
              ltac:(vm_compute; reflexivity)
              ltac:(vm_compute; intuition))
    as [plate [slot [Hres [Hnot _]]]].
  exists plate. split; [exact Hres|exact Hnot].
Defined.

Lemma exit_crossing_outcome_witness :
  result (@_handle_exit_virtual_line Scenario.stub_reader offset_codec None
            (Some "ABC123") Scenario.half_past_eleven
            {| sys := Scenario.controller 1 false;
               data := store_with_offset_time |})
  = raise TypeError.
Proof.
  apply (proj2 (proj1 (proj2 (@exit_crossing_outcome Scenario.stub_reader
                                offset_codec None (Some "ABC123")
                                Scenario.half_past_eleven
                                {| sys := Scenario.controller 1 false;
                                   data := store_with_offset_time |}
                                eq_refl)))).
  exists "ABC123",
    {| DataManager.fields :=
         DataManager.dict_items record_with_offset_time;
       DataManager.entry_time := Scenario.ten |},
    "2024-01-01T10:00:00+00:00".
  repeat split; reflexivity.
Defined.

Lemma exit_gate_releases_vehicle_witness :
  exists plate,
    @resolved Scenario.stub_reader EXIT None (Some "ABC123") = Some plate
    /\ active Scenario.store_with_ABC123 plate
    /\ ~ active
          (data (final (Scenario.exit_of_ABC123 Scenario.store_with_ABC123)))
          plate.
Proof.
  destruct (@exit_gate_releases_vehicle Scenario.stub_reader
              Scenario.stub_codec None (Some "ABC123")
              Scenario.half_past_eleven
              {| sys := Scenario.controller 1 false;
                 data := Scenario.store_with_ABC123 |}
              eq_refl ltac:(vm_compute; intuition))
    as [plate [Hres [Hact Hgone]]].
  exists plate. refine (conj Hres (conj Hact _)).
  refine (proj1 (Hgone eq_refl _)).
  repeat constructor. eexists. reflexivity.
Defined.

Lemma gate_closes_after_timer_witness :
  sys (final (_close_entry_gate_after_timeout
                (final (Scenario.entry_of "ABC123" Scenario.ten
                          {| sys := Scenario.controller 2 false;
                             data := Scenario.fresh_store |}))))
  = Scenario.controller 2 false
  /\ sys (final (_close_exit_gate_after_timeout
                   (final (Scenario.exit_of_ABC123
                             Scenario.store_with_ABC123))))
     = Scenario.controller 1 false.
Proof.
  split.
  - exact (proj1 (proj1 (@gate_closes_after_timer Scenario.stub_reader
                           Scenario.stub_codec None (Some "ABC123")
                           Scenario.ten
                           {| sys := Scenario.controller 2 false;
                              data := Scenario.fresh_store |})
                    eq_refl)).
  - exact (proj1 (proj2 (@gate_closes_after_timer Scenario.stub_reader
                           Scenario.stub_codec None (Some "ABC123")
                           Scenario.half_past_eleven
                           {| sys := Scenario.controller 1 false;
                              data := Scenario.store_with_ABC123 |})
                    eq_refl ltac:(vm_compute; reflexivity))).
Defined.

Lemma handle_messages_spec_witness :
  events (Scenario.entry_of "ABC123" Scenario.ten
            (final (handle_messages ["SLOT_FREE"; "SLOT_OCCUPIED"]
                      {| sys := Scenario.controller 2 false;
                         data := Scenario.fresh_store |})))
  = Log INFO (crossing_notice ENTRY) :: buzzer_alert.
Proof.
  exact (proj2 (proj2 (proj2
           (handle_messages_spec ["SLOT_FREE"; "SLOT_OCCUPIED"]
              {| sys := Scenario.controller 2 false;
                 data := Scenario.fresh_store |})))
           Scenario.stub_reader Scenario.stub_codec None (Some "ABC123")
           Scenario.ten eq_refl eq_refl).
Defined.

End CoordinatorMore.

(** ** camera_handler.py: further properties *)

Module CameraMore.
Import CameraHandler PlateTextSpec PlateTextFacts CrossingSpec MoreSpec.

Section WithUnicode.
Context {U : Unicode}.

Hypothesis upper_ext_fixed :
  forall c d : codepoint,
    is_ascii c = false -> In d (upper_ext c) -> upper_char d = [d].

Lemma upper_of_uppercase (l : pystr) :
  (forall c, In c l -> uppercase c) -> upper l = l.
Proof.
  induction l as [|c l IH]; intros H; [reflexivity|].
  unfold upper in *. simpl. rewrite (H c (or_introl eq_refl)).
  simpl. f_equal. apply IH. intros d Hd. apply H. now right.
Qed.

Lemma upper_idempotent (text : pystr) : upper (upper text) = upper text.
Proof.
  apply upper_of_uppercase. intros c Hc.
  exact (upper_chars_fixed upper_ext_fixed text c Hc).
Qed.

Lemma filter_idempotent {A} (f : A -> bool) (l : list A) :
  filter f (filter f l) = filter f l.
Proof.
  induction l as [|a l IH]; simpl; [reflexivity|].
  destruct (f a) eqn:Hf; simpl; [rewrite Hf|]; now rewrite IH.
Qed.

Lemma upper_char_of_symbol (c : codepoint) :
  is_ascii c = true -> isalnum c = false ->
  filter isalnum (upper_char c) = [].
Proof.
  intros Ha Hn. unfold upper_char. rewrite Ha.
  assert (Hl : is_ascii_lower c = false).
  { unfold isalnum in Hn. rewrite Ha in Hn.
    apply orb_false_iff in Hn. tauto. }
  rewrite Hl. simpl. now rewrite Hn.
Qed.

(** X22. With an uppercasing table whose results [str.upper] leaves
    alone (as CPython's are), cleaning a plate text is idempotent and
    blind to case; and an ASCII character that is not alphanumeric can
    be inserted anywhere in the text without changing the result. *)
Theorem clean_number_plate_text_stable (text : pystr) :
  _clean_number_plate_text (_clean_number_plate_text text)
  = _clean_number_plate_text text
  /\ _clean_number_plate_text (upper text) = _clean_number_plate_text text
  /\ forall (a b : pystr) (c : codepoint),
       is_ascii c = true -> isalnum c = false ->
       _clean_number_plate_text (a ++ c :: b)
       = _clean_number_plate_text (a ++ b).
Proof.
  refine (conj _ (conj _ _)).
  - unfold _clean_number_plate_text at 2 3. cbv zeta.
    destruct ((List.length (filter isalnum (upper text)) <? 3)%nat
              || (10 <? List.length (filter isalnum (upper text)))%nat)
      eqn:Hlen; [reflexivity|].
    unfold _clean_number_plate_text. cbv zeta.
    rewrite (upper_of_uppercase (filter isalnum (upper text))).
    + rewrite filter_idempotent, Hlen. reflexivity.
    + intros c Hc. apply filter_In in Hc.
      exact (upper_chars_fixed upper_ext_fixed text c (proj1 Hc)).
  - unfold _clean_number_plate_text. now rewrite upper_idempotent.
  - intros a b c Ha Hn. unfold _clean_number_plate_text, upper.
    rewrite !flat_map_app. cbn [flat_map].
    rewrite !filter_app, (upper_char_of_symbol c Ha Hn). reflexivity.
Qed.

End WithUnicode.

Lemma clean_number_plate_text_stable_witness :
  @_clean_number_plate_text sample_unicode
    (@_clean_number_plate_text sample_unicode [97; 98; 45; 49; 50; 51]%N)
  = @_clean_number_plate_text sample_unicode [97; 98; 45; 49; 50; 51]%N.
Proof.
  exact (proj1 (@clean_number_plate_text_stable sample_unicode
                  sample_unicode_fixed [97; 98; 45; 49; 50; 51]%N)).
Defined.

(** X23. A crossing check changes nothing but the cooldown timestamp of
    its own zone: the other zone's timestamp, the trigger rows, the
    threshold and the cooldown are as before.  Whether it returns or
    raises, and the state it returns, do not depend on the callback (an
    exception raised by the callback is caught), and the only callback
    it calls is the one it was given for its zone. *)
Theorem check_crossing_contained (self : t) (contours : list Contour)
  (zone : Zone) (cb : option callback) (now : Q) :
  (forall self' evs,
      _check_virtual_line_crossing self contours zone cb now = ok (self', evs) ->
      last_crossing_time self' (other_zone zone)
      = last_crossing_time self (other_zone zone)
      /\ (forall z, zone_virtual_line_y self' z = zone_virtual_line_y self z)
      /\ motion_threshold self' = motion_threshold self
      /\ crossing_cooldown self' = crossing_cooldown self
      /\ (forall z, In (Callback z) evs -> z = zone /\ cb <> None))
  /\ (forall cb' e,
        _check_virtual_line_crossing self contours zone cb now = raise e ->
        _check_virtual_line_crossing self contours zone cb' now = raise e)
  /\ (forall cb' self' evs,
        _check_virtual_line_crossing self contours zone cb now = ok (self', evs) ->
        exists evs',
          _check_virtual_line_crossing self contours zone cb' now
          = ok (self', evs')
          /\ (In (declaration zone) evs <-> In (declaration zone) evs')).
Proof.
  unfold _check_virtual_line_crossing.
  destruct (zone_virtual_line_y self zone) as [e0|line]; cbn [rbind].
  { refine (conj _ (conj _ _)); intros; try discriminate; assumption. }
  destruct (Qltb (now - last_crossing_time self zone) (crossing_cooldown self)).
  { refine (conj _ (conj _ _)).
    - intros self' evs [= <- <-]. repeat split; try reflexivity;
        destruct H.
    - intros; discriminate.
    - intros cb' self' evs [= <- <-]. exists []. now split. }
  destruct (first_crossing (motion_threshold self) line contours 0)
    as [e0|[i|]]; cbn [rbind].
  - refine (conj _ (conj _ _)); intros; try discriminate; assumption.
  - refine (conj _ (conj _ _)).
    + intros self' evs [= <- <-].
      refine (conj _ (conj _ (conj eq_refl (conj eq_refl _)))).
      * destruct zone; reflexivity.
      * intros z. destruct zone, z; reflexivity.
      * intros z [H|H]; [discriminate|].
        destruct cb as [[|e]|]; simpl in H.
        -- destruct H as [[= <-]|[]]. split; [reflexivity|discriminate].
        -- destruct H as [[= <-]|[H|[]]]; [|discriminate].
           split; [reflexivity|discriminate].
        -- destruct H.
    + intros; discriminate.
    + intros cb' self' evs [= <- <-]. eexists. split; [reflexivity|].
      unfold declaration. split; intros _; now left.
  - refine (conj _ (conj _ _)).
    + intros self' evs [= <- <-]. repeat split; try reflexivity;
        destruct H.
    + intros; discriminate.
    + intros cb' self' evs [= <- <-]. exists []. now split.
Qed.

Lemma check_crossing_contained_witness :
  last_crossing_time (set_last_crossing_time sample_handler ENTRY 10) EXIT
  = last_crossing_time sample_handler EXIT.
Proof.
  exact (proj1 (proj1 (check_crossing_contained sample_handler
                         sample_contours ENTRY (Some (Raises ValueError)) 10)
                  (set_last_crossing_time sample_handler ENTRY 10)
                  (declaration ENTRY
                     :: call_back ENTRY (Some (Raises ValueError)))
                  ltac:(vm_compute; reflexivity))).
Defined.

End CameraMore.

(** ** config_manager.py: saving, and what a saved file is good for *)

Module ConfigMore.
Import ConfigManager ConfigStore ConfigFacts.

Lemma validate_parts (c : json) :
  _validate_config c = true ->
  valid_zone c "entry_zone" = true /\ valid_zone c "exit_zone" = true
  /\ valid_line c "entry_virtual_line_position" = true
  /\ valid_line c "exit_virtual_line_position" = true.
Proof.
  unfold _validate_config. cbn [forallb].
  rewrite !andb_true_iff. tauto.
Qed.

Lemma valid_zone_spec (c : json) (name : string) :
  valid_zone c name = true ->
  exists kv zone x1 y1 x2 y2,
    c = JObj kv /\ lookup name kv = Some zone
    /\ zone_tuple zone = ok (x1, y1, x2, y2)
    /\ is_int x1 = true /\ is_int y1 = true
    /\ is_int x2 = true /\ is_int y2 = true.
Proof.
  unfold valid_zone, zone_tuple.
  destruct c as [| | | | |l|kv]; simpl; try discriminate.
  destruct (lookup name kv) as [zone|] eqn:Hzone; [|discriminate]. simpl.
  destruct (py_subscript zone "x1") as [e|x1] eqn:Hx1; simpl;
    [discriminate|].
  destruct (py_subscript zone "y1") as [e|y1] eqn:Hy1; simpl;
    [rewrite andb_false_r; discriminate|].
  destruct (py_subscript zone "x2") as [e|x2] eqn:Hx2; simpl;
    [rewrite !andb_false_r; discriminate|].
  destruct (py_subscript zone "y2") as [e|y2] eqn:Hy2; simpl;
    [rewrite !andb_false_r; discriminate|].
  rewrite !andb_true_iff. intros [H1 [H2 [H3 [H4 _]]]].
  exists kv, zone, x1, y1, x2, y2.
  rewrite Hx1, Hy1, Hx2, Hy2.
  exact (conj eq_refl (conj Hzone (conj eq_refl
           (conj H1 (conj H2 (conj H3 H4)))))).
Qed.

Lemma valid_line_spec (c : json) (name : string) :
  valid_line c name = true ->
  exists kv v q,
    c = JObj kv /\ lookup name kv = Some v /\ as_number v = ok q
    /\ (0 <= q <= 1)%Q.
Proof.
  unfold valid_line.
  destruct c as [| | | | |l|kv]; simpl; try discriminate.
  destruct (lookup name kv) as [v|] eqn:Hv; [|discriminate].
  destruct v as [|b|n|q|s|l|kv']; cbn [as_number]; try discriminate;
    intros H; apply andb_true_iff in H; rewrite !Qle_bool_iff in H;
    eexists kv, _, _; (split; [reflexivity|]);
    (split; [exact Hv|]); (split; [reflexivity|exact H]).
Qed.

Lemma save_config_true (self : t) (c : json) :
  fst (save_config self c) = true ->
  _validate_config c = true
  /\ snd (save_config self c)
     = {| config_file := Content c; writable := true; config := Some c |}.
Proof.
  unfold save_config.
  destruct (_validate_config c); [|discriminate].
  destruct (writable self); [|discriminate]. now split.
Qed.

Lemma int_is_bound (x : json) :
  is_int x = true ->
  CameraHandler.slice_bound x = ok tt /\ exists n, as_int x = ok n.
Proof.
  destruct x; simpl; try discriminate; intros _;
    (split; [reflexivity|eexists; reflexivity]).
Qed.

Lemma zone_row_resolves (h : CameraHandler.t) (z : Zone)
  (x1 y1 x2 y2 : json) (line : Z) :
  zone_tuple (CameraHandler.zone_of h z) = ok (x1, y1, x2, y2) ->
  is_int x1 = true -> is_int y1 = true ->
  is_int x2 = true -> is_int y2 = true ->
  CameraHandler.virtual_line_y h z = Some line ->
  exists top, as_int y1 = ok top
              /\ CameraHandler.zone_virtual_line_y h z = ok (line - top).
Proof.
  unfold zone_tuple, CameraHandler.zone_virtual_line_y.
  intros Ht Hx1 Hy1 Hx2 Hy2 Hline.
  destruct (py_subscript (CameraHandler.zone_of h z) "x1") as [e|a]; simpl in *;
    [discriminate|].
  destruct (py_subscript (CameraHandler.zone_of h z) "y1") as [e|b]; simpl in *;
    [discriminate|].
  destruct (py_subscript (CameraHandler.zone_of h z) "x2") as [e|c]; simpl in *;
    [discriminate|].
  destruct (py_subscript (CameraHandler.zone_of h z) "y2") as [e|d]; simpl in *;
    [discriminate|].
  injection Ht as -> -> -> ->.
  destruct (int_is_bound _ Hx1) as [-> _].
  destruct (int_is_bound _ Hy1) as [-> [top Htop]].
  destruct (int_is_bound _ Hx2) as [-> _].
  destruct (int_is_bound _ Hy2) as [-> _].
  simpl. rewrite Hline, Htop. simpl. exists top. now split.
Qed.

(** A configuration that validates starts the camera handler. *)
Lemma validated_starts_camera (c : json) :
  _validate_config c = true ->
  exists h,
    fst (CameraHandler.init true (Content c)) = ok h
    /\ py_subscript c "entry_zone" = ok (CameraHandler.entry_zone h)
    /\ py_subscript c "exit_zone" = ok (CameraHandler.exit_zone h)
    /\ forall (h' : CameraHandler.t) (z : Zone) (line : Z),
         CameraHandler.zone_of h' z = CameraHandler.zone_of h z ->
         CameraHandler.virtual_line_y h' z = Some line ->
         exists row, CameraHandler.zone_virtual_line_y h' z = ok row.
Proof.
  intros Hvalid.
  destruct (validate_parts c Hvalid) as [He [Hx _]].
  destruct (valid_zone_spec c _ He)
    as [kv [ez [a1 [b1 [a2 [b2 [-> [Hez [Hte [Ha1 [Hb1 [Ha2 Hb2]]]]]]]]]]]].
  destruct (valid_zone_spec _ _ Hx)
    as [kv' [xz [c1 [d1 [c2 [d2 [Heq [Hxz [Htx [Hc1 [Hd1 [Hc2 Hd2]]]]]]]]]]]].
  injection Heq as <-.
  unfold CameraHandler.init. rewrite load_config_content.
  cbn [py_subscript py_get_default rbind ok]. rewrite Hez, Hxz.
  cbn [rbind ok fst]. eexists. split; [reflexivity|].
  cbn [CameraHandler.entry_zone CameraHandler.exit_zone].
  refine (conj eq_refl (conj eq_refl _)).
  intros h' z line Hzone Hline.
  destruct z; cbn [CameraHandler.zone_of CameraHandler.entry_zone
                   CameraHandler.exit_zone] in Hzone.
  - destruct (zone_row_resolves h' ENTRY a1 b1 a2 b2 line) as [top [_ H]];
      try assumption; [|now exists (line - top)].
    cbn [CameraHandler.zone_of]. now rewrite Hzone.
  - destruct (zone_row_resolves h' EXIT c1 d1 c2 d2 line) as [top [_ H]];
      try assumption; [|now exists (line - top)].
    cbn [CameraHandler.zone_of]. now rewrite Hzone.
Qed.

(** X24. A configuration that [save_config] accepted is read back as
    it was saved, and the camera handler starts from it: [__init__]
    finds both zones in the file, and once the trigger row of a zone is
    set, the row relative to the zone is computed without an error. *)
Theorem saved_config_starts_camera (self : t) (c : json) :
  fst (save_config self c) = true ->
  fst (fst (load_config (snd (save_config self c)))) = c
  /\ exists h,
       fst (CameraHandler.init true (config_file (snd (save_config self c))))
       = ok h
       /\ py_subscript c "entry_zone" = ok (CameraHandler.entry_zone h)
       /\ py_subscript c "exit_zone" = ok (CameraHandler.exit_zone h)
       /\ forall (h' : CameraHandler.t) (z : Zone) (line : Z),
            CameraHandler.zone_of h' z = CameraHandler.zone_of h z ->
            CameraHandler.virtual_line_y h' z = Some line ->
            exists row, CameraHandler.zone_virtual_line_y h' z = ok row.
Proof.
  intros Hsave. destruct (save_config_true self c Hsave) as [Hvalid ->].
  cbn [config_file]. split; [reflexivity|].
  exact (validated_starts_camera c Hvalid).
Qed.

(** X25. After [save_config] accepted a configuration, the getters
    answer from it without reloading and without an error: the zone
    getters return four integers, and the line getters a number between
    0 and 1. *)
Theorem getters_after_save (self : t) (c : json) :
  fst (save_config self c) = true ->
  let self' := snd (save_config self c) in
  (exists x1 y1 x2 y2,
      get_entry_zone self' = (ok (x1, y1, x2, y2), self')
      /\ is_int x1 = true /\ is_int y1 = true
      /\ is_int x2 = true /\ is_int y2 = true)
  /\ (exists x1 y1 x2 y2,
        get_exit_zone self' = (ok (x1, y1, x2, y2), self')
        /\ is_int x1 = true /\ is_int y1 = true
        /\ is_int x2 = true /\ is_int y2 = true)
  /\ (exists p q,
        get_entry_virtual_line_position self' = (ok p, self')
        /\ get_virtual_line_position self' = (ok p, self')
        /\ as_number p = ok q /\ (0 <= q <= 1)%Q)
  /\ (exists p q,
        get_exit_virtual_line_position self' = (ok p, self')
        /\ as_number p = ok q /\ (0 <= q <= 1)%Q).
Proof.
  intros Hsave. destruct (save_config_true self c Hsave) as [Hvalid ->].
  cbv zeta.
  destruct (validate_parts c Hvalid) as [He [Hx [Hel Hxl]]].
  destruct (valid_zone_spec c _ He)
    as [kv [ez [a1 [b1 [a2 [b2 [-> [Hez [Hte [Ha1 [Hb1 [Ha2 Hb2]]]]]]]]]]]].
  destruct (valid_zone_spec _ _ Hx)
    as [kv' [xz [c1 [d1 [c2 [d2 [Heq [Hxz [Htx [Hc1 [Hd1 [Hc2 Hd2]]]]]]]]]]]].
  injection Heq as <-.
  destruct (valid_line_spec _ _ Hel) as [kv' [p [q [Heq [Hp [Hq Hr]]]]]].
  injection Heq as <-.
  destruct (valid_line_spec _ _ Hxl) as [kv' [p' [q' [Heq [Hp' [Hq' Hr']]]]]].
  injection Heq as <-.
  unfold get_virtual_line_position, get_entry_zone, get_exit_zone,
    get_entry_virtual_line_position, get_exit_virtual_line_position,
    ensure_loaded.
  cbn [config py_subscript py_get_default rbind ok].
  rewrite Hez, Hxz, Hp, Hp'. cbn [rbind ok]. rewrite Hte, Htx.
  refine (conj _ (conj _ (conj _ _))).
  - exists a1, b1, a2, b2. now repeat split.
  - exists c1, d1, c2, d2. now repeat split.
  - exists p, q. now repeat split.
  - exists p', q'. now repeat split.
Qed.

Lemma saved_config_starts_camera_witness :
  fst (fst (load_config
              (snd (save_config
                      {| config_file := Absent; writable := true;
                         config := None |}
                      DEFAULT_CONFIG))))
  = DEFAULT_CONFIG.
Proof.
  exact (proj1 (saved_config_starts_camera
                  {| config_file := Absent; writable := true; config := None |}
                  DEFAULT_CONFIG eq_refl)).
Defined.

Lemma getters_after_save_witness :
  exists x1 y1 x2 y2,
    get_entry_zone
      (snd (save_config
              {| config_file := Absent; writable := true; config := None |}
              DEFAULT_CONFIG))
    = (ok (x1, y1, x2, y2),
       snd (save_config
              {| config_file := Absent; writable := true; config := None |}
              DEFAULT_CONFIG))
    /\ is_int x1 = true /\ is_int y1 = true
    /\ is_int x2 = true /\ is_int y2 = true.
Proof.
  exact (proj1 (getters_after_save
                  {| config_file := Absent; writable := true; config := None |}
                  DEFAULT_CONFIG eq_refl)).
Defined.

End ConfigMore.

(** ** serial_comm.py *)

Module SerialMore.
Import SerialCommunicator SerialSpec.

Lemma read_loop_spec (lines : list line) :
  forall (fuel : nat) (self : t),
    is_connected self = true -> is_open self = true ->
    pending self = lines -> (List.length lines < fuel)%nat ->
    fst (read_loop fuel self) = messages_until_stop lines
    /\ pending (snd (read_loop fuel self)) = left_after lines
    /\ wire (snd (read_loop fuel self)) = wire self
    /\ is_open (snd (read_loop fuel self)) = true
    /\ is_connected (snd (read_loop fuel self))
       = negb (stopped_by_failure lines).
Proof.
  induction lines as [|l rest IH]; intros fuel self Hc Ho Hp Hfuel;
    (destruct fuel as [|fuel]; [simpl in Hfuel; lia|]);
    cbn [read_loop]; unfold read_message; rewrite Hc, Ho, Hp; cbn [negb orb].
  - cbn. now rewrite Hp, Hc, Ho.
  - destruct l as [[|c m]| |]; cbn [fst snd messages_until_stop left_after
                                     stopped_by_failure with_pending pending
                                     wire is_open is_connected negb].
    + rewrite ?Hc, ?Ho. now repeat split.
    + specialize (IH fuel (with_pending self rest) Hc Ho eq_refl
                    ltac:(simpl in Hfuel; lia)).
      destruct (read_loop fuel (with_pending self rest)) as [ms s'].
      cbn [fst snd] in IH |- *. destruct IH as [-> [-> [-> [-> ->]]]].
      now repeat split.
    + rewrite ?Hc, ?Ho. now repeat split.
    + rewrite ?Hc, ?Ho. now repeat split.
Qed.

(** X26. On an open connection [read_all_messages] returns the
    messages at the head of the input buffer, up to the first line that
    is blank, cannot be decoded or fails to be read; a blank or
    undecodable line is consumed and the lines after it stay in the
    buffer.  It never returns a blank message, writes nothing, and has
    come to its end: more iterations of its loop give the same.  It
    marks the connection as lost exactly when a read failed.  On a
    connection that is not open it returns nothing and changes
    nothing. *)
Theorem read_all_messages_spec (self : t) :
  (is_connected self = true -> is_open self = true ->
   fst (read_all_messages self) = messages_until_stop (pending self)
   /\ (stopped_by_failure (pending self) = false ->
       pending (snd (read_all_messages self)) = left_after (pending self))
   /\ wire (snd (read_all_messages self)) = wire self
   /\ ~ In EmptyString (fst (read_all_messages self))
   /\ is_connected (snd (read_all_messages self))
      = negb (stopped_by_failure (pending self))
   /\ forall fuel,
        (List.length (pending self) < fuel)%nat ->
        read_loop fuel self = read_all_messages self)
  /\ (is_connected self = false \/ is_open self = false ->
      read_all_messages self = ([], self)).
Proof.
  split.
  - intros Hc Ho. unfold read_all_messages.
    destruct (read_loop_spec (pending self) (S (List.length (pending self)))
                self Hc Ho eq_refl ltac:(lia))
      as [Hm [Hp [Hw [Ho' Hc']]]].
    refine (conj Hm (conj (fun _ => Hp) (conj Hw (conj _ (conj Hc' _))))).
    + rewrite Hm. clear. induction (pending self) as [|[[|c m]| |] rest IH];
        simpl; try tauto. intros [H|H]; [discriminate|tauto].
    + intros fuel Hfuel.
      destruct (read_loop_spec (pending self) fuel self Hc Ho eq_refl Hfuel)
        as [Hm2 [Hp2 [Hw2 [Ho2 Hc2]]]].
      destruct (read_loop fuel self) as [ms [c o p w]].
      destruct (read_loop (S (List.length (pending self))) self)
        as [ms' [c' o' p' w']].
      cbn [fst snd pending wire is_open is_connected] in *. congruence.
  - intros H. unfold read_all_messages. cbn [read_loop]. unfold read_message.
    destruct H as [-> | ->]; [reflexivity|].
    now rewrite orb_true_r.
Qed.

Lemma read_all_messages_spec_witness :
  fst (read_all_messages
         {| is_connected := true; is_open := true;
            pending := [Text "SLOT_OCCUPIED"; Text ""; Text "SLOT_FREE"];
            wire := [] |})
  = messages_until_stop [Text "SLOT_OCCUPIED"; Text ""; Text "SLOT_FREE"].
Proof.
  exact (proj1 (proj1 (read_all_messages_spec
                         {| is_connected := true; is_open := true;
                            pending := [Text "SLOT_OCCUPIED"; Text "";
                                        Text "SLOT_FREE"];
                            wire := [] |})
                  eq_refl eq_refl)).
Defined.

(** X27. [send_command] returns [True] exactly when the write went
    through on a connection that was open or could be opened again; the
    command followed by a newline has then been written after what was
    written before, and the connection is open.  On an open connection
    the input buffer is left alone; a command sent over a connection
    that had to be opened again finds it empty. *)
Theorem send_command_spec (port_opens : bool) (outcome : write_outcome)
  (self : t) (command : string) :
  (fst (send_command port_opens outcome self command) = true
   <-> outcome = Written
       /\ (is_connected self && is_open self = true \/ port_opens = true))
  /\ (fst (send_command port_opens outcome self command) = true ->
      wire (snd (send_command port_opens outcome self command))
      = wire self ++ [(command ++ String "010" EmptyString)%string]
      /\ is_connected (snd (send_command port_opens outcome self command))
         = true
      /\ is_open (snd (send_command port_opens outcome self command)) = true)
  /\ (is_connected self = true -> is_open self = true ->
      pending (snd (send_command port_opens outcome self command))
      = pending self)
  /\ (is_connected self = false \/ is_open self = false ->
      fst (send_command port_opens outcome self command) = true ->
      pending (snd (send_command port_opens outcome self command)) = []).
Proof.
  unfold send_command, connect.
  destruct (is_connected self) eqn:Hc, (is_open self) eqn:Ho,
    port_opens, outcome;
    cbn [negb orb andb fst snd wire pending is_connected is_open];
    refine (conj _ (conj _ (conj _ _)));
    try (split; intros H); try intros H; try intros H';
    try discriminate; try reflexivity; try tauto; try (now repeat split);
    try (destruct H as [H1 [H2|H2]]; discriminate);
    try (destruct H; discriminate).
Qed.

Lemma send_command_spec_witness :
  wire (snd (send_command true Written
               {| is_connected := false; is_open := false;
                  pending := [Text "SLOT_FREE"]; wire := [] |}
               "OPEN_ENTRY_GATE"))
  = [("OPEN_ENTRY_GATE" ++ String "010" EmptyString)%string]
  /\ pending (snd (send_command true Written
                     {| is_connected := false; is_open := false;
                        pending := [Text "SLOT_FREE"]; wire := [] |}
                     "OPEN_ENTRY_GATE"))
     = [].
Proof.
  split.
  - exact (proj1 (proj1 (proj2 (send_command_spec true Written
                           {| is_connected := false; is_open := false;
                              pending := [Text "SLOT_FREE"]; wire := [] |}
                           "OPEN_ENTRY_GATE"))
                    eq_refl)).
  - exact (proj2 (proj2 (proj2 (send_command_spec true Written
                           {| is_connected := false; is_open := false;
                              pending := [Text "SLOT_FREE"]; wire := [] |}
                           "OPEN_ENTRY_GATE")))
             (or_introl eq_refl) eq_refl).
Defined.

End SerialMore.

(** ** configure_zones.py *)

Module ZoneMore.
Import ZoneConfigurator ZoneSpec ConfigManager.

Lemma click_length (points : list (Z * Z)) (x y : Z) :
  (List.length points <= 2)%nat ->
  (List.length (click points x y) <= 2)%nat.
Proof.
  destruct points as [|p [|q [|r rest]]]; simpl; lia.
Qed.

Ltac fields :=
  cbn [entry_points exit_points entry_virtual_line_y exit_virtual_line_y
       mode with_entry_points with_exit_points with_entry_line
       with_exit_line with_mode] in *.

Ltac settle_wf :=
  unfold well_formed in *; fields;
  intuition (try congruence; try discriminate; auto using click_length).

Lemma step_well_formed (s s' : t) (m m' : ConfigStore.t) (i : input) :
  well_formed s -> step s m i = Some (s', m') -> well_formed s'.
Proof.
  intros Hwf. destruct i as [ev x y|key frame|]; cbn [step];
    [| |discriminate].
  - intros [= <- _]. destruct ev; [|exact Hwf]. unfold mouse_callback.
    destruct s as [ep xp el xl md]. fields. destruct md; settle_wf.
  - unfold on_key.
    destruct (Z.land key 255 =? 113); [discriminate|].
    destruct (Z.land key 255 =? 101).
    { intros [= <- _]. destruct (complete (entry_points s)) eqn:Hc;
        [|exact Hwf].
      destruct s as [ep xp el xl md]. settle_wf. }
    destruct (Z.land key 255 =? 118).
    { intros [= <- _].
      destruct (complete (entry_points s) && complete (exit_points s)) eqn:Hc;
        [|exact Hwf].
      apply andb_true_iff in Hc. destruct Hc as [Hc1 Hc2].
      destruct s as [ep xp el xl md]. settle_wf. }
    destruct (Z.land key 255 =? 120).
    { intros [= <- _].
      destruct (complete (exit_points s)
                && match entry_virtual_line_y s with
                   | Some _ => true
                   | None => false
                   end) eqn:Hc; [|exact Hwf].
      apply andb_true_iff in Hc. destruct Hc as [Hc1 Hc2].
      destruct s as [ep xp el xl md]. fields.
      destruct el as [line|]; [|discriminate].
      destruct md; settle_wf. }
    destruct (Z.land key 255 =? 115).
    { destruct (save_configuration s frame m) as [[| |] m1];
        [intros [= <- _]| intros [= <- _]|discriminate]; exact Hwf. }
    destruct (Z.land key 255 =? 114); [|intros [= <- _]; exact Hwf].
    intros [= <- _]. unfold reset_current_zone.
    destruct s as [ep xp el xl md]. fields.
    destruct md; settle_wf; simpl; lia.
Qed.

Lemma run_well_formed (inputs : list input) :
  forall (s : t) (m : ConfigStore.t),
    well_formed s -> well_formed (fst (run s m inputs)).
Proof.
  induction inputs as [|i rest IH]; intros s m Hwf; cbn [run];
    [exact Hwf|].
  destruct (step s m i) as [[s' m']|] eqn:Hstep; [|exact Hwf].
  apply IH. exact (step_well_formed s s' m m' i Hwf Hstep).
Qed.

Lemma step_keeps_entry (s s' : t) (m m' : ConfigStore.t) (i : input) :
  mode s <> ModeEntry -> step s m i = Some (s', m') ->
  mode s' <> ModeEntry /\ entry_points s' = entry_points s.
Proof.
  intros Hm. destruct i as [ev x y|key frame|]; cbn [step];
    [| |discriminate].
  - intros [= <- _]. destruct ev; [|now split]. unfold mouse_callback.
    destruct s as [ep xp el xl md]. fields.
    destruct md; fields; now split.
  - unfold on_key.
    destruct (Z.land key 255 =? 113); [discriminate|].
    destruct (Z.land key 255 =? 101).
    { intros [= <- _]. destruct (complete (entry_points s));
        fields; split; trivial; discriminate. }
    destruct (Z.land key 255 =? 118).
    { intros [= <- _].
      destruct (complete (entry_points s) && complete (exit_points s));
        fields; split; trivial; discriminate. }
    destruct (Z.land key 255 =? 120).
    { intros [= <- _].
      destruct (complete (exit_points s) && _);
        fields; split; trivial; discriminate. }
    destruct (Z.land key 255 =? 115).
    { destruct (save_configuration s frame m) as [[| |] m1];
        [intros [= <- _]| intros [= <- _]|discriminate]; now split. }
    destruct (Z.land key 255 =? 114); [|intros [= <- _]; now split].
    intros [= <- _]. unfold reset_current_zone.
    destruct s as [ep xp el xl md]. fields.
    destruct md; fields; now split.
Qed.

(** X28. Whatever the user clicks and types, the selection of the
    configuration tool stays well formed: a zone never has more than
    two corners, the tool is past the entry step only with a complete
    entry zone, at the line steps only with a complete exit zone, and
    at the exit line only with the entry line set.  There is no way
    back to the entry step: once it is left, the entry zone stays as it
    is. *)
Theorem configurator_well_formed (manager : ConfigStore.t)
  (inputs : list input) :
  well_formed (fst (run init manager inputs))
  /\ forall (s : t) (m : ConfigStore.t) (later : list input),
       mode s <> ModeEntry ->
       mode (fst (run s m later)) <> ModeEntry
       /\ entry_points (fst (run s m later)) = entry_points s.
Proof.
  split.
  - apply run_well_formed. unfold well_formed, init. fields.
    repeat split; try discriminate; simpl; try lia.
    + intros H. now destruct H.
    + intros [H|H]; discriminate.
  - intros s m later. revert s m.
    induction later as [|i rest IH]; intros s m Hm; cbn [run];
      [now split|].
    destruct (step s m i) as [[s' m']|] eqn:Hstep; [|now split].
    destruct (step_keeps_entry s s' m m' i Hm Hstep) as [Hm' <-].
    exact (IH s' m' Hm').
Qed.

Lemma configurator_well_formed_witness :
  well_formed
    (fst (run init
            {| ConfigStore.config_file := Absent;
               ConfigStore.writable := true; ConfigStore.config := None |}
            [Mouse LButtonDown 10 20; Mouse LButtonDown 300 200; Key 101 None;
             Key 114 None]))
  /\ entry_points
       (fst (run (with_mode (with_entry_points init [(10, 20); (300, 200)])
                    ModeExit)
               {| ConfigStore.config_file := Absent;
                  ConfigStore.writable := true; ConfigStore.config := None |}
               [Key 114 None; Mouse LButtonDown 1 1]))
     = [(10, 20); (300, 200)].
Proof.
  split.
  - exact (proj1 (configurator_well_formed _ _)).
  - exact (proj2 (proj2 (configurator_well_formed
                           {| ConfigStore.config_file := Absent;
                              ConfigStore.writable := true;
                              ConfigStore.config := None |} [])
                    (with_mode (with_entry_points init [(10, 20); (300, 200)])
                       ModeExit)
                    _ [Key 114 None; Mouse LButtonDown 1 1]
                    ltac:(discriminate))).
Defined.

Lemma ratio_in_unit (y h : Z) :
  0 < h -> 0 <= y <= h ->
  Qle_bool 0 (inject_Z y / inject_Z h)
  && Qle_bool (inject_Z y / inject_Z h) 1 = true.
Proof.
  intros Hh Hy. apply andb_true_iff. rewrite !Qle_bool_iff.
  assert (Hpos : (0 < inject_Z h)%Q) by (unfold Qlt; simpl; lia).
  split.
  - apply Qle_shift_div_l; [exact Hpos|]. rewrite Qmult_0_l.
    change 0%Q with (inject_Z 0). rewrite <- Zle_Qle. lia.
  - apply Qle_shift_div_r; [exact Hpos|]. rewrite Qmult_1_l.
    rewrite <- Zle_Qle. lia.
Qed.

Lemma build_config_valid (p1 p2 q1 q2 : Z * Z) (ey xy h w : Z) :
  0 < h -> 0 <= ey <= h -> 0 <= xy <= h ->
  _validate_config (build_config p1 p2 q1 q2 ey xy h w) = true.
Proof.
  intros Hh He Hx. unfold _validate_config, build_config.
  cbn [forallb has_key lookup String.eqb Ascii.eqb Bool.eqb andb
       valid_zone valid_line py_subscript zone_dict is_int as_number ok].
  now rewrite (ratio_in_unit ey h Hh He), (ratio_in_unit xy h Hh Hx).
Qed.

Lemma build_config_zones (p1 p2 q1 q2 : Z * Z) (ey xy h w : Z) :
  exists ez xz,
    py_subscript (build_config p1 p2 q1 q2 ey xy h w) "entry_zone" = ok ez
    /\ ordered_zone ez
    /\ py_subscript (build_config p1 p2 q1 q2 ey xy h w) "exit_zone" = ok xz
    /\ ordered_zone xz.
Proof.
  eexists _, _. unfold build_config.
  refine (conj eq_refl (conj _ (conj eq_refl _))).
  - eexists _, _, _, _. split; [reflexivity|]. lia.
  - eexists _, _, _, _. split; [reflexivity|]. lia.
Qed.

(** X29. When [save_configuration] returns [True], the file holds a
    configuration that passes [_validate_config], with both zones as
    rectangles whose corners are in order, and the camera handler
    starts from it.  When it does not, the file and the manager are as
    they were.  It returns [True] whenever both zones are complete,
    both rows are set within a frame of positive height, and the file
    can be written. *)
Theorem saved_configuration_is_valid (self : t) (frame : option (Z * Z))
  (manager : ConfigStore.t) :
  (fst (save_configuration self frame manager) = Saved ->
   exists c h,
     ConfigStore.config_file (snd (save_configuration self frame manager))
     = Content c
     /\ _validate_config c = true
     /\ (exists ez xz,
           py_subscript c "entry_zone" = ok ez /\ ordered_zone ez
           /\ py_subscript c "exit_zone" = ok xz /\ ordered_zone xz)
     /\ fst (CameraHandler.init true (Content c)) = ok h)
  /\ (fst (save_configuration self frame manager) <> Saved ->
      snd (save_configuration self frame manager) = manager)
  /\ (forall p1 p2 q1 q2 ey xy h w,
        entry_points self = [p1; p2] -> exit_points self = [q1; q2] ->
        entry_virtual_line_y self = Some ey ->
        exit_virtual_line_y self = Some xy ->
        frame = Some (h, w) ->
        0 < h -> 0 <= ey <= h -> 0 <= xy <= h ->
        ConfigStore.writable manager = true ->
        fst (save_configuration self frame manager) = Saved).
Proof.
  refine (conj _ (conj _ _)).
  - unfold save_configuration.
    destruct (entry_points self) as [|p1 [|p2 [|p3 ps]]];
      try (cbn; discriminate).
    destruct (exit_points self) as [|q1 [|q2 [|q3 qs]]];
      try (cbn; discriminate).
    destruct (entry_virtual_line_y self) as [ey|]; [|cbn; discriminate].
    destruct (exit_virtual_line_y self) as [xy|]; [|cbn; discriminate].
    destruct frame as [[h w]|]; [|cbn; discriminate].
    destruct (h =? 0); [cbn; discriminate|].
    destruct (ConfigStore.save_config manager _) as [saved manager'] eqn:Hs.
    destruct saved; [|cbn; discriminate]. intros _. cbn [snd].
    destruct (ConfigMore.save_config_true manager _
                ltac:(rewrite Hs; reflexivity)) as [Hvalid Hm].
    rewrite Hs in Hm. cbn [snd] in Hm. subst manager'.
    destruct (ConfigMore.validated_starts_camera _ Hvalid) as [hd [Hinit _]].
    eexists _, hd. cbn [ConfigStore.config_file].
    refine (conj eq_refl (conj Hvalid (conj _ Hinit))).
    apply build_config_zones.
  - unfold save_configuration.
    destruct (entry_points self) as [|p1 [|p2 [|p3 ps]]]; try reflexivity.
    destruct (exit_points self) as [|q1 [|q2 [|q3 qs]]]; try reflexivity.
    destruct (entry_virtual_line_y self) as [ey|]; [|reflexivity].
    destruct (exit_virtual_line_y self) as [xy|]; [|reflexivity].
    destruct frame as [[h w]|]; [|reflexivity].
    destruct (h =? 0); [reflexivity|].
    unfold ConfigStore.save_config.
    destruct (_validate_config _); [|reflexivity].
    destruct (ConfigStore.writable manager); [|reflexivity].
    cbn. congruence.
  - intros p1 p2 q1 q2 ey xy h w Hep Hxp Hel Hxl Hf Hh He Hx Hw.
    unfold save_configuration. rewrite Hep, Hxp, Hel, Hxl, Hf.
    replace (h =? 0) with false by (symmetry; apply Z.eqb_neq; lia).
    unfold ConfigStore.save_config.
    rewrite (build_config_valid p1 p2 q1 q2 ey xy h w Hh He Hx), Hw.
    reflexivity.
Qed.

Lemma saved_configuration_is_valid_witness :
  fst (save_configuration
         {| entry_points := [(10, 20); (300, 200)];
            exit_points := [(900, 400); (700, 100)];
            entry_virtual_line_y := Some 120;
            exit_virtual_line_y := Some 250;
            mode := ModeExitVirtualLine |}
         (Some (480, 1280))
         {| ConfigStore.config_file := Absent;
            ConfigStore.writable := true; ConfigStore.config := None |})
  = Saved.
Proof.
  exact (proj2 (proj2 (saved_configuration_is_valid
                         {| entry_points := [(10, 20); (300, 200)];
                            exit_points := [(900, 400); (700, 100)];
                            entry_virtual_line_y := Some 120;
                            exit_virtual_line_y := Some 250;
                            mode := ModeExitVirtualLine |}
                         (Some (480, 1280))
                         {| ConfigStore.config_file := Absent;
                            ConfigStore.writable := true;
                            ConfigStore.config := None |}))
           (10, 20) (300, 200) (900, 400) (700, 100) 120 250 480 1280
           eq_refl eq_refl eq_refl eq_refl eq_refl
           ltac:(lia) ltac:(lia) ltac:(lia) eq_refl).
Defined.

End ZoneMore.
